(** * llmproxy_auth: storage handler, model routing and Bedrock translation

    A shallow embedding of the gateway's storage handler
    ([internal/handlers/storage.go]), the S3 presigner, the model routers
    ([internal/router]) and the OpenAI <-> Bedrock translators
    ([internal/translator]), with the properties the specification states
    about them.

    Go strings are byte sequences and are modelled by [string] (a list of
    8-bit [ascii]); Go [int] is 64 bits wide and is modelled by [Z] with the
    range written out where the code depends on it; [float64] is the
    primitive binary64 type; Go maps are [gmap]s. *)

From Stdlib Require Import ZArith String Ascii List Bool Lia PrimFloat.
From Stdlib Require Import DecimalString.
From stdpp Require Import gmap strings.

Local Open Scope string_scope.
Local Open Scope list_scope.
Local Open Scope Z_scope.

(* ===================================================================== *)
(** * Part I: definitions *)
(* ===================================================================== *)

(** ** The functions of Go's [strings] and [strconv] packages the code calls *)

Module strings.

Definition len (s : string) : nat := String.length s.

(** [s[i:j]] for [i <= j <= len s]. *)
Definition slice (s : string) (i j : nat) : string := substring i (j - i) s.

(** [s[i:]]. *)
Definition slice_from (s : string) (i : nat) : string :=
  substring i (len s - i) s.

Definition HasPrefix (s prefix : string) : bool := String.prefix prefix s.

Definition HasSuffix (s suffix : string) : bool :=
  (len suffix <=? len s)%nat
  && String.eqb (slice_from s (len s - len suffix)) suffix.

(** [strings.Index]: [None] stands for Go's -1. *)
Definition Index (s substr : string) : option nat := String.index 0 substr s.

Definition Contains (s substr : string) : bool :=
  match Index s substr with Some _ => true | None => false end.

Definition TrimPrefix (s prefix : string) : string :=
  if HasPrefix s prefix then slice_from s (len prefix) else s.

(** [strings.SplitN s sep n] for a non-empty separator and [n >= 0]: at
    most [n] pieces, the last one being the unsplit remainder. *)
Fixpoint SplitN (s sep : string) (n : nat) : list string :=
  match n with
  | O => []
  | S O => [s]
  | S n' =>
      match Index s sep with
      | None => [s]
      | Some m => slice s 0 m :: SplitN (slice_from s (m + len sep)) sep n'
      end
  end.

(** [strings.Split s sep] for a non-empty separator: every piece. *)
Definition Split (s sep : string) : list string := SplitN s sep (S (len s)).

Definition Join (elems : list string) (sep : string) : string :=
  String.concat sep elems.

Fixpoint concat_all (l : list string) : string :=
  match l with
  | [] => ""
  | s :: l' => s +:+ concat_all l'
  end.

End strings.

Module strconv.

Definition digit (c : ascii) : option Z :=
  let n := nat_of_ascii c in
  if (48 <=? n)%nat && (n <=? 57)%nat then Some (Z.of_nat (n - 48)) else None.

Fixpoint digits (s : string) (acc : Z) : option Z :=
  match s with
  | EmptyString => Some acc
  | String c s' =>
      match digit c with
      | Some d => digits s' (acc * 10 + d)
      | None => None
      end
  end.

Definition minInt : Z := - 2 ^ 63.
Definition maxInt : Z := 2 ^ 63 - 1.

(** [strconv.Atoi] on a 64-bit platform: an optional sign followed by at
    least one decimal digit, the value within the range of [int]; every
    other input is an error ([None]). *)
Definition Atoi (s : string) : option Z :=
  let '(neg, body) :=
    match s with
    | String "-"%char r => (true, r)
    | String "+"%char r => (false, r)
    | _ => (false, s)
    end in
  match body with
  | EmptyString => None
  | _ =>
      match digits body 0 with
      | None => None
      | Some v =>
          let v := if neg then - v else v in
          if (minInt <=? v) && (v <=? maxInt) then Some v else None
      end
  end.

End strconv.

(** ** Values of type [interface{}] and JSON documents

    The values [encoding/json] decodes into an [interface{}] and the
    documents it encodes.  A decoded number is a [JFloat]; [JInt] is an
    encoded Go integer.  An object keeps its members in the order they are
    written (struct fields in declaration order, map keys sorted). *)

#[warnings="-register-all"]
Inductive JSON : Type :=
| JNull
| JBool (b : bool)
| JInt (n : Z)
| JFloat (f : float)
| JStr (s : string)
| JArr (elems : list JSON)
| JObj (members : list (string * JSON)).

Module json.

(** Member lookup, as [m[key]] on a [map[string]interface{}] and as field
    access on a decoded document. *)
Fixpoint assoc (key : string) (members : list (string * JSON)) : option JSON :=
  match members with
  | [] => None
  | (k, v) :: rest => if String.eqb k key then Some v else assoc key rest
  end.

Definition get (key : string) (v : JSON) : option JSON :=
  match v with
  | JObj members => assoc key members
  | _ => None
  end.

(** Descent along a path of member names. *)
Fixpoint path (names : list string) (v : JSON) : option JSON :=
  match names with
  | [] => Some v
  | name :: rest =>
      match get name v with
      | Some x => path rest x
      | None => None
      end
  end.

Definition keys (v : JSON) : list string :=
  match v with
  | JObj members => map fst members
  | _ => []
  end.

(** [v.(string)] *)
Definition as_string (v : option JSON) : option string :=
  match v with
  | Some (JStr s) => Some s
  | _ => None
  end.

(** [v.(map[string]interface{})] *)
Definition as_map (v : option JSON) : option (list (string * JSON)) :=
  match v with
  | Some (JObj m) => Some m
  | _ => None
  end.

Definition strs (l : list string) : JSON := JArr (map JStr l).

(** [encoding/json] refuses the floats that are not finite. *)
Fixpoint encodable (v : JSON) : bool :=
  match v with
  | JFloat f => PrimFloat.is_finite f
  | JArr elems => forallb encodable elems
  | JObj members => forallb (fun kv => let '(_, x) := kv in encodable x) members
  | _ => true
  end.

(** [json.Marshal] of a document: the document itself, or an error. *)
Definition Marshal (v : JSON) : option JSON :=
  if encodable v then Some v else None.

(** The error [json.Marshal] returns for a document it refuses:
    [json: unsupported value: ] followed by the first float that is not
    finite, as [strconv.FormatFloat] prints it. *)
Definition floatText (f : float) : string :=
  if PrimFloat.is_nan f then "NaN"
  else if PrimFloat.ltb f PrimFloat.zero then "-Inf"
  else "+Inf".

Fixpoint unsupported (v : JSON) : option string :=
  match v with
  | JFloat f => if PrimFloat.is_finite f then None else Some (floatText f)
  | JArr elems =>
      fold_right (fun x rest =>
                    match unsupported x with
                    | Some s => Some s
                    | None => rest
                    end) None elems
  | JObj members =>
      fold_right (fun kv rest =>
                    match (let '(_, x) := kv in unsupported x) with
                    | Some s => Some s
                    | None => rest
                    end) None members
  | _ => None
  end.

Definition MarshalError (v : JSON) : string :=
  "json: unsupported value: "
  +:+ match unsupported v with Some s => s | None => "" end.

(** A member written unless its value is absent ([omitempty]). *)
Definition omitempty (key : string) (v : option JSON) : list (string * JSON) :=
  match v with
  | Some x => [(key, x)]
  | None => []
  end.

Definition nonempty_strs (l : list string) : option JSON :=
  match l with
  | [] => None
  | _ => Some (strs l)
  end.

Definition str_map (m : list (string * string)) : JSON :=
  JObj (map (fun kv => (fst kv, JStr (snd kv))) m).

End json.

(** The library functions whose output the code only passes on: the
    formatting verbs of [fmt], the textual rendering of [encoding/json] and
    [time.Time.Format] and the conversion [int(d.Seconds())] of a
    [time.Duration], which goes through [float64] and is exact on whole
    numbers of seconds.  An instant is a count of nanoseconds since the
    Unix epoch. *)
Class GoLib := {
  fmt_q : string -> string;          (* fmt.Sprintf("%q", s) *)
  fmt_d : Z -> string;               (* fmt.Sprintf("%d", n) *)
  fmt_v : JSON -> string;            (* fmt.Sprintf("%v", v) *)
  json_text : JSON -> string;        (* string(json.Marshal(v)) *)
  time_Format : string -> Z -> string; (* t.Format(layout) *)
  Duration_Seconds_int : Z -> Z;       (* int(d.Seconds()) *)
  Duration_Seconds_whole :
    forall n, - 9223372036 <= n <= 9223372036 ->
              Duration_Seconds_int (n * 1000000000) = n
}.

Module time.
Definition RFC3339 : string := "2006-01-02T15:04:05Z07:00".
Definition RFC3339Nano : string := "2006-01-02T15:04:05.999999999Z07:00".
(** [http.TimeFormat] *)
Definition TimeFormat : string := "Mon, 02 Jan 2006 15:04:05 GMT".

(** [time.Duration] is an [int64] count of nanoseconds. *)
Definition Second : Z := 1000000000.
Definition wrap64 (z : Z) : Z := (z + 2 ^ 63) mod 2 ^ 64 - 2 ^ 63.
(** [time.Duration(n) * time.Second], an [int64] product. *)
Definition seconds_to_Duration (n : Z) : Z := wrap64 (n * Second).
End time.

(** ** Storage types ([internal/storage]) *)

Module storage.

Definition PresignOperation := string.
Definition PresignOperationGet : PresignOperation := "GetObject".
Definition PresignOperationPut : PresignOperation := "PutObject".
Definition PresignOperationDelete : PresignOperation := "DeleteObject".
Definition PresignOperationHead : PresignOperation := "HeadObject".

Record GetObjectRequest := {
  gor_Bucket : string;
  gor_Key : string
}.

Record GetObjectResponse := {
  go_Body : string;
  go_ContentType : string;
  go_ContentLength : Z;
  go_LastModified : Z;
  go_ETag : string;
  go_Metadata : list (string * string)
}.

Record PutObjectRequest := {
  por_Bucket : string;
  por_Key : string;
  por_Body : string;
  por_ContentType : string
}.

Record PutObjectResponse := {
  po_ETag : string;
  po_VersionID : string;
  po_StorageClass : string
}.

Record DeleteObjectRequest := {
  dor_Bucket : string;
  dor_Key : string
}.

Record DeleteObjectResponse := {
  do_DeleteMarker : bool;
  do_VersionID : string
}.

Record ListObjectsRequest := {
  lor_Bucket : string;
  lor_Prefix : string;
  lor_Delimiter : string;
  lor_MaxKeys : Z;
  lor_ContinuationToken : string
}.

Record ObjectInfo := {
  oi_Key : string;
  oi_Size : Z;
  oi_LastModified : Z;
  oi_ETag : string;
  oi_StorageClass : string
}.

Record ListObjectsResponse := {
  lo_Objects : list ObjectInfo;
  lo_CommonPrefixes : list string;
  lo_IsTruncated : bool;
  lo_NextContinuationToken : string
}.

Record HeadObjectRequest := {
  hor_Bucket : string;
  hor_Key : string
}.

Record HeadObjectResponse := {
  ho_ContentType : string;
  ho_ContentLength : Z;
  ho_LastModified : Z;
  ho_ETag : string;
  ho_Metadata : list (string * string);
  ho_StorageClass : string
}.

Record PresignRequest := {
  pr_Bucket : string;
  pr_Key : string;
  pr_Operation : PresignOperation;
  pr_ExpiresIn : Z;               (* time.Duration *)
  pr_ContentType : string
}.

(** [PresignedURL], with the JSON member name of every field. *)
Record PresignedURL := {
  URL : string;                   (* json:"url" *)
  ExpiresIn : Z;                  (* json:"expires_in" *)
  ExpiresAt : string;             (* json:"expires_at" *)
  Operation : PresignOperation;   (* json:"operation" *)
  Bucket : string;                (* json:"bucket" *)
  Key : string                    (* json:"key" *)
}.

(** A Go [error]: a [*StorageError] or any other error value. *)
Inductive error :=
| StorageError (Provider Operation : string) (StatusCode : Z)
               (Message : string) (Err : option string)
| OtherError (msg : string).

Definition result (A : Type) : Type := (A + error)%type.

(** The [StorageProvider] interface. *)
Record StorageProvider := {
  Name : string;
  GetObject : GetObjectRequest -> result GetObjectResponse;
  PutObject : PutObjectRequest -> result PutObjectResponse;
  DeleteObject : DeleteObjectRequest -> result DeleteObjectResponse;
  ListObjects : ListObjectsRequest -> result ListObjectsResponse;
  GeneratePresignedURL : PresignRequest -> result PresignedURL;
  HeadObject : HeadObjectRequest -> result HeadObjectResponse
}.

(** The provider calls a handler run performs, in order. *)
Inductive Call :=
| CallGetObject (req : GetObjectRequest)
| CallPutObject (req : PutObjectRequest)
| CallDeleteObject (req : DeleteObjectRequest)
| CallListObjects (req : ListObjectsRequest)
| CallGeneratePresignedURL (req : PresignRequest)
| CallHeadObject (req : HeadObjectRequest).

End storage.

(** ** The S3 provider's presigner (package [s3]) *)

Module s3.

(** The provider's view of the AWS SDK's presign client: the four
    [Presign...Object] calls, each given bucket, key, content type (used
    by [PresignPutObject] only) and [opts.Expires], returning the signed
    URL or the SDK's error text; [now] is the reading of [time.Now()]. *)
Record S3Provider := {
  presignClient :
    storage.PresignOperation -> string -> string -> string -> Z ->
    string + string;
  now : Z
}.

Definition containsMiddle_at (s substr : string) (i : nat) : bool :=
  String.eqb (strings.slice s i (i + strings.len substr)) substr.

(** The loop [for i := 0; i <= len(s)-len(substr); i++]. *)
Definition containsMiddle (s substr : string) : bool :=
  existsb (containsMiddle_at s substr)
          (seq 0 (S (strings.len s - strings.len substr))).

Definition contains (s substr : string) : bool :=
  (strings.len substr <=? strings.len s)%nat
  && (String.eqb s substr
      || ((strings.len substr <? strings.len s)%nat
          && (String.eqb (strings.slice s 0 (strings.len substr)) substr
              || String.eqb
                   (strings.slice_from s (strings.len s - strings.len substr))
                   substr
              || containsMiddle s substr))).

Definition handleError (operation errStr : string) : storage.error :=
  if contains errStr "NoSuchKey" || contains errStr "NotFound" then
    storage.StorageError "s3" operation 404 "Object not found" (Some errStr)
  else if contains errStr "NoSuchBucket" then
    storage.StorageError "s3" operation 404 "Bucket not found" (Some errStr)
  else if contains errStr "AccessDenied" || contains errStr "Forbidden" then
    storage.StorageError "s3" operation 403 "Access denied" (Some errStr)
  else if contains errStr "InvalidRequest" || contains errStr "BadRequest" then
    storage.StorageError "s3" operation 400 "Invalid request" (Some errStr)
  else
    storage.StorageError "s3" operation 500 "S3 operation failed" (Some errStr).

Definition known_operation (op : storage.PresignOperation) : bool :=
  String.eqb op storage.PresignOperationGet
  || String.eqb op storage.PresignOperationPut
  || String.eqb op storage.PresignOperationDelete
  || String.eqb op storage.PresignOperationHead.

Definition GeneratePresignedURL `{GoLib} (p : S3Provider)
    (req : storage.PresignRequest) : storage.result storage.PresignedURL :=
  let expiresAt := now p + storage.pr_ExpiresIn req in
  if known_operation (storage.pr_Operation req) then
    match presignClient p (storage.pr_Operation req) (storage.pr_Bucket req)
            (storage.pr_Key req) (storage.pr_ContentType req)
            (storage.pr_ExpiresIn req) with
    | inr err => inr (handleError "GeneratePresignedURL" err)
    | inl url =>
        inl {| storage.URL := url;
               storage.ExpiresIn :=
                 Duration_Seconds_int (storage.pr_ExpiresIn req);
               storage.ExpiresAt := time_Format time.RFC3339 expiresAt;
               storage.Operation := storage.pr_Operation req;
               storage.Bucket := storage.pr_Bucket req;
               storage.Key := storage.pr_Key req |}
    end
  else
    inr (storage.StorageError "s3" "GeneratePresignedURL" 400
           ("unsupported presign operation: " +:+ storage.pr_Operation req)
           None).

End s3.

(** ** The storage handler ([internal/handlers/storage.go]) *)

Module handlers.

(** The parts of an [*http.Request] the handler reads. *)
Record Request := {
  URL_Path : string;
  URL_Query : list (string * string);   (* decoded pairs, in order *)
  Header_ContentType : string;          (* r.Header.Get("Content-Type") *)
  Body : string
}.

(** [r.URL.Query().Get(key)]: the first value of [key], or [""]. *)
Fixpoint Query_Get (q : list (string * string)) (key : string) : string :=
  match q with
  | [] => ""
  | (k, v) :: rest => if String.eqb k key then v else Query_Get rest key
  end.

(** What the handler writes to the [http.ResponseWriter]. *)
Inductive Payload :=
| JSONBody (doc : JSON)
| RawBody (bytes : string).

Record Response := {
  status : Z;
  header : list (string * string);
  body : Payload
}.

Record StorageAccessControl := {
  AllowedBuckets : list string;
  DeniedPrefixes : list string;
  AllowedProviders : list string
}.

Definition NewDefaultAccessControl : StorageAccessControl :=
  {| AllowedBuckets := [];
     DeniedPrefixes := ["/secret/"; "/private/"; "/."];
     AllowedProviders := ["s3"; "azure"; "gcs"] |}.

Record StorageHandler := {
  providers : gmap string storage.StorageProvider;
  accessControl : StorageAccessControl
}.

Definition NewStorageHandler (providers : gmap string storage.StorageProvider)
    (ac : option StorageAccessControl) : StorageHandler :=
  {| providers := providers;
     accessControl := match ac with
                      | Some ac => ac
                      | None => NewDefaultAccessControl
                      end |}.

Definition bucketAllowed (ac : StorageAccessControl) (bucket : string) : bool :=
  existsb (String.eqb bucket) (AllowedBuckets ac).

Definition keyDenied (key denied : string) : bool :=
  strings.HasPrefix ("/" +:+ key) denied || strings.HasPrefix key denied.

Definition CheckAccess (ac : StorageAccessControl) (r : Request)
    (bucket key operation : string) : bool :=
  if (0 <? length (AllowedBuckets ac))%nat && negb (bucketAllowed ac bucket)
  then false
  else negb (existsb (keyDenied key) (DeniedPrefixes ac)).

Definition jsonHeader : list (string * string) :=
  [("Content-Type", "application/json")].

Definition writeError (statusCode : Z) (message : string) : Response :=
  {| status := statusCode;
     header := jsonHeader;
     body := JSONBody
               (JObj [("error",
                       JObj [("code", JInt statusCode);
                             ("message", JStr message)])]) |}.

Definition handleStorageError (err : storage.error) : Response :=
  match err with
  | storage.StorageError _ _ statusCode message _ =>
      writeError statusCode message
  | storage.OtherError _ => writeError 500 "Storage operation failed"
  end.

Definition encodeObjectInfo `{GoLib} (o : storage.ObjectInfo) : JSON :=
  JObj [("Key", JStr (storage.oi_Key o));
        ("Size", JInt (storage.oi_Size o));
        ("LastModified",
         JStr (time_Format time.RFC3339Nano (storage.oi_LastModified o)));
        ("ETag", JStr (storage.oi_ETag o));
        ("StorageClass", JStr (storage.oi_StorageClass o))].

(** [json.NewEncoder(w).Encode(resp)] for a [*storage.PresignedURL]. *)
Definition encodePresignedURL (u : storage.PresignedURL) : JSON :=
  JObj [("url", JStr (storage.URL u));
        ("expires_in", JInt (storage.ExpiresIn u));
        ("expires_at", JStr (storage.ExpiresAt u));
        ("operation", JStr (storage.Operation u));
        ("bucket", JStr (storage.Bucket u));
        ("key", JStr (storage.Key u))].

Definition ok (doc : JSON) : Response :=
  {| status := 200; header := jsonHeader; body := JSONBody doc |}.

(** The path after [strings.TrimPrefix(path, "/-")], cut by
    [strings.SplitN(path, "/", 5)]. *)
Definition pathParts (path : string) : list string :=
  strings.SplitN (strings.TrimPrefix path "/-") "/" 5.

(** [bucketAndKey := parts[3:]], then its first element. *)
Definition bucketOf (parts : list string) : string :=
  match skipn 3 parts with
  | b :: _ => b
  | [] => ""
  end.

(** [strings.Join(bucketAndKey[1:], "/")] when there is a second element. *)
Definition keyOf (parts : list string) : string :=
  match skipn 3 parts with
  | _ :: ((_ :: _) as rest) => strings.Join rest "/"
  | _ => ""
  end.

Definition keyRequired (operation : string) : Response * list storage.Call :=
  (writeError 400 ("Object key is required for " +:+ operation +:+ " operation"),
   []).

(** The [switch operation] of [Handle], run once the provider is found
    and the access check has passed: the response written and the
    provider calls made while producing it. *)
Definition dispatch `{GoLib} (provider : storage.StorageProvider)
    (r : Request) (bucket key operation : string)
    : Response * list storage.Call :=
  if String.eqb operation "get" then
    if String.eqb key "" then keyRequired "get"
    else
      let req := {| storage.gor_Bucket := bucket;
                    storage.gor_Key := key |} in
      (match storage.GetObject provider req with
       | inr err => handleStorageError err
       | inl resp =>
           {| status := 200;
              header :=
                [("Content-Type", storage.go_ContentType resp);
                 ("Content-Length",
                  fmt_d (storage.go_ContentLength resp));
                 ("ETag", storage.go_ETag resp);
                 ("Last-Modified",
                  time_Format time.TimeFormat
                    (storage.go_LastModified resp))];
              body := RawBody (storage.go_Body resp) |}
       end, [storage.CallGetObject req])
  else if String.eqb operation "put" then
    if String.eqb key "" then keyRequired "put"
    else
      let contentType :=
        if String.eqb (Header_ContentType r) ""
        then "application/octet-stream"
        else Header_ContentType r in
      let req := {| storage.por_Bucket := bucket;
                    storage.por_Key := key;
                    storage.por_Body := Body r;
                    storage.por_ContentType := contentType |} in
      (match storage.PutObject provider req with
       | inr err => handleStorageError err
       | inl resp =>
           ok (JObj [("etag", JStr (storage.po_ETag resp));
                     ("success", JBool true);
                     ("version_id", JStr (storage.po_VersionID resp))])
       end, [storage.CallPutObject req])
  else if String.eqb operation "delete" then
    if String.eqb key "" then keyRequired "delete"
    else
      let req := {| storage.dor_Bucket := bucket;
                    storage.dor_Key := key |} in
      (match storage.DeleteObject provider req with
       | inr err => handleStorageError err
       | inl _ => ok (JObj [("success", JBool true)])
       end, [storage.CallDeleteObject req])
  else if String.eqb operation "list" then
    let maxKeysStr := Query_Get (URL_Query r) "max_keys" in
    let maxKeys :=
      if String.eqb maxKeysStr "" then 1000
      else match strconv.Atoi maxKeysStr with
           | Some parsed => parsed
           | None => 1000
           end in
    let req :=
      {| storage.lor_Bucket := bucket;
         storage.lor_Prefix := Query_Get (URL_Query r) "prefix";
         storage.lor_Delimiter := Query_Get (URL_Query r) "delimiter";
         storage.lor_MaxKeys := maxKeys;
         storage.lor_ContinuationToken :=
           Query_Get (URL_Query r) "continuation_token" |} in
    (match storage.ListObjects provider req with
     | inr err => handleStorageError err
     | inl resp =>
         ok (JObj
               [("common_prefixes",
                 json.strs (storage.lo_CommonPrefixes resp));
                ("is_truncated", JBool (storage.lo_IsTruncated resp));
                ("next_continuation_token",
                 JStr (storage.lo_NextContinuationToken resp));
                ("objects",
                 JArr (map encodeObjectInfo (storage.lo_Objects resp)))])
     end, [storage.CallListObjects req])
  else if String.eqb operation "head" then
    if String.eqb key "" then keyRequired "head"
    else
      let req := {| storage.hor_Bucket := bucket;
                    storage.hor_Key := key |} in
      (match storage.HeadObject provider req with
       | inr err => handleStorageError err
       | inl resp =>
           ok (JObj
                 [("content_length",
                   JInt (storage.ho_ContentLength resp));
                  ("content_type", JStr (storage.ho_ContentType resp));
                  ("etag", JStr (storage.ho_ETag resp));
                  ("last_modified",
                   JStr (time_Format time.RFC3339
                           (storage.ho_LastModified resp)));
                  ("metadata", json.str_map (storage.ho_Metadata resp));
                  ("storage_class",
                   JStr (storage.ho_StorageClass resp))])
       end, [storage.CallHeadObject req])
  else if String.eqb operation "presign" then
    if String.eqb key "" then keyRequired "presign"
    else
      let ttlStr :=
        if String.eqb (Query_Get (URL_Query r) "ttl") "" then "3600"
        else Query_Get (URL_Query r) "ttl" in
      match strconv.Atoi ttlStr with
      | None => (writeError 400 "Invalid TTL value", [])
      | Some ttlSeconds =>
          let opStr := Query_Get (URL_Query r) "operation" in
          let presignOp :=
            if String.eqb opStr "" then storage.PresignOperationGet
            else opStr in
          let req :=
            {| storage.pr_Bucket := bucket;
               storage.pr_Key := key;
               storage.pr_Operation := presignOp;
               storage.pr_ExpiresIn :=
                 time.seconds_to_Duration ttlSeconds;
               storage.pr_ContentType := "" |} in
          (match storage.GeneratePresignedURL provider req with
           | inr err => handleStorageError err
           | inl resp => ok (encodePresignedURL resp)
           end, [storage.CallGeneratePresignedURL req])
      end
  else
    (writeError 400 ("Unknown storage operation: " +:+ operation), []).

(** [StorageHandler.Handle]: the response written and the provider calls
    made while producing it. *)
Definition Handle `{GoLib} (h : StorageHandler) (r : Request)
    : Response * list storage.Call :=
  let parts := pathParts (URL_Path r) in
  if (length parts <? 4)%nat then
    (writeError 400 "Invalid storage path format", [])
  else
    let providerName := nth 0 parts "" in
    let operation := nth 2 parts "" in
    match providers h !! providerName with
    | None =>
        (writeError 404
           ("Storage provider " +:+ fmt_q providerName +:+ " not found"), [])
    | Some provider =>
        let bucket := bucketOf parts in
        let key := keyOf parts in
        if negb (CheckAccess (accessControl h) r bucket key operation) then
          (writeError 403 "Access denied", [])
        else dispatch provider r bucket key operation
    end.

End handlers.

(** ** Bedrock model identifiers (package [bedrock]) *)

Module bedrock.

Definition BedrockModelIDMap : gmap string string :=
  list_to_map
    [("claude-3-opus", "anthropic.claude-3-opus-20240229-v1:0");
     ("claude-3-opus-20240229", "anthropic.claude-3-opus-20240229-v1:0");
     ("claude-3-sonnet", "anthropic.claude-3-sonnet-20240229-v1:0");
     ("claude-3-sonnet-20240229", "anthropic.claude-3-sonnet-20240229-v1:0");
     ("claude-3-haiku", "anthropic.claude-3-haiku-20240307-v1:0");
     ("claude-3-haiku-20240307", "anthropic.claude-3-haiku-20240307-v1:0");
     ("claude-3-5-sonnet", "anthropic.claude-3-5-sonnet-20240620-v1:0");
     ("claude-3-5-sonnet-20240620", "anthropic.claude-3-5-sonnet-20240620-v1:0");
     ("amazon-titan-text-express", "amazon.titan-text-express-v1");
     ("amazon-titan-text-lite", "amazon.titan-text-lite-v1");
     ("amazon-titan-embed-text", "amazon.titan-embed-text-v1");
     ("llama2-13b", "meta.llama2-13b-chat-v1");
     ("llama2-70b", "meta.llama2-70b-chat-v1");
     ("mistral-7b", "mistral.mistral-7b-instruct-v0:2");
     ("mistral-8x7b", "mistral.mixtral-8x7b-instruct-v0:1")].

(** The test [friendlyName[0:1] == ...] of the pass-through branch. *)
Definition nativePrefix (friendlyName : string) : bool :=
  String.eqb (strings.slice friendlyName 0 1) "anthropic."
  || String.eqb (strings.slice friendlyName 0 1) "amazon."
  || String.eqb (strings.slice friendlyName 0 1) "meta."
  || String.eqb (strings.slice friendlyName 0 1) "mistral.".

Definition GetBedrockModelID (friendlyName : string) : string * bool :=
  if (0 <? strings.len friendlyName)%nat && nativePrefix friendlyName then
    (friendlyName, true)
  else
    match BedrockModelIDMap !! friendlyName with
    | Some modelID => (modelID, true)
    | None => ("", false)
    end.

End bedrock.

(** ** Provider types (package [providers]) *)

Module providers.

(** Modelled from the spec: the declarations of package [providers]
    ([ProviderRequest], [ProviderResponse], [ProviderError], the
    [Provider] interface and the [ErrCode...] constants) are not among
    the sources; the records hold the fields the handler and the
    translators use.  [Body] of a request is the document whose
    [json.Marshal] rendering the Go field holds. *)
Record ProviderRequest := {
  Method : string;
  Path : string;
  Headers : gmap string string;
  Body : JSON
}.

Record ProviderResponse := {
  StatusCode : Z;
  resp_Headers : gmap string string;
  resp_Body : string
}.

(** A Go [error] returned by [Invoke]: a [*ProviderError] or another
    error value. *)
Inductive error :=
| ProviderError (StatusCode : Z) (Message Provider Code : string)
| OtherError (msg : string).

Record Provider := {
  Name : string;
  Invoke : ProviderRequest -> ProviderResponse + error
}.

Class ErrCodes := {
  ErrCodeInvalidRequest : string;
  ErrCodeAuthenticationFail : string;
  ErrCodeRateLimitExceeded : string;
  ErrCodeModelNotFound : string
}.

(** Modelled from the spec: the two further [ErrCode...] constants of
    package [providers] that the Bedrock provider uses. *)
Class ServiceErrCodes := {
  ErrCodeServiceUnavailable : string;
  ErrCodeInternalError : string
}.

End providers.

(** ** The Bedrock provider ([internal/providers/bedrock/bedrock.go]) *)

Module bedrock_provider.

(** [handleErrorResponse]: the [*ProviderError] returned for a response
    of status 400 or more; the body is only written to the log. *)
Definition handleErrorResponse `{providers.ErrCodes} `{providers.ServiceErrCodes}
    (statusCode : Z) (body : string) : providers.error :=
  let '(code, message) :=
    if statusCode =? 400 then
      (providers.ErrCodeInvalidRequest, "Invalid request")
    else if (statusCode =? 401) || (statusCode =? 403) then
      (providers.ErrCodeAuthenticationFail, "Authentication failed")
    else if statusCode =? 429 then
      (providers.ErrCodeRateLimitExceeded, "Rate limit exceeded")
    else if statusCode =? 404 then
      (providers.ErrCodeModelNotFound, "Model not found")
    else if statusCode =? 503 then
      (providers.ErrCodeServiceUnavailable, "Service unavailable")
    else
      (providers.ErrCodeInternalError, "Internal server error") in
  providers.ProviderError statusCode message "bedrock" code.

(** [extractModelFromPath]: [bytes.Index] is [strings.Index] on the same
    bytes. *)
Definition extractModelFromPath (path : string) : string :=
  let modelPrefix := "/model/" in
  let invokeSuffix := "/invoke" in
  let startIdx := strings.len modelPrefix in
  let endIdx :=
    match strings.Index path invokeSuffix with
    | Some idx => if (0 <? idx)%nat then idx else strings.len path
    | None => strings.len path
    end in
  if (startIdx <? strings.len path)%nat && (endIdx <=? strings.len path)%nat
     && (startIdx <? endIdx)%nat
  then strings.slice path startIdx endIdx
  else "".

End bedrock_provider.

(** ** The translators (package [translator]) *)

Module translator.

(** Modelled from the spec: the declarations of [ChatCompletionRequest],
    [ChatMessage], [Tool], [Function], [ToolCall], [FunctionCall],
    [ChatCompletionResponse], [ChatCompletionChoice] and [Usage] are not
    among the sources; the records below hold the fields of the OpenAI
    chat-completion dialect that the translators and the handler read and
    write, with the types their uses fix ([Content] and [ToolChoice] are
    of type [interface{}], [Parameters] is a [map[string]interface{}]). *)
Record Function := {
  fn_Name : string;
  fn_Description : string;
  fn_Parameters : JSON
}.

Record Tool := {
  tool_Type : string;
  tool_Function : Function
}.

Record FunctionCall := {
  fc_Name : string;
  fc_Arguments : string
}.

Record ToolCall := {
  tc_ID : string;
  tc_Type : string;
  tc_Function : FunctionCall
}.

Record ChatMessage := {
  Role : string;
  Content : JSON;
  ToolCalls : list ToolCall
}.

Record ChatCompletionRequest := {
  Model : string;
  Messages : list ChatMessage;
  MaxTokens : Z;
  Temperature : float;
  TopP : float;
  Stop : list string;
  Stream : bool;
  Tools : list Tool;
  Functions : list Function;
  ToolChoice : JSON
}.

Record ChatCompletionChoice := {
  Index : Z;
  Message : ChatMessage;
  FinishReason : string
}.

Record Usage := {
  PromptTokens : Z;
  CompletionTokens : Z;
  TotalTokens : Z
}.

Record ChatCompletionResponse := {
  ID : string;
  Object : string;
  Created : Z;
  resp_Model : string;
  Choices : list ChatCompletionChoice;
  resp_Usage : option Usage
}.

(** *** Bedrock Converse API types *)

Record ImageBlock := {
  Format : string;
  Source_Bytes : string
}.

Record DocumentBlock := {
  doc_Format : string;
  doc_Name : string;
  doc_Source_Bytes : string
}.

Record ToolUseBlock := {
  ToolUseId : string;
  Name : string;
  Input : JSON
}.

(** [ContentBlock] and [ToolResultBlock] refer to each other; every
    field of a [ContentBlock] is a pointer, [None] when nil. *)
Inductive ContentBlock :=
| mkContentBlock (Text : option string) (Image : option ImageBlock)
                 (Document : option DocumentBlock)
                 (ToolUse : option ToolUseBlock)
                 (ToolResult : option ToolResultBlock)
with ToolResultBlock :=
| mkToolResultBlock (ToolUseId : string) (Content : list ContentBlock)
                    (Status : string).

Definition Text (b : ContentBlock) : option string :=
  let '(mkContentBlock t _ _ _ _) := b in t.
Definition Image (b : ContentBlock) : option ImageBlock :=
  let '(mkContentBlock _ i _ _ _) := b in i.
Definition Document (b : ContentBlock) : option DocumentBlock :=
  let '(mkContentBlock _ _ d _ _) := b in d.
Definition ToolUse (b : ContentBlock) : option ToolUseBlock :=
  let '(mkContentBlock _ _ _ u _) := b in u.
Definition ToolResult (b : ContentBlock) : option ToolResultBlock :=
  let '(mkContentBlock _ _ _ _ r) := b in r.

(** [ContentBlock{Text: &s}] and [ContentBlock{Image: &img}]. *)
Definition textBlock (s : string) : ContentBlock :=
  mkContentBlock (Some s) None None None None.
Definition imageBlock (img : ImageBlock) : ContentBlock :=
  mkContentBlock None (Some img) None None None.

Record ConverseMessage := {
  cm_Role : string;
  cm_Content : list ContentBlock
}.

Record SystemContentBlock := {
  sys_Text : string
}.

Record InferenceConfig := {
  ic_MaxTokens : option Z;
  ic_Temperature : option float;
  ic_TopP : option float;
  ic_StopSequences : list string
}.

Record ToolSpec := {
  ts_Name : string;
  ts_Description : string;
  ts_InputSchema : JSON
}.

(** [ToolChoice]: exactly the pointer fields the code sets. *)
Inductive ToolChoice_t :=
| ChoiceAuto
| ChoiceAny
| ChoiceTool (name : string).

Record ToolConfig := {
  tc_Tools : list ToolSpec;
  tc_ToolChoice : option ToolChoice_t
}.

Record ConverseRequest := {
  cr_Messages : list ConverseMessage;
  cr_System : list SystemContentBlock;
  cr_InferenceConfig : option InferenceConfig;
  cr_ToolConfig : option ToolConfig
}.

Record ConverseUsage := {
  InputTokens : Z;
  OutputTokens : Z;
  cu_TotalTokens : Z
}.

Record ConverseResponse := {
  Output_Message : option ConverseMessage;
  StopReason : string;
  cv_Usage : ConverseUsage;
  Metrics_LatencyMs : option Z
}.

(** *** Content extraction and conversion *)

(** The texts [extractTextContent] collects from an array of parts. *)
Fixpoint partTexts (parts : list JSON) : list string :=
  match parts with
  | [] => []
  | JObj partMap :: rest =>
      match json.as_string (json.assoc "text" partMap) with
      | Some text => text :: partTexts rest
      | None => partTexts rest
      end
  | _ :: rest => partTexts rest
  end.

Definition extractTextContent `{GoLib} (content : JSON) : string :=
  match content with
  | JStr c => c
  | JArr c => strings.Join (partTexts c) (String "010"%char "")
  | _ => fmt_v content
  end.

Definition extractImageFormat (prefix : string) : string :=
  if strings.Contains prefix "image/png" then "png"
  else if strings.Contains prefix "image/jpeg"
          || strings.Contains prefix "image/jpg" then "jpeg"
  else if strings.Contains prefix "image/gif" then "gif"
  else if strings.Contains prefix "image/webp" then "webp"
  else "jpeg".

Definition convertContentPartToBlock (part : list (string * JSON))
    : option ContentBlock :=
  match json.as_string (json.assoc "type" part) with
  | None => None
  | Some partType =>
      if String.eqb partType "text" then
        match json.as_string (json.assoc "text" part) with
        | Some text => Some (textBlock text)
        | None => None
        end
      else if String.eqb partType "image_url" then
        match json.as_map (json.assoc "image_url" part) with
        | Some imageURL =>
            match json.as_string (json.assoc "url" imageURL) with
            | Some url =>
                if strings.HasPrefix url "data:image/" then
                  match strings.SplitN url "," 2 with
                  | [p0; p1] =>
                      Some (imageBlock {| Format := extractImageFormat p0;
                                          Source_Bytes := p1 |})
                  | _ => None
                  end
                else None
            | None => None
            end
        | None => None
        end
      else None
  end.

(** The loop over the parts of an array content. *)
Fixpoint convertParts (parts : list JSON) : list ContentBlock :=
  match parts with
  | [] => []
  | JObj partMap :: rest =>
      match convertContentPartToBlock partMap with
      | Some block => block :: convertParts rest
      | None => convertParts rest
      end
  | _ :: rest => convertParts rest
  end.

Definition convertToContentBlocks `{GoLib} (content : JSON)
    : list ContentBlock :=
  match content with
  | JStr c => [textBlock c]
  | JArr c => convertParts c
  | _ => [textBlock (fmt_v content)]
  end.

(** *** Tools *)

Definition convertToolChoice (toolChoice : JSON) : option ToolChoice_t :=
  match toolChoice with
  | JStr tc =>
      if String.eqb tc "auto" then Some ChoiceAuto
      else if String.eqb tc "required" || String.eqb tc "any" then Some ChoiceAny
      else if String.eqb tc "none" then None
      else Some ChoiceAuto
  | JObj tc =>
      match json.as_string (json.assoc "type" tc) with
      | Some tcType =>
          if String.eqb tcType "function" then
            match json.as_map (json.assoc "function" tc) with
            | Some function =>
                match json.as_string (json.assoc "name" function) with
                | Some name => Some (ChoiceTool name)
                | None => Some ChoiceAuto
                end
            | None => Some ChoiceAuto
            end
          else Some ChoiceAuto
      | None => Some ChoiceAuto
      end
  | _ => Some ChoiceAuto
  end.

Definition toolSpecOf (f : Function) : ToolSpec :=
  {| ts_Name := fn_Name f;
     ts_Description := fn_Description f;
     ts_InputSchema := fn_Parameters f |}.

Definition isNil (v : JSON) : bool :=
  match v with JNull => true | _ => false end.

Definition convertToolsToConverseFormat (req : ChatCompletionRequest)
    : option ToolConfig :=
  let converseTools :=
    map (fun tool => toolSpecOf (tool_Function tool))
        (List.filter (fun tool => String.eqb (tool_Type tool) "function")
                     (Tools req))
    ++ map toolSpecOf (Functions req) in
  match converseTools with
  | [] => None
  | _ =>
      Some {| tc_Tools := converseTools;
              tc_ToolChoice :=
                if isNil (ToolChoice req) then None
                else convertToolChoice (ToolChoice req) |}
  end.

(** *** OpenAI request -> Converse request *)

(** The loop of [TranslateOpenAIToConverseAPI] over [openaiReq.Messages]:
    the Converse messages and the system blocks, both in message order. *)
Fixpoint convertMessages `{GoLib} (msgs : list ChatMessage)
    : list ConverseMessage * list SystemContentBlock :=
  match msgs with
  | [] => ([], [])
  | msg :: rest =>
      let '(converseMessages, systemBlocks) := convertMessages rest in
      if String.eqb (Role msg) "system" then
        (converseMessages,
         {| sys_Text := extractTextContent (Content msg) |} :: systemBlocks)
      else if String.eqb (Role msg) "function" || String.eqb (Role msg) "tool"
      then (converseMessages, systemBlocks)
      else
        let contentBlocks := convertToContentBlocks (Content msg) in
        match contentBlocks with
        | [] => (converseMessages, systemBlocks)
        | _ =>
            ({| cm_Role := Role msg; cm_Content := contentBlocks |}
               :: converseMessages, systemBlocks)
        end
  end.

Definition buildInferenceConfig (openaiReq : ChatCompletionRequest)
    : InferenceConfig :=
  {| ic_MaxTokens :=
       if 0 <? MaxTokens openaiReq then Some (MaxTokens openaiReq) else None;
     ic_Temperature :=
       if PrimFloat.ltb PrimFloat.zero (Temperature openaiReq)
       then Some (Temperature openaiReq) else None;
     ic_TopP :=
       if PrimFloat.ltb PrimFloat.zero (TopP openaiReq)
       then Some (TopP openaiReq) else None;
     ic_StopSequences :=
       if (0 <? length (Stop openaiReq))%nat then Stop openaiReq else [] |}.

(** The value of [converseReq] in [TranslateOpenAIToConverseAPI]. *)
Definition buildConverseRequest `{GoLib} (openaiReq : ChatCompletionRequest)
    : ConverseRequest :=
  let '(converseMessages, systemBlocks) :=
    convertMessages (Messages openaiReq) in
  {| cr_Messages := converseMessages;
     cr_System := systemBlocks;
     cr_InferenceConfig := Some (buildInferenceConfig openaiReq);
     cr_ToolConfig :=
       if (0 <? length (Tools openaiReq))%nat
          || (0 <? length (Functions openaiReq))%nat
       then convertToolsToConverseFormat openaiReq
       else None |}.

(** *** The JSON form of a Converse request, after the struct tags *)

Definition encodeImage (i : ImageBlock) : JSON :=
  JObj [("format", JStr (Format i));
        ("source",
         JObj (json.omitempty "bytes"
                 (if String.eqb (Source_Bytes i) "" then None
                  else Some (JStr (Source_Bytes i)))))].

Definition encodeDocument (d : DocumentBlock) : JSON :=
  JObj [("format", JStr (doc_Format d));
        ("name", JStr (doc_Name d));
        ("source",
         JObj (json.omitempty "bytes"
                 (if String.eqb (doc_Source_Bytes d) "" then None
                  else Some (JStr (doc_Source_Bytes d)))))].

Definition encodeToolUse (u : ToolUseBlock) : JSON :=
  JObj [("toolUseId", JStr (ToolUseId u));
        ("name", JStr (Name u));
        ("input", Input u)].

Fixpoint encodeContentBlock (b : ContentBlock) : JSON :=
  match b with
  | mkContentBlock t i d u r =>
      JObj (json.omitempty "text" (option_map JStr t)
            ++ json.omitempty "image" (option_map encodeImage i)
            ++ json.omitempty "document" (option_map encodeDocument d)
            ++ json.omitempty "toolUse" (option_map encodeToolUse u)
            ++ json.omitempty "toolResult"
                 (match r with
                  | Some (mkToolResultBlock id content st) =>
                      Some (JObj
                              ([("toolUseId", JStr id);
                                ("content",
                                 JArr (map encodeContentBlock content))]
                               ++ json.omitempty "status"
                                    (if String.eqb st "" then None
                                     else Some (JStr st))))
                  | None => None
                  end))
  end.

Definition encodeMessage (m : ConverseMessage) : JSON :=
  JObj [("role", JStr (cm_Role m));
        ("content", JArr (map encodeContentBlock (cm_Content m)))].

Definition encodeSystem (b : SystemContentBlock) : JSON :=
  JObj (json.omitempty "text"
          (if String.eqb (sys_Text b) "" then None
           else Some (JStr (sys_Text b)))).

Definition encodeInferenceConfig (c : InferenceConfig) : JSON :=
  JObj (json.omitempty "maxTokens" (option_map JInt (ic_MaxTokens c))
        ++ json.omitempty "temperature" (option_map JFloat (ic_Temperature c))
        ++ json.omitempty "topP" (option_map JFloat (ic_TopP c))
        ++ json.omitempty "stopSequences"
             (json.nonempty_strs (ic_StopSequences c))).

Definition encodeToolSpec (t : ToolSpec) : JSON :=
  JObj [("toolSpec",
         JObj [("name", JStr (ts_Name t));
               ("description", JStr (ts_Description t));
               ("inputSchema", JObj [("json", ts_InputSchema t)])])].

Definition encodeToolChoice (c : ToolChoice_t) : JSON :=
  match c with
  | ChoiceAuto => JObj [("auto", JObj [])]
  | ChoiceAny => JObj [("any", JObj [])]
  | ChoiceTool name => JObj [("tool", JObj [("name", JStr name)])]
  end.

Definition encodeToolConfig (c : ToolConfig) : JSON :=
  JObj ([("tools", JArr (map encodeToolSpec (tc_Tools c)))]
        ++ json.omitempty "toolChoice"
             (option_map encodeToolChoice (tc_ToolChoice c))).

Definition encodeConverseRequest (r : ConverseRequest) : JSON :=
  JObj ([("messages", JArr (map encodeMessage (cr_Messages r)))]
        ++ json.omitempty "system"
             (match cr_System r with
              | [] => None
              | l => Some (JArr (map encodeSystem l))
              end)
        ++ json.omitempty "inferenceConfig"
             (option_map encodeInferenceConfig (cr_InferenceConfig r))
        ++ json.omitempty "toolConfig"
             (option_map encodeToolConfig (cr_ToolConfig r))).

Definition jsonHeaders : gmap string string :=
  {[ "Content-Type" := "application/json"; "Accept" := "application/json" ]}.

(** [TranslateOpenAIToConverseAPI]: the provider request and the Bedrock
    model id, or the error message. *)
Definition TranslateOpenAIToConverseAPI `{GoLib}
    (openaiReq : ChatCompletionRequest)
    : (providers.ProviderRequest * string) + string :=
  let '(bedrockModelID, exists_) := bedrock.GetBedrockModelID (Model openaiReq) in
  if negb exists_ then
    inr ("model " +:+ fmt_q (Model openaiReq) +:+ " not supported on Bedrock")
  else
    match json.Marshal (encodeConverseRequest (buildConverseRequest openaiReq)) with
    | None =>
        inr ("failed to marshal Converse request: "
             +:+ json.MarshalError
                   (encodeConverseRequest (buildConverseRequest openaiReq)))
    | Some body =>
        let path :=
          if Stream openaiReq
          then "/model/" +:+ bedrockModelID +:+ "/converse-stream"
          else "/model/" +:+ bedrockModelID +:+ "/converse" in
        inl ({| providers.Method := "POST"; providers.Path := path;
                providers.Headers := jsonHeaders;
                providers.Body := body |}, bedrockModelID)
    end.

(** *** Converse response -> OpenAI response *)

Definition mapConverseStopReason (converseReason : string) : string :=
  if String.eqb converseReason "end_turn" then "stop"
  else if String.eqb converseReason "max_tokens" then "length"
  else if String.eqb converseReason "stop_sequence" then "stop"
  else if String.eqb converseReason "tool_use" then "tool_calls"
  else if String.eqb converseReason "content_filtered" then "content_filter"
  else "stop".

Definition currentTimestampUnix : Z := 0.

Definition toolCallOf `{GoLib} (u : ToolUseBlock) : ToolCall :=
  {| tc_ID := ToolUseId u;
     tc_Type := "function";
     tc_Function := {| fc_Name := Name u;
                       fc_Arguments := json_text (Input u) |} |}.

(** The loop over the blocks of the response message: the text gathered
    in [content] and the calls appended to [toolCalls]. *)
Fixpoint collectBlocks `{GoLib} (blocks : list ContentBlock)
    : string * list ToolCall :=
  match blocks with
  | [] => ("", [])
  | block :: rest =>
      let '(content, toolCalls) := collectBlocks rest in
      (match Text block with Some t => t +:+ content | None => content end,
       match ToolUse block with
       | Some u => toolCallOf u :: toolCalls
       | None => toolCalls
       end)
  end.

Definition TranslateConverseToOpenAI `{GoLib} (converseResp : ConverseResponse)
    (openaiModel requestID : string) : ChatCompletionResponse :=
  let '(content, toolCalls) :=
    match Output_Message converseResp with
    | Some m => collectBlocks (cm_Content m)
    | None => ("", [])
    end in
  let message :=
    {| Role := "assistant";
       Content := if String.eqb content "" then JNull else JStr content;
       ToolCalls := toolCalls |} in
  {| ID := requestID;
     Object := "chat.completion";
     Created := currentTimestampUnix;
     resp_Model := openaiModel;
     Choices := [{| Index := 0; Message := message;
                    FinishReason :=
                      mapConverseStopReason (StopReason converseResp) |}];
     resp_Usage :=
       Some {| PromptTokens := InputTokens (cv_Usage converseResp);
               CompletionTokens := OutputTokens (cv_Usage converseResp);
               TotalTokens := cu_TotalTokens (cv_Usage converseResp) |} |}.

(** *** The InvokeModel translator ([openai_to_bedrock.go]) *)

Record BedrockImageSource := {
  src_Type : string;
  MediaType : string;
  Data : string
}.

Record BedrockContentBlock := {
  bcb_Type : string;
  bcb_Text : string;
  bcb_Source : option BedrockImageSource
}.

(** [BedrockMessage.Content] is an [interface{}] holding nothing, a
    string, or a slice of content blocks. *)
Inductive BedrockContent :=
| BCNil
| BCString (s : string)
| BCBlocks (blocks : list BedrockContentBlock).

Record BedrockMessage := {
  bm_Role : string;
  bm_Content : BedrockContent
}.

Record BedrockRequest := {
  AnthropicVersion : string;
  br_Messages : list BedrockMessage;
  br_MaxTokens : Z;
  br_Temperature : float;
  br_TopP : float;
  TopK : Z;
  StopSequences : list string;
  System : string
}.

Definition extractMediaType (prefix : string) : string :=
  match strings.Split prefix ";" with
  | p0 :: _ => strings.TrimPrefix p0 "data:"
  | [] => "image/jpeg"
  end.

Definition convertContentPart (part : list (string * JSON))
    : option BedrockContentBlock :=
  match json.as_string (json.assoc "type" part) with
  | None => None
  | Some partType =>
      if String.eqb partType "text" then
        match json.as_string (json.assoc "text" part) with
        | Some text =>
            Some {| bcb_Type := "text"; bcb_Text := text; bcb_Source := None |}
        | None => None
        end
      else if String.eqb partType "image_url" then
        match json.as_map (json.assoc "image_url" part) with
        | Some imageURL =>
            match json.as_string (json.assoc "url" imageURL) with
            | Some url =>
                if strings.HasPrefix url "data:image/" then
                  match strings.SplitN url "," 2 with
                  | [p0; p1] =>
                      Some {| bcb_Type := "image"; bcb_Text := "";
                              bcb_Source :=
                                Some {| src_Type := "base64";
                                        MediaType := extractMediaType p0;
                                        Data := p1 |} |}
                  | _ => None
                  end
                else None
            | None => None
            end
        | None => None
        end
      else None
  end.

Fixpoint convertBedrockParts (parts : list JSON) : list BedrockContentBlock :=
  match parts with
  | [] => []
  | JObj partMap :: rest =>
      match convertContentPart partMap with
      | Some block => block :: convertBedrockParts rest
      | None => convertBedrockParts rest
      end
  | _ :: rest => convertBedrockParts rest
  end.

Definition bedrockContentOf `{GoLib} (content : JSON) : BedrockContent :=
  match content with
  | JStr c => BCString c
  | JArr c =>
      match convertBedrockParts c with
      | [] => BCNil
      | blocks => BCBlocks blocks
      end
  | _ => BCString (fmt_v content)
  end.

(** The loop of [TranslateOpenAIToBedrock] over the messages, started
    with the current value of [systemPrompt]. *)
Fixpoint convertBedrockMessages `{GoLib} (msgs : list ChatMessage)
    (systemPrompt : string) : list BedrockMessage * string :=
  match msgs with
  | [] => ([], systemPrompt)
  | msg :: rest =>
      if String.eqb (Role msg) "system" then
        convertBedrockMessages rest (extractTextContent (Content msg))
      else if String.eqb (Role msg) "assistant"
              && (0 <? length (ToolCalls msg))%nat then
        convertBedrockMessages rest systemPrompt
      else
        let '(bedrockMessages, sys) := convertBedrockMessages rest systemPrompt in
        ({| bm_Role := Role msg;
            bm_Content := bedrockContentOf (Content msg) |} :: bedrockMessages,
         sys)
  end.

(** The value of [bedrockReq] once the defaults are set. *)
Definition buildBedrockRequest `{GoLib} (openaiReq : ChatCompletionRequest)
    : BedrockRequest :=
  let '(bedrockMessages, systemPrompt) :=
    convertBedrockMessages (Messages openaiReq) "" in
  {| AnthropicVersion := "bedrock-2023-05-31";
     br_Messages := bedrockMessages;
     br_MaxTokens :=
       if MaxTokens openaiReq =? 0 then 4096 else MaxTokens openaiReq;
     br_Temperature :=
       if PrimFloat.eqb (Temperature openaiReq) PrimFloat.zero
       then PrimFloat.one else Temperature openaiReq;
     br_TopP := TopP openaiReq;
     TopK := 0;
     StopSequences := Stop openaiReq;
     System := systemPrompt |}.

Definition encodeBedrockBlock (b : BedrockContentBlock) : JSON :=
  JObj ([("type", JStr (bcb_Type b))]
        ++ json.omitempty "text"
             (if String.eqb (bcb_Text b) "" then None
              else Some (JStr (bcb_Text b)))
        ++ json.omitempty "source"
             (option_map
                (fun src => JObj [("type", JStr (src_Type src));
                                  ("media_type", JStr (MediaType src));
                                  ("data", JStr (Data src))])
                (bcb_Source b))).

Definition encodeBedrockMessage (m : BedrockMessage) : JSON :=
  JObj [("role", JStr (bm_Role m));
        ("content",
         match bm_Content m with
         | BCNil => JNull
         | BCString c => JStr c
         | BCBlocks blocks => JArr (map encodeBedrockBlock blocks)
         end)].

Definition omitZeroFloat (f : float) : option JSON :=
  if PrimFloat.eqb f PrimFloat.zero then None else Some (JFloat f).

Definition omitZeroInt (n : Z) : option JSON :=
  if n =? 0 then None else Some (JInt n).

Definition encodeBedrockRequest (r : BedrockRequest) : JSON :=
  JObj (json.omitempty "anthropic_version"
          (if String.eqb (AnthropicVersion r) "" then None
           else Some (JStr (AnthropicVersion r)))
        ++ [("messages", JArr (map encodeBedrockMessage (br_Messages r)))]
        ++ json.omitempty "max_tokens" (omitZeroInt (br_MaxTokens r))
        ++ json.omitempty "temperature" (omitZeroFloat (br_Temperature r))
        ++ json.omitempty "top_p" (omitZeroFloat (br_TopP r))
        ++ json.omitempty "top_k" (omitZeroInt (TopK r))
        ++ json.omitempty "stop_sequences" (json.nonempty_strs (StopSequences r))
        ++ json.omitempty "system"
             (if String.eqb (System r) "" then None
              else Some (JStr (System r)))).

Definition TranslateOpenAIToBedrock `{GoLib}
    (openaiReq : ChatCompletionRequest)
    : (providers.ProviderRequest * string) + string :=
  let '(bedrockModelID, exists_) := bedrock.GetBedrockModelID (Model openaiReq) in
  if negb exists_ then
    inr ("model " +:+ fmt_q (Model openaiReq) +:+ " not supported on Bedrock")
  else
    match json.Marshal (encodeBedrockRequest (buildBedrockRequest openaiReq)) with
    | None =>
        inr ("failed to marshal Bedrock request: "
             +:+ json.MarshalError
                   (encodeBedrockRequest (buildBedrockRequest openaiReq)))
    | Some body =>
        let path :=
          if Stream openaiReq
          then "/model/" +:+ bedrockModelID +:+ "/invoke-with-response-stream"
          else "/model/" +:+ bedrockModelID +:+ "/invoke" in
        inl ({| providers.Method := "POST"; providers.Path := path;
                providers.Headers := jsonHeaders;
                providers.Body := body |}, bedrockModelID)
    end.

(** *** InvokeModel response -> OpenAI response *)

Record BedrockUsage := {
  bu_InputTokens : Z;
  bu_OutputTokens : Z
}.

Record BedrockResponse := {
  bresp_ID : string;
  bresp_Type : string;
  bresp_Role : string;
  bresp_Content : list BedrockContentBlock;
  bresp_Model : string;
  bresp_StopReason : string;
  bresp_StopSequence : string;
  bresp_Usage : BedrockUsage
}.

Definition mapStopReason (bedrockReason : string) : string :=
  if String.eqb bedrockReason "end_turn" then "stop"
  else if String.eqb bedrockReason "max_tokens" then "length"
  else if String.eqb bedrockReason "stop_sequence" then "stop"
  else "stop".

Definition currentTimestamp : Z := 0.

(** The loop [content += block.Text] over the blocks of type ["text"]. *)
Fixpoint collectText (blocks : list BedrockContentBlock) : string :=
  match blocks with
  | [] => ""
  | block :: rest =>
      if String.eqb (bcb_Type block) "text"
      then bcb_Text block +:+ collectText rest
      else collectText rest
  end.

(** [TotalTokens] is a sum of two [int]s, which wraps around at 64 bits. *)
Definition TranslateBedrockToOpenAI (bedrockResp : BedrockResponse)
    (openaiModel requestID : string) : ChatCompletionResponse :=
  let content := collectText (bresp_Content bedrockResp) in
  let finishReason := mapStopReason (bresp_StopReason bedrockResp) in
  {| ID := requestID;
     Object := "chat.completion";
     Created := currentTimestamp;
     resp_Model := openaiModel;
     Choices := [{| Index := 0;
                    Message := {| Role := "assistant";
                                  Content := JStr content;
                                  ToolCalls := [] |};
                    FinishReason := finishReason |}];
     resp_Usage :=
       Some {| PromptTokens := bu_InputTokens (bresp_Usage bedrockResp);
               CompletionTokens := bu_OutputTokens (bresp_Usage bedrockResp);
               TotalTokens :=
                 time.wrap64 (bu_InputTokens (bresp_Usage bedrockResp)
                              + bu_OutputTokens (bresp_Usage bedrockResp)) |} |}.

End translator.

(** ** Pattern routing ([internal/router/model_router.go]) *)

Module router.

(** [ModelRouter], for any type of registered providers. *)
Record ModelRouter (Provider : Type) := {
  providers : gmap string Provider;
  modelMap : gmap string string (* model -> provider name *)
}.
Arguments providers {Provider} _.
Arguments modelMap {Provider} _.

Definition NewModelRouter {Provider : Type} : ModelRouter Provider :=
  {| providers := ∅; modelMap := ∅ |}.

Definition bedrockPrefixes : list string :=
  ["claude-"; "amazon.titan-"; "ai21.j2-"; "meta.llama"; "mistral.";
   "cohere.command-text"].

Definition openaiPrefixes : list string :=
  ["gpt-3.5-"; "gpt-4"; "text-davinci-"; "text-curie-"; "text-babbage-";
   "text-ada-"].

Definition vertexPrefixes : list string :=
  ["gemini-"; "text-bison"; "chat-bison"; "codechat-bison"].

Definition anyPrefix (model : string) (prefixes : list string) : bool :=
  existsb (strings.HasPrefix model) prefixes.

Definition matchModelPattern (model : string) : string :=
  if strings.HasSuffix model "-azure" || strings.HasSuffix model "-deployment"
  then "azure"
  else if strings.HasSuffix model "-anthropic" then "anthropic"
  else if strings.HasPrefix model "ibm/" then "ibm"
  else if strings.HasPrefix model "cohere."
          && negb (strings.Contains model "command-text")
  then "oracle"
  else if anyPrefix model bedrockPrefixes then "bedrock"
  else if anyPrefix model openaiPrefixes then "openai"
  else if anyPrefix model vertexPrefixes then "vertex"
  else "".

Definition GetProviderForModel {Provider : Type}
    (r : ModelRouter Provider) (model : string) : string :=
  match modelMap r !! model with
  | Some providerName => providerName
  | None => matchModelPattern model
  end.

(** *** The configured router ([Router], package [router]) *)

(** Modelled from the spec: [Config], its accessor methods and
    [ProviderModelInfo] are not among the sources; a configuration is
    taken as what its accessors return and the three settings
    [Features.AutoFallback], [Routing.Fallback.Enabled] and
    [Routing.Fallback.MaxAttempts] that [Router] reads. *)
Record ProviderModelInfo := {
  pmi_Model : string
}.

Record Config := {
  GetDefaultProvider : string -> string;
  IsProviderEnabled : string -> bool;
  GetProviderModelInfo : string -> string -> ProviderModelInfo + string;
  GetFallbackProviders : list string;
  Features_AutoFallback : bool;
  Routing_Fallback_Enabled : bool;
  Routing_Fallback_MaxAttempts : Z
}.

Record Router := {
  config : Config;
  registry : gmap string providers.Provider   (* the field [providers] *)
}.

(** The lines [RouteRequest] and [tryFallbackProviders] write to the log,
    by the provider they name. *)
Inductive LogLine :=
| PreferredUnavailable (preferredProvider : string)
| DefaultFailed (defaultProvider : string)
| FailedOver (providerName : string)
| FallbackAlsoFailed (providerName err : string).

Definition routed : Type :=
  ((providers.Provider * ProviderModelInfo) + string)%type.

Definition getProviderForModel `{GoLib} (r : Router)
    (modelName providerName : string) : routed :=
  if negb (IsProviderEnabled (config r) providerName) then
    inr ("provider " +:+ fmt_q providerName +:+ " is disabled")
  else
    match registry r !! providerName with
    | None => inr ("provider " +:+ fmt_q providerName +:+ " not registered")
    | Some provider =>
        match GetProviderModelInfo (config r) modelName providerName with
        | inr err =>
            inr ("model " +:+ fmt_q modelName +:+ " not available on provider "
                 +:+ fmt_q providerName +:+ ": " +:+ err)
        | inl modelInfo => inl (provider, modelInfo)
        end
    end.

(** The loop of [tryFallbackProviders] from a position in the fallback
    list, with the attempts counted so far: what it returns ([None] when
    the loop ends without a provider) and what it logs. *)
Fixpoint fallbackLoop `{GoLib} (r : Router) (modelName excludeProvider : string)
    (fallbackProviders : list string) (attempts : Z)
    : option (providers.Provider * ProviderModelInfo) * list LogLine :=
  match fallbackProviders with
  | [] => (None, [])
  | providerName :: rest =>
      if String.eqb providerName excludeProvider then
        fallbackLoop r modelName excludeProvider rest attempts
      else if Routing_Fallback_MaxAttempts (config r) <=? attempts then
        (None, [])
      else
        match getProviderForModel r modelName providerName with
        | inl found => (Some found, [FailedOver providerName])
        | inr err =>
            let '(res, log) :=
              fallbackLoop r modelName excludeProvider rest (attempts + 1) in
            (res, FallbackAlsoFailed providerName err :: log)
        end
  end.

Definition tryFallbackProviders `{GoLib} (r : Router)
    (modelName excludeProvider : string) : routed * list LogLine :=
  let '(res, log) :=
    fallbackLoop r modelName excludeProvider
      (GetFallbackProviders (config r)) 0 in
  (match res with
   | Some found => inl found
   | None =>
       inr ("all fallback providers exhausted for model " +:+ fmt_q modelName)
   end, log).

(** [RouteRequest] once the preferred provider is out of the way. *)
Definition routeDefault `{GoLib} (r : Router) (modelName : string)
    : routed * list LogLine :=
  let defaultProvider := GetDefaultProvider (config r) modelName in
  if String.eqb defaultProvider "" then
    (inr ("no provider found for model " +:+ fmt_q modelName), [])
  else
    match getProviderForModel r modelName defaultProvider with
    | inl found => (inl found, [])
    | inr err =>
        if negb (Features_AutoFallback (config r))
           || negb (Routing_Fallback_Enabled (config r)) then
          (inr ("provider " +:+ fmt_q defaultProvider +:+ " failed for model "
                +:+ fmt_q modelName +:+ ": " +:+ err), [])
        else
          let '(res, log) := tryFallbackProviders r modelName defaultProvider in
          (res, DefaultFailed defaultProvider :: log)
    end.

Definition RouteRequest `{GoLib} (r : Router)
    (modelName preferredProvider : string) : routed * list LogLine :=
  if negb (String.eqb preferredProvider "") then
    match getProviderForModel r modelName preferredProvider with
    | inl found => (inl found, [])
    | inr _ =>
        let '(res, log) := routeDefault r modelName in
        (res, PreferredUnavailable preferredProvider :: log)
    end
  else routeDefault r modelName.


(** *** Registration and lookup ([ModelRouter]) *)

(** The methods that change the router return the router as they leave
    it and the error, if any. *)
Definition RegisterProvider (r : ModelRouter providers.Provider)
    (provider : providers.Provider)
    : ModelRouter providers.Provider * option string :=
  let name := providers.Name provider in
  match providers r !! name with
  | Some _ => (r, Some ("provider already registered: " +:+ name))
  | None =>
      ({| providers := <[name := provider]> (providers r);
          modelMap := modelMap r |}, None)
  end.

Definition RegisterModelMapping {Provider : Type} (r : ModelRouter Provider)
    (model providerName : string) : ModelRouter Provider * option string :=
  match providers r !! providerName with
  | None => (r, Some ("provider not found: " +:+ providerName))
  | Some _ =>
      ({| providers := providers r;
          modelMap := <[model := providerName]> (modelMap r) |}, None)
  end.

(** [RouteModel]: the provider returned with a nil error ([None] when
    that provider is nil), or the error. *)
Definition RouteModel {Provider : Type} (r : ModelRouter Provider)
    (model : string) : option Provider + string :=
  match modelMap r !! model with
  | Some providerName => inl (providers r !! providerName)
  | None =>
      let providerName := matchModelPattern model in
      match (if negb (String.eqb providerName "")
             then providers r !! providerName else None) with
      | Some provider => inl (Some provider)
      | None => inr ("no provider found for model: " +:+ model)
      end
  end.

Definition GetProvider {Provider : Type} (r : ModelRouter Provider)
    (name : string) : Provider + string :=
  match providers r !! name with
  | Some provider => inl provider
  | None => inr ("provider not found: " +:+ name)
  end.

End router.

(** ** The Vertex AI provider's translators (package [vertex]) *)

Module vertex.

Record VertexFunctionCall := {
  fc_Name : string;
  fc_Args : JSON
}.

Record VertexFunctionResponse := {
  fr_Name : string;
  fr_Response : JSON
}.

Record VertexPart := {
  Text : string;
  FunctionCall : option VertexFunctionCall;
  FunctionResponse : option VertexFunctionResponse
}.

Record VertexContent := {
  Role : string;
  Parts : list VertexPart
}.

Record VertexFunctionDeclaration := {
  Name : string;
  Description : string;
  Parameters : JSON
}.

Record VertexTool := {
  FunctionDeclarations : list VertexFunctionDeclaration
}.

Record GenerationConfig := {
  Temperature : option float;
  TopP : option float;
  TopK : option Z;
  MaxOutputTokens : option Z;
  StopSequences : list string
}.

Record VertexGeminiRequest := {
  Contents : list VertexContent;
  SystemInstruction : option VertexContent;
  Tools : list VertexTool;
  generationConfig : option GenerationConfig
}.

Record VertexCandidate := {
  Content : VertexContent;
  FinishReason : string;
  Index : Z
}.

Record VertexUsageMetadata := {
  PromptTokenCount : Z;
  CandidatesTokenCount : Z;
  TotalTokenCount : Z
}.

Record VertexResponse := {
  Candidates : list VertexCandidate;
  UsageMetadata : option VertexUsageMetadata
}.

(** The loop of [extractTextContent] over the parts of an array: the
    texts of the parts of type ["text"], one after the other. *)
Fixpoint partsText (parts : list JSON) : string :=
  match parts with
  | [] => ""
  | JObj partMap :: rest =>
      match json.as_string (json.assoc "type" partMap) with
      | Some partType =>
          if String.eqb partType "text" then
            match json.as_string (json.assoc "text" partMap) with
            | Some textVal => textVal +:+ partsText rest
            | None => partsText rest
            end
          else partsText rest
      | None => partsText rest
      end
  | _ :: rest => partsText rest
  end.

Definition extractTextContent `{GoLib} (content : JSON) : string :=
  match content with
  | JStr c => c
  | JArr c => partsText c
  | _ => fmt_v content
  end.

Definition textPart (text : string) : VertexPart :=
  {| Text := text; FunctionCall := None; FunctionResponse := None |}.

(** The loop of [translateOpenAIToVertex] over the messages, started with
    the current [SystemInstruction]: the contents and the instruction. *)
Fixpoint convertMessages `{GoLib} (msgs : list translator.ChatMessage)
    (systemInstruction : option VertexContent)
    : list VertexContent * option VertexContent :=
  match msgs with
  | [] => ([], systemInstruction)
  | msg :: rest =>
      if String.eqb (translator.Role msg) "system" then
        convertMessages rest
          (Some {| Role := "user";
                   Parts := [textPart
                               (extractTextContent (translator.Content msg))] |})
      else
        let role :=
          if String.eqb (translator.Role msg) "assistant" then "model"
          else translator.Role msg in
        let '(contents, sys) := convertMessages rest systemInstruction in
        ({| Role := role;
            Parts := [textPart
                        (extractTextContent (translator.Content msg))] |}
           :: contents, sys)
  end.

Definition functionDeclarationOf (tool : translator.Tool)
    : VertexFunctionDeclaration :=
  {| Name := translator.fn_Name (translator.tool_Function tool);
     Description := translator.fn_Description (translator.tool_Function tool);
     Parameters := translator.fn_Parameters (translator.tool_Function tool) |}.

Definition translateOpenAIToVertex `{GoLib}
    (req : translator.ChatCompletionRequest) : VertexGeminiRequest :=
  let '(contents, sys) := convertMessages (translator.Messages req) None in
  let functionDeclarations :=
    map functionDeclarationOf
      (List.filter
         (fun tool => String.eqb (translator.tool_Type tool) "function")
         (translator.Tools req)) in
  {| Contents := contents;
     SystemInstruction := sys;
     Tools :=
       match functionDeclarations with
       | [] => []
       | _ => [{| FunctionDeclarations := functionDeclarations |}]
       end;
     generationConfig :=
       Some {| Temperature :=
                 if PrimFloat.ltb PrimFloat.zero (translator.Temperature req)
                 then Some (translator.Temperature req) else None;
               TopP :=
                 if PrimFloat.ltb PrimFloat.zero (translator.TopP req)
                 then Some (translator.TopP req) else None;
               TopK := None;
               MaxOutputTokens :=
                 if 0 <? translator.MaxTokens req
                 then Some (translator.MaxTokens req) else None;
               StopSequences :=
                 if (0 <? length (translator.Stop req))%nat
                 then translator.Stop req else [] |} |}.

(** The loop of [translateVertexToOpenAI] over the parts of the first
    candidate, started with the text and the calls gathered so far.
    [json.Marshal] of the arguments has its error dropped, which leaves
    the empty string. *)
Fixpoint collectParts `{GoLib} (parts : list VertexPart) (content : string)
    (toolCalls : list translator.ToolCall) : string * list translator.ToolCall :=
  match parts with
  | [] => (content, toolCalls)
  | part :: rest =>
      let content :=
        if negb (String.eqb (Text part) "") then content +:+ Text part
        else content in
      let toolCalls :=
        match FunctionCall part with
        | Some call =>
            toolCalls
            ++ [{| translator.tc_ID :=
                     "call_" +:+ fmt_d (Z.of_nat (length toolCalls));
                   translator.tc_Type := "function";
                   translator.tc_Function :=
                     {| translator.fc_Name := fc_Name call;
                        translator.fc_Arguments :=
                          if json.encodable (fc_Args call)
                          then json_text (fc_Args call) else "" |} |}]
        | None => toolCalls
        end in
      collectParts rest content toolCalls
  end.

(** [translateVertexToOpenAI]; [tID] and [tCreated] are the two readings
    of [time.Now().Unix()]. *)
Definition translateVertexToOpenAI `{GoLib} (resp : VertexResponse)
    (model : string) (tID tCreated : Z) : translator.ChatCompletionResponse :=
  let '(content, toolCalls, finishReason) :=
    match Candidates resp with
    | candidate :: _ =>
        let '(content, toolCalls) :=
          collectParts (Parts (Content candidate)) "" [] in
        let finishReason :=
          if String.eqb (FinishReason candidate) "STOP" then "stop"
          else if String.eqb (FinishReason candidate) "MAX_TOKENS" then "length"
          else if String.eqb (FinishReason candidate) "SAFETY"
          then "content_filter"
          else "stop" in
        (content, toolCalls,
         if (0 <? length toolCalls)%nat then "tool_calls" else finishReason)
    | [] => ("", [], "stop")
    end in
  {| translator.ID := "vertex-" +:+ fmt_d tID;
     translator.Object := "chat.completion";
     translator.Created := tCreated;
     translator.resp_Model := model;
     translator.Choices :=
       [{| translator.Index := 0;
           translator.Message :=
             {| translator.Role := "assistant";
                translator.Content := JStr content;
                translator.ToolCalls := toolCalls |};
           translator.FinishReason := finishReason |}];
     translator.resp_Usage :=
       Some (match UsageMetadata resp with
             | Some u =>
                 {| translator.PromptTokens := PromptTokenCount u;
                    translator.CompletionTokens := CandidatesTokenCount u;
                    translator.TotalTokens := TotalTokenCount u |}
             | None =>
                 {| translator.PromptTokens := 0;
                    translator.CompletionTokens := 0;
                    translator.TotalTokens := 0 |}
             end) |}.

End vertex.

(** ** The document fetcher and its cache (package [storage]) *)

Module documents.

Record Document := {
  URL : string;
  Content : string;
  ContentType : string;
  ContentHash : string;
  Size : Z;
  FetchedAt : Z
}.

(** [document] is a [*Document], [None] when nil; instants are counts of
    nanoseconds and [ttl] is a [time.Duration]. *)
Record cacheEntry := {
  document : option Document;
  expiresAt : Z
}.

Record DocumentCache := {
  entries : gmap string cacheEntry;
  ttl : Z
}.

Definition NewDocumentCache (ttl : Z) : DocumentCache :=
  {| entries := ∅; ttl := ttl |}.

(** In the methods below [now] is the reading of [time.Now()]. *)
Definition Get (c : DocumentCache) (now : Z) (url : string) : option Document :=
  match entries c !! url with
  | None => None
  | Some entry => if expiresAt entry <? now then None else document entry
  end.

Definition Set_ (c : DocumentCache) (now : Z) (url : string)
    (doc : option Document) : DocumentCache :=
  {| entries :=
       <[url := {| document := doc; expiresAt := now + ttl c |}]> (entries c);
     ttl := ttl c |}.

Definition Delete (c : DocumentCache) (url : string) : DocumentCache :=
  {| entries := delete url (entries c); ttl := ttl c |}.

Definition Clear (c : DocumentCache) : DocumentCache :=
  {| entries := ∅; ttl := ttl c |}.

Definition Size_ (c : DocumentCache) : Z := Z.of_nat (size (entries c)).

(** [cleanup]: the entries with [now.After(entry.expiresAt)] are deleted. *)
Definition cleanup (c : DocumentCache) (now : Z) : DocumentCache :=
  {| entries := filter (fun kv => ~ expiresAt (snd kv) < now) (entries c);
     ttl := ttl c |}.

(** What the HTTP client does with a GET of a URL: the request cannot be
    built, the transport fails, or a response arrives whose body is read
    in full or fails to be read. *)
Inductive Fetched :=
| RequestInvalid (err : string)
| TransportError (err : string)
| Response (status : Z) (contentType : string) (body : string + string).

Record DocumentFetcher := {
  httpClient : string -> Fetched;
  cache : DocumentCache
}.

(** [FetchDocument]: the document or the error, the cache as it is left
    and the URLs requested over HTTP.  [sha256hex] is
    [hex.EncodeToString(sha256.Sum256(content))]; [tGet], [tFetched] and
    [tSet] are the readings of the clock in [cache.Get], for [FetchedAt]
    and in [cache.Set]. *)
Definition FetchDocument `{GoLib} (sha256hex : string -> string)
    (f : DocumentFetcher) (url : string) (tGet tFetched tSet : Z)
    : (Document + string) * DocumentCache * list string :=
  match Get (cache f) tGet url with
  | Some doc => (inl doc, cache f, [])
  | None =>
      match httpClient f url with
      | RequestInvalid err =>
          (inr ("failed to create request: " +:+ err), cache f, [])
      | TransportError err =>
          (inr ("failed to fetch document: " +:+ err), cache f, [url])
      | Response status contentType body =>
          if negb (status =? 200) then
            (inr ("failed to fetch document: HTTP " +:+ fmt_d status),
             cache f, [url])
          else
            match body with
            | inr err =>
                (inr ("failed to read document: " +:+ err), cache f, [url])
            | inl content =>
                let doc :=
                  {| URL := url;
                     Content := content;
                     ContentType := contentType;
                     ContentHash := sha256hex content;
                     Size := Z.of_nat (strings.len content);
                     FetchedAt := tFetched |} in
                (inl doc, Set_ (cache f) tSet url (Some doc), [url])
            end
      end
  end.

End documents.

(** ** Key authentication (package [middleware], after the router in
    [internal/router/model_router.go]) *)

(** Go's conversion [string(rune(r))]: the UTF-8 encoding of the code
    point [r], or of U+FFFD when [r] is not a valid code point. *)
Module utf8.

Definition byte (n : Z) : ascii := ascii_of_N (Z.to_N n).

Definition RuneError : string :=
  String (byte 239) (String (byte 191) (String (byte 189) "")).

Definition encodeRune (r : Z) : string :=
  if (r <? 0) || (1114111 <? r) || ((55296 <=? r) && (r <=? 57343)) then
    RuneError
  else if r <=? 127 then String (byte r) ""
  else if r <=? 2047 then
    String (byte (192 + r / 64)) (String (byte (128 + r mod 64)) "")
  else if r <=? 65535 then
    String (byte (224 + r / 4096))
      (String (byte (128 + (r / 64) mod 64))
         (String (byte (128 + r mod 64)) ""))
  else
    String (byte (240 + r / 262144))
      (String (byte (128 + (r / 4096) mod 64))
         (String (byte (128 + (r / 64) mod 64))
            (String (byte (128 + r mod 64)) ""))).

(** [rune(i)] for an [int]: the low 32 bits, signed. *)
Definition rune (i : Z) : Z := (i + 2 ^ 31) mod 2 ^ 32 - 2 ^ 31.

End utf8.

Module middleware.

(** Modelled from the spec: package [auth] is not among the sources; the
    key database and the TOTP manager are taken as the opaque lookups the
    middleware calls: [ValidateAPIKey] gives the key's record or fails,
    [IsTOTPEnabled] gives the flag the middleware reads (it drops the
    error), [ValidateTOTP] gives the verdict and whether it failed. *)
Record APIKeyInfo := {
  ID : Z;
  Name : string;
  Email : string
}.

Record Auth := {
  ValidateAPIKey : string -> option APIKeyInfo;
  IsTOTPEnabled : Z -> bool;
  ValidateTOTP : Z -> string -> bool * bool   (* valid, err != nil *)
}.

(** The parts of a [*gin.Context] the middleware reads. *)
Record Context := {
  GetHeader : string -> string;
  ClientIP : string;
  URL_Path : string
}.

(** A value stored by [c.Set]. *)
Inductive Value :=
| VString (s : string)
| VInt64 (n : Z)
| VBool (b : bool).

(** A call of [apiKeyDB.LogAPIKeyUsage]. *)
Record Usage := {
  keyID : Z;
  action : string;
  ip : string;
  userAgent : string;
  path : string;
  statusCode : Z;
  details : string
}.

(** What a run of the middleware does: the reply it writes with
    [c.JSON], whether it calls [c.Abort()], the context values with which
    it calls [c.Next()], if it does, and the usage records it logs. *)
Record Outcome := {
  reply : option (Z * JSON);
  aborted : bool;
  passed : option (list (string * Value));
  usage : list Usage
}.

Definition dq : string := String "034"%char "".

Definition boolToString (b : bool) : string :=
  if b then "true" else "false".

Definition intToString (i : Z) : string := utf8.encodeRune (utf8.rune i).

(** The key the request presents: [X-API-Key], else the bearer token. *)
Definition presentedKey (c : Context) : string :=
  if String.eqb (GetHeader c "X-API-Key") "" then
    let authHeader := GetHeader c "Authorization" in
    if strings.HasPrefix authHeader "Bearer "
    then strings.TrimPrefix authHeader "Bearer "
    else ""
  else GetHeader c "X-API-Key".

Definition logUsage (c : Context) (keyID : Z) (action : string)
    (statusCode : Z) (details : string) : Usage :=
  {| keyID := keyID; action := action; ip := ClientIP c;
     userAgent := GetHeader c "User-Agent"; path := URL_Path c;
     statusCode := statusCode; details := details |}.

Definition reject (body : list (string * JSON)) (usage : list Usage) : Outcome :=
  {| reply := Some (401, JObj body); aborted := true; passed := None;
     usage := usage |}.

(** [EnhancedAPIKeyAuth(apiKeyDB, totpManager, require2FA)] run on a
    request; [next] is the status the rest of the chain leaves in
    [c.Writer] when it is run with the given context values. *)
Definition EnhancedAPIKeyAuth (db : Auth) (require2FA : bool) (c : Context)
    (next : list (string * Value) -> Z) : Outcome :=
  let apiKey := presentedKey c in
  if String.eqb apiKey "" then
    reject [("error", JStr "Missing API key");
            ("message",
             JStr "Provide API key via X-API-Key header or Authorization: Bearer <key>")]
           []
  else
    match ValidateAPIKey db apiKey with
    | None =>
        reject [("error", JStr "Invalid API key")]
               [logUsage c 0 "auth_failed" 401
                  ("{" +:+ dq +:+ "error" +:+ dq +:+ ":" +:+ dq
                   +:+ "invalid_api_key" +:+ dq +:+ "}")]
    | Some keyInfo =>
        let twoFAEnabled := IsTOTPEnabled db (ID keyInfo) in
        let proceed :=
          let keys :=
            [("user", VString (Name keyInfo));
             ("user_email", VString (Email keyInfo));
             ("api_key_id", VInt64 (ID keyInfo));
             ("auth_method", VString "api_key_db");
             ("2fa_enabled", VBool twoFAEnabled)] in
          let statusCode := next keys in
          {| reply := None; aborted := false; passed := Some keys;
             usage :=
               [logUsage c (ID keyInfo) "auth_success" 200
                  ("{" +:+ dq +:+ "2fa_used" +:+ dq +:+ ":"
                   +:+ boolToString twoFAEnabled +:+ "}");
                logUsage c (ID keyInfo) "request_completed" statusCode
                  ("{" +:+ dq +:+ "status" +:+ dq +:+ ":"
                   +:+ intToString statusCode +:+ "}")] |} in
        if twoFAEnabled || require2FA then
          let totpCode := GetHeader c "X-TOTP-Code" in
          if String.eqb totpCode "" then
            reject [("error", JStr "2FA required");
                    ("message",
                     JStr "Provide TOTP code via X-TOTP-Code header")]
                   []
          else
            let '(valid, failed) := ValidateTOTP db (ID keyInfo) totpCode in
            if failed || negb valid then
              reject [("error", JStr "Invalid TOTP code")]
                     [logUsage c (ID keyInfo) "2fa_failed" 401
                        ("{" +:+ dq +:+ "error" +:+ dq +:+ ":" +:+ dq
                         +:+ "invalid_totp" +:+ dq +:+ "}")]
            else proceed
        else proceed
    end.

End middleware.

(** ** The chat-completions handler ([OpenAIHandler]) *)

Module openai_handler.

Import translator.

(** The decoding and encoding [encoding/json] performs on the types whose
    declarations are not among the sources. *)
Inductive decoded (A : Type) :=
| DecodeError
| DecodedNil
| Decoded (v : A).
Arguments DecodeError {A}.
Arguments DecodedNil {A}.
Arguments Decoded {A} v.

Class Codec := {
  marshalRequest : ChatCompletionRequest -> option JSON;
  unmarshalConverse : string -> option ConverseResponse;
  unmarshalCompletion : string -> decoded ChatCompletionResponse
}.

Inductive ReplyBody :=
| ErrorResponse (Message Type_ Code : string)
| Completion (resp : ChatCompletionResponse).

(** What [c.JSON(status, body)] sends; [Panicked] is the nil dereference
    of a provider reply that decodes to a nil response. *)
Inductive Reply :=
| Replied (status : Z) (body : ReplyBody)
| Panicked.

Definition handleProviderError `{providers.ErrCodes} (err : providers.error)
    : Reply :=
  match err with
  | providers.ProviderError statusCode message _ code =>
      let statusCode := if statusCode =? 0 then 500 else statusCode in
      let errorType :=
        if String.eqb code providers.ErrCodeInvalidRequest
        then "invalid_request_error"
        else if String.eqb code providers.ErrCodeAuthenticationFail
        then "authentication_error"
        else if String.eqb code providers.ErrCodeRateLimitExceeded
        then "rate_limit_error"
        else if String.eqb code providers.ErrCodeModelNotFound
        then "invalid_request_error"
        else "api_error" in
      Replied statusCode (ErrorResponse message errorType code)
  | providers.OtherError _ =>
      Replied 500 (ErrorResponse "Internal server error" "api_error"
                     "internal_error")
  end.

(** The defaults [ChatCompletions] sets on the bound request. *)
Definition withDefaults (req : ChatCompletionRequest) : ChatCompletionRequest :=
  {| Model := Model req;
     Messages := Messages req;
     MaxTokens := if MaxTokens req =? 0 then 4096 else MaxTokens req;
     Temperature :=
       if PrimFloat.eqb (Temperature req) PrimFloat.zero
       then PrimFloat.one else Temperature req;
     TopP := TopP req;
     Stop := Stop req;
     Stream := Stream req;
     Tools := Tools req;
     Functions := Functions req;
     ToolChoice := ToolChoice req |}.

(** The request [handleNonStreamingRequest] hands to the provider, or the
    reply it sends when none can be built. *)
Definition buildProviderRequest `{GoLib} `{Codec}
    (provider : providers.Provider) (req : ChatCompletionRequest)
    : providers.ProviderRequest + Reply :=
  if String.eqb (providers.Name provider) "bedrock" then
    match TranslateOpenAIToConverseAPI req with
    | inr err =>
        inr (Replied 400
               (ErrorResponse ("Failed to translate request: " +:+ err)
                  "invalid_request_error" "translation_failed"))
    | inl (providerReq, _) => inl providerReq
    end
  else
    match marshalRequest req with
    | None =>
        inr (Replied 400
               (ErrorResponse "Failed to marshal request"
                  "invalid_request_error" "marshal_failed"))
    | Some reqBody =>
        inl {| providers.Method := "POST";
               providers.Path := "/chat/completions";
               providers.Headers := {[ "Content-Type" := "application/json" ]};
               providers.Body := reqBody |}
    end.

Definition setMetadata (resp : ChatCompletionResponse)
    (requestID : string) (startTime : Z) : ChatCompletionResponse :=
  {| ID := requestID;
     Object := Object resp;
     Created := startTime;
     resp_Model := resp_Model resp;
     Choices := Choices resp;
     resp_Usage := resp_Usage resp |}.

Definition parseError : Reply :=
  Replied 500 (ErrorResponse "Failed to parse provider response"
                 "internal_error" "response_parse_error").

Definition handleNonStreamingRequest `{GoLib} `{Codec} `{providers.ErrCodes}
    (provider : providers.Provider) (req : ChatCompletionRequest)
    (requestID : string) (startTime : Z) : Reply :=
  match buildProviderRequest provider req with
  | inr reply => reply
  | inl providerReq =>
      match providers.Invoke provider providerReq with
      | inr err => handleProviderError err
      | inl providerResp =>
          if String.eqb (providers.Name provider) "bedrock" then
            match unmarshalConverse (providers.resp_Body providerResp) with
            | None => parseError
            | Some converseResp =>
                Replied 200
                  (Completion
                     (setMetadata
                        (TranslateConverseToOpenAI converseResp (Model req)
                           requestID)
                        requestID startTime))
            end
          else
            match unmarshalCompletion (providers.resp_Body providerResp) with
            | DecodeError => parseError
            | DecodedNil => Panicked
            | Decoded openaiResp =>
                Replied 200
                  (Completion (setMetadata openaiResp requestID startTime))
            end
      end
  end.

Definition handleStreamingRequest : Reply :=
  Replied 501 (ErrorResponse "Streaming not yet implemented"
                 "not_implemented_error" "streaming_not_implemented").

(** [ChatCompletions]: [bound] is the outcome of [c.ShouldBindJSON(&req)],
    [uuid] the text of the fresh UUID and [startTime] the reading of the
    clock, in seconds. *)
Definition ChatCompletions `{GoLib} `{Codec} `{providers.ErrCodes}
    (r : router.Router) (bound : option ChatCompletionRequest)
    (uuid : string) (startTime : Z) : Reply :=
  match bound with
  | None =>
      Replied 400 (ErrorResponse "Invalid request body"
                     "invalid_request_error" "invalid_json")
  | Some req =>
      if String.eqb (Model req) "" then
        Replied 400 (ErrorResponse "Model is required"
                       "invalid_request_error" "missing_model")
      else
        let requestID := "chatcmpl-" +:+ strings.slice uuid 0 8 in
        let req := withDefaults req in
        match fst (router.RouteRequest r (Model req) "") with
        | inr _ =>
            Replied 400
              (ErrorResponse
                 ("Model " +:+ fmt_q (Model req) +:+ " not found or not available")
                 "invalid_request_error" "model_not_found")
        | inl (provider, _) =>
            if Stream req then handleStreamingRequest
            else handleNonStreamingRequest provider req requestID startTime
        end
  end.

End openai_handler.


(** ** The specification's notions, for comparison with the code *)

(** The policy in the specification's words: the bucket is outside a
    non-empty allowlist, or the key, with or without a leading slash,
    begins with a denied prefix. *)
Definition denied_by_policy (ac : handlers.StorageAccessControl)
    (bucket key : string) : Prop :=
  (handlers.AllowedBuckets ac <> [] /\ ~ In bucket (handlers.AllowedBuckets ac))
  \/ exists denied, In denied (handlers.DeniedPrefixes ac)
                    /\ (strings.HasPrefix ("/" +:+ key) denied = true
                        \/ strings.HasPrefix key denied = true).

(** A path segment: a string without a slash. *)
Definition noSlash (s : string) : Prop := strings.Index s "/" = None.





Definition isSystem (m : translator.ChatMessage) : bool :=
  String.eqb (translator.Role m) "system".





(** ** Notions used to state further properties of the code *)

(** The error, if any, with which a storage provider answers a call. *)
Definition failure (provider : storage.StorageProvider) (c : storage.Call)
    : option storage.error :=
  let err {A : Type} (res : storage.result A) : option storage.error :=
    match res with inr e => Some e | inl _ => None end in
  match c with
  | storage.CallGetObject req => err (storage.GetObject provider req)
  | storage.CallPutObject req => err (storage.PutObject provider req)
  | storage.CallDeleteObject req => err (storage.DeleteObject provider req)
  | storage.CallListObjects req => err (storage.ListObjects provider req)
  | storage.CallGeneratePresignedURL req =>
      err (storage.GeneratePresignedURL provider req)
  | storage.CallHeadObject req => err (storage.HeadObject provider req)
  end.

(** A message as it is without its [tool_calls]. *)
Definition withoutToolCalls (m : translator.ChatMessage) : translator.ChatMessage :=
  {| translator.Role := translator.Role m;
     translator.Content := translator.Content m;
     translator.ToolCalls := [] |}.

(** The registrations made on a router while it is set up. *)
Inductive Registration :=
| RegProvider (provider : providers.Provider)
| RegMapping (model providerName : string).

Definition register (r : router.ModelRouter providers.Provider)
    (op : Registration) : router.ModelRouter providers.Provider :=
  match op with
  | RegProvider provider => fst (router.RegisterProvider r provider)
  | RegMapping model providerName =>
      fst (router.RegisterModelMapping r model providerName)
  end.

(** The router [NewModelRouter()] after a series of registrations. *)
Definition configured (ops : list Registration)
    : router.ModelRouter providers.Provider :=
  fold_left register ops router.NewModelRouter.

Definition isTextBlock (b : translator.BedrockContentBlock) : bool :=
  String.eqb (translator.bcb_Type b) "text".

(** A fetcher with the given client and cache. *)
Definition fetcherWith (f : documents.DocumentFetcher)
    (c : documents.DocumentCache) : documents.DocumentFetcher :=
  {| documents.httpClient := documents.httpClient f; documents.cache := c |}.

(** ** A concrete environment, for evaluating the code on examples *)

Module Samples.

Definition quote : string := String "034"%char "".

(** Stand-ins for the library functions: [%q] quotes, [%d] prints in
    decimal, an instant is printed as the layout and the nanoseconds, and
    the seconds of a duration are its quotient by a second. *)
#[global] Instance lib : GoLib := {|
  fmt_q := fun s => quote +:+ s +:+ quote;
  fmt_d := fun n => DecimalString.NilZero.string_of_int (Z.to_int n);
  fmt_v := fun _ => "<nil>";
  json_text := fun _ => "{}";
  time_Format := fun layout t =>
    layout +:+ "@" +:+ DecimalString.NilZero.string_of_int (Z.to_int t);
  Duration_Seconds_int := fun d => Z.quot d 1000000000;
  Duration_Seconds_whole := fun n _ =>
    Z.quot_mul n 1000000000 ltac:(discriminate)
|}.

(** An SDK presign client that signs what it is given, except that, like
    the SDK's, it refuses an expiry that is negative. *)
Definition sdk : s3.S3Provider :=
  {| s3.presignClient := fun _ bucket key _ expires =>
       if expires <? 0 then inr "presign expiry must not be negative"
       else inl ("https://" +:+ bucket +:+ ".s3.amazonaws.com/" +:+ key);
     s3.now := 1700000000000000000 |}.

Definition unavailable {A : Type} : storage.result A :=
  inr (storage.OtherError "unavailable").

Definition s3provider : storage.StorageProvider :=
  {| storage.Name := "s3";
     storage.GetObject := fun _ => unavailable;
     storage.PutObject := fun _ => unavailable;
     storage.DeleteObject := fun _ => unavailable;
     storage.ListObjects := fun _ =>
       inl {| storage.lo_Objects := []; storage.lo_CommonPrefixes := [];
              storage.lo_IsTruncated := false;
              storage.lo_NextContinuationToken := "" |};
     storage.GeneratePresignedURL := s3.GeneratePresignedURL sdk;
     storage.HeadObject := fun _ => unavailable |}.

(** [NewStorageHandler(providers, nil)] with the S3 provider registered. *)
Definition handler : handlers.StorageHandler :=
  handlers.NewStorageHandler {[ "s3" := s3provider ]} None.

Definition GET (path : string) (query : list (string * string))
    : handlers.Request :=
  {| handlers.URL_Path := path; handlers.URL_Query := query;
     handlers.Header_ContentType := ""; handlers.Body := "" |}.

Definition message (role : string) (content : JSON) : translator.ChatMessage :=
  {| translator.Role := role; translator.Content := content;
     translator.ToolCalls := [] |}.

(** A chat-completion request as decoded from a body that gives only
    [model], [messages] and, when not 0, [max_tokens]. *)
Definition chat (model : string) (messages : list translator.ChatMessage)
    (maxTokens : Z) : translator.ChatCompletionRequest :=
  {| translator.Model := model;
     translator.Messages := messages;
     translator.MaxTokens := maxTokens;
     translator.Temperature := PrimFloat.zero;
     translator.TopP := PrimFloat.zero;
     translator.Stop := [];
     translator.Stream := false;
     translator.Tools := [];
     translator.Functions := [];
     translator.ToolChoice := JNull |}.

(** A Converse response carrying the given blocks. *)
Definition converseResponse (blocks : list translator.ContentBlock)
    (stopReason : string) : translator.ConverseResponse :=
  {| translator.Output_Message :=
       Some {| translator.cm_Role := "assistant";
               translator.cm_Content := blocks |};
     translator.StopReason := stopReason;
     translator.cv_Usage := {| translator.InputTokens := 5;
                               translator.OutputTokens := 1;
                               translator.cu_TotalTokens := 6 |};
     translator.Metrics_LatencyMs := None |}.

Definition toolUseBlock (id name : string) (input : JSON)
    : translator.ContentBlock :=
  translator.mkContentBlock None None None
    (Some {| translator.ToolUseId := id; translator.Name := name;
             translator.Input := input |}) None.

#[global] Instance codec : openai_handler.Codec := {|
  openai_handler.marshalRequest := fun _ => Some (JObj []);
  openai_handler.unmarshalConverse := fun _ =>
    Some (converseResponse [translator.textBlock "hello"] "end_turn");
  openai_handler.unmarshalCompletion := fun _ => openai_handler.DecodeError
|}.

#[global] Instance errCodes : providers.ErrCodes := {|
  providers.ErrCodeInvalidRequest := "invalid_request";
  providers.ErrCodeAuthenticationFail := "authentication_failed";
  providers.ErrCodeRateLimitExceeded := "rate_limit_exceeded";
  providers.ErrCodeModelNotFound := "model_not_found"
|}.

Definition provider (name : string) : providers.Provider :=
  {| providers.Name := name;
     providers.Invoke := fun _ =>
       inl {| providers.StatusCode := 200; providers.resp_Headers := ∅;
              providers.resp_Body := "" |} |}.

(** A configuration whose default provider is [openai_primary], which is
    disabled, with three fallbacks declared, [azure_backup] alone being
    enabled and registered. *)
Definition config (maxAttempts : Z) : router.Config :=
  {| router.GetDefaultProvider := fun _ => "openai_primary";
     router.IsProviderEnabled := fun p => String.eqb p "azure_backup"
                                          || String.eqb p "bedrock";
     router.GetProviderModelInfo := fun model _ =>
       inl {| router.pmi_Model := model |};
     router.GetFallbackProviders :=
       ["openai_primary"; "vertex_backup"; "azure_backup"; "bedrock"];
     router.Features_AutoFallback := true;
     router.Routing_Fallback_Enabled := true;
     router.Routing_Fallback_MaxAttempts := maxAttempts |}.

Definition fallbackRouter (maxAttempts : Z) : router.Router :=
  {| router.config := config maxAttempts;
     router.registry := {[ "azure_backup" := provider "azure";
                           "bedrock" := provider "bedrock" ]} |}.

(** A router whose default provider for every model is Bedrock. *)
Definition bedrockRouter : router.Router :=
  {| router.config :=
       {| router.GetDefaultProvider := fun _ => "bedrock";
          router.IsProviderEnabled := fun _ => true;
          router.GetProviderModelInfo := fun model _ =>
            inl {| router.pmi_Model := model |};
          router.GetFallbackProviders := [];
          router.Features_AutoFallback := false;
          router.Routing_Fallback_Enabled := false;
          router.Routing_Fallback_MaxAttempts := 0 |};
     router.registry := {[ "bedrock" := provider "bedrock" ]} |}.

#[global] Instance serviceErrCodes : providers.ServiceErrCodes := {|
  providers.ErrCodeServiceUnavailable := "service_unavailable";
  providers.ErrCodeInternalError := "internal_error"
|}.

(** A handler whose access control allows the bucket [public-docs] only. *)
Definition restrictedHandler : handlers.StorageHandler :=
  handlers.NewStorageHandler {[ "s3" := s3provider ]}
    (Some {| handlers.AllowedBuckets := ["public-docs"];
             handlers.DeniedPrefixes := [];
             handlers.AllowedProviders := ["s3"] |}).

End Samples.

(* ===================================================================== *)
(** * Part II: properties *)
(* ===================================================================== *)

(** ** Strings *)


Lemma slice_0_1_length (s : string) : (String.length (strings.slice s 0 1) <= 1)%nat.
Proof.
  unfold strings.slice. destruct s as [| c s]; simpl; [lia |].
  destruct s; simpl; lia.
Qed.

Lemma eqb_length_neq (s t : string) :
  String.length s <> String.length t -> String.eqb s t = false.
Proof.
  intros Hlen. apply String.eqb_neq. intros ->. apply Hlen. reflexivity.
Qed.

Lemma substring_all (s : string) : substring 0 (String.length s) s = s.
Proof. induction s as [| c s IH]; [reflexivity |]. cbn. now rewrite IH. Qed.

Lemma index_cons (c : ascii) (s : string) :
  index 0 "/" (String c s)
  = if ascii_dec "/" c then Some 0%nat
    else match index 0 "/" s with Some n => Some (S n) | None => None end.
Proof.
  cbn [index String.prefix]. destruct (ascii_dec "/" c); [| reflexivity].
  destruct s; reflexivity.
Qed.

Lemma Index_segment (s rest : string) :
  strings.Index s "/" = None ->
  strings.Index (s +:+ String "/" rest) "/" = Some (String.length s).
Proof.
  unfold strings.Index. induction s as [| c s IH]; intros Hs.
  - change ("" +:+ String "/" rest) with (String "/" rest).
    rewrite index_cons. reflexivity.
  - change (String c s +:+ String "/" rest) with (String c (s +:+ String "/" rest)).
    rewrite index_cons in Hs |- *.
    destruct (ascii_dec "/" c) as [Heq | Hne]; [discriminate |].
    destruct (index 0 "/" s) eqn:Hi; [discriminate |].
    rewrite IH by reflexivity. reflexivity.
Qed.

Lemma slice_segment (s rest : string) :
  strings.slice (s +:+ String "/" rest) 0 (String.length s) = s.
Proof.
  unfold strings.slice. rewrite Nat.sub_0_r.
  induction s as [| c s IH]; [reflexivity |].
  change (String c s +:+ String "/" rest) with (String c (s +:+ String "/" rest)).
  cbn [String.length substring]. now rewrite IH.
Qed.

Lemma length_append (s t : string) :
  String.length (s +:+ t) = (String.length s + String.length t)%nat.
Proof.
  induction s as [| c s IH]; [reflexivity |].
  change (String c s +:+ t) with (String c (s +:+ t)).
  cbn [String.length]. now rewrite IH.
Qed.

Lemma substring_skip (s t : string) (n : nat) :
  substring (String.length s) n (s +:+ t) = substring 0 n t.
Proof.
  induction s as [| c s IH]; [reflexivity |].
  change (String c s +:+ t) with (String c (s +:+ t)).
  cbn [String.length substring]. exact IH.
Qed.

Lemma append_slash (s rest : string) :
  (s +:+ "/") +:+ rest = s +:+ String "/" rest.
Proof.
  induction s as [| c s IH]; [reflexivity |].
  change (String c ((s +:+ "/") +:+ rest) = String c (s +:+ String "/" rest)).
  now rewrite IH.
Qed.

Lemma slice_from_segment (s rest : string) :
  strings.slice_from (s +:+ String "/" rest) (String.length s + strings.len "/") = rest.
Proof.
  unfold strings.slice_from, strings.len.
  change (String.length "/") with 1%nat.
  rewrite <- append_slash.
  replace (String.length s + 1)%nat with (String.length (s +:+ "/"))
    by (rewrite length_append; reflexivity).
  rewrite substring_skip, !length_append.
  replace (String.length s + String.length "/" + String.length rest
           - (String.length s + String.length "/"))%nat
    with (String.length rest) by lia.
  apply substring_all.
Qed.

Lemma SplitN_segment (s rest : string) (n : nat) :
  noSlash s ->
  strings.SplitN (s +:+ String "/" rest) "/" (S (S n))
  = s :: strings.SplitN rest "/" (S n).
Proof.
  intros Hs. cbn [strings.SplitN].
  rewrite (Index_segment s rest Hs), slice_segment, slice_from_segment.
  reflexivity.
Qed.

Lemma TrimPrefix_storage (x : string) :
  strings.TrimPrefix (String "/" (String "-" x)) "/-" = x.
Proof.
  unfold strings.TrimPrefix, strings.HasPrefix, strings.slice_from, strings.len.
  cbn [String.prefix].
  destruct (ascii_dec "/" "/") as [_ | Hne]; [| congruence].
  destruct (ascii_dec "-" "-") as [_ | Hne]; [| congruence].
  cbn [String.length Nat.sub substring].
  rewrite Nat.sub_0_r. destruct x; apply substring_all.
Qed.

(** The storage path grammar [/-{provider}/{env}/{operation}/{bucket}[/{key}]]
    as [Handle] cuts it: the first four segments and, when present, the
    whole remainder as the key. *)
Lemma pathParts_with_key (provider env operation bucket key : string) :
  noSlash provider -> noSlash env -> noSlash operation -> noSlash bucket ->
  handlers.pathParts
    ("/-" +:+ provider +:+ "/" +:+ env +:+ "/" +:+ operation +:+ "/"
     +:+ bucket +:+ "/" +:+ key)
  = [provider; env; operation; bucket; key].
Proof.
  intros Hp He Ho Hb. unfold handlers.pathParts.
  change ("/-" +:+ provider +:+ "/" +:+ env +:+ "/" +:+ operation +:+ "/"
            +:+ bucket +:+ "/" +:+ key)
    with (String "/" (String "-" (provider +:+ String "/" (env +:+ String "/"
            (operation +:+ String "/" (bucket +:+ String "/" key)))))).
  rewrite TrimPrefix_storage.
  rewrite !SplitN_segment by assumption. reflexivity.
Qed.

Lemma SplitN_last (s : string) (n : nat) :
  noSlash s -> strings.SplitN s "/" (S n) = [s].
Proof.
  intros Hs. destruct n; [reflexivity |]. cbn [strings.SplitN]. now rewrite Hs.
Qed.

Lemma pathParts_without_key (provider env operation bucket : string) :
  noSlash provider -> noSlash env -> noSlash operation -> noSlash bucket ->
  handlers.pathParts
    ("/-" +:+ provider +:+ "/" +:+ env +:+ "/" +:+ operation +:+ "/" +:+ bucket)
  = [provider; env; operation; bucket].
Proof.
  intros Hp He Ho Hb. unfold handlers.pathParts.
  change ("/-" +:+ provider +:+ "/" +:+ env +:+ "/" +:+ operation +:+ "/"
            +:+ bucket)
    with (String "/" (String "-" (provider +:+ String "/" (env +:+ String "/"
            (operation +:+ String "/" bucket))))).
  rewrite TrimPrefix_storage.
  rewrite !SplitN_segment by assumption.
  now rewrite SplitN_last.
Qed.

Example Atoi_examples :
  map strconv.Atoi
    ["3600"; "0"; "-5"; "+7"; ""; "-"; "12a"; "1e3"; " 1";
     "9223372036854775807"; "9223372036854775808"; "-9223372036854775808"]
  = [Some 3600; Some 0; Some (-5); Some 7; None; None; None; None; None;
     Some 9223372036854775807; None; Some (-9223372036854775808)].
Proof. vm_compute. reflexivity. Qed.

Example strings_examples :
  strings.SplitN "s3/prod/get/bucket/a/b/c" "/" 5
  = ["s3"; "prod"; "get"; "bucket"; "a/b/c"]
  /\ strings.SplitN "data:image/png;base64,AAAA,BBBB" "," 2
     = ["data:image/png;base64"; "AAAA,BBBB"]
  /\ strings.Split "data:image/png;base64" ";" = ["data:image/png"; "base64"]
  /\ strings.TrimPrefix "/-s3/prod" "/-" = "s3/prod"
  /\ strings.TrimPrefix "s3/prod" "/-" = "s3/prod"
  /\ strings.HasSuffix "gpt-4-azure" "-azure" = true
  /\ strings.HasSuffix "azure" "-azure" = false
  /\ strings.Contains "cohere.command-text-v14" "command-text" = true
  /\ strings.Join ["a"; "b"] "/" = "a/b".
Proof. vm_compute. repeat split. Qed.

(** ** The storage access check *)

Lemma bucketAllowed_In ac bucket :
  handlers.bucketAllowed ac bucket = true <-> In bucket (handlers.AllowedBuckets ac).
Proof.
  unfold handlers.bucketAllowed. rewrite existsb_exists. split.
  - intros (x & Hin & Heq). apply String.eqb_eq in Heq. now subst.
  - intros Hin. exists bucket. split; [exact Hin | apply String.eqb_refl].
Qed.

Lemma CheckAccess_false_iff ac r bucket key operation :
  handlers.CheckAccess ac r bucket key operation = false
  <-> denied_by_policy ac bucket key.
Proof.
  unfold handlers.CheckAccess, denied_by_policy. split.
  - destruct (handlers.AllowedBuckets ac) as [| a l] eqn:Hal; simpl.
    + intros Hd. right. apply negb_false_iff in Hd.
      apply existsb_exists in Hd as (d & Hin & Hk).
      exists d. split; [exact Hin |].
      unfold handlers.keyDenied in Hk. now apply orb_true_iff in Hk.
    + destruct (handlers.bucketAllowed ac bucket) eqn:Hb; simpl.
      * intros Hd. right. apply negb_false_iff in Hd.
        apply existsb_exists in Hd as (d & Hin & Hk).
        exists d. split; [exact Hin |].
        unfold handlers.keyDenied in Hk. now apply orb_true_iff in Hk.
      * intros _. left. split; [discriminate |].
        intros Hin. change (In bucket (a :: l)) in Hin. rewrite <- Hal in Hin.
        apply bucketAllowed_In in Hin. congruence.
  - intros [[Hne Hnin] | (d & Hin & Hk)].
    + destruct (handlers.AllowedBuckets ac) as [| a l] eqn:Hal; [congruence |].
      simpl. destruct (handlers.bucketAllowed ac bucket) eqn:Hb; simpl; [| reflexivity].
      apply bucketAllowed_In in Hb. rewrite Hal in Hb. contradiction.
    + assert (Hex : existsb (handlers.keyDenied key) (handlers.DeniedPrefixes ac) = true).
      { apply existsb_exists. exists d. split; [exact Hin |].
        unfold handlers.keyDenied. now apply orb_true_iff. }
      rewrite Hex. simpl. now destruct (_ && _).
Qed.





(** The switch reaches [GeneratePresignedURL] only in its [presign] case,
    with a key, a well-formed ttl, and the request built from them. *)
Lemma dispatch_presign_call `{GoLib} (provider : storage.StorageProvider)
    (r : handlers.Request) (bucket key operation : string)
    (req : storage.PresignRequest) :
  snd (handlers.dispatch provider r bucket key operation)
  = [storage.CallGeneratePresignedURL req] ->
  operation = "presign" /\ key <> ""
  /\ fst (handlers.dispatch provider r bucket key operation)
     = match storage.GeneratePresignedURL provider req with
       | inr err => handlers.handleStorageError err
       | inl resp => handlers.ok (handlers.encodePresignedURL resp)
       end.
Proof.
  unfold handlers.dispatch, handlers.keyRequired. intros Hcall.
  repeat match type of Hcall with
         | context [String.eqb operation ?o] =>
             destruct (String.eqb_spec operation o)
         | context [String.eqb key ""] => destruct (String.eqb_spec key "")
         end; simpl in Hcall; try discriminate Hcall.
  destruct (strconv.Atoi _) as [ttlSeconds |]; simpl in Hcall;
    [| discriminate Hcall].
  injection Hcall as <-. auto.
Qed.

Lemma Handle_calls_dispatch `{GoLib} (h : handlers.StorageHandler)
    (r : handlers.Request) (c : storage.Call) :
  snd (handlers.Handle h r) = [c] ->
  let parts := handlers.pathParts (handlers.URL_Path r) in
  exists provider,
    handlers.providers h !! nth 0 parts "" = Some provider
    /\ handlers.Handle h r
       = handlers.dispatch provider r (handlers.bucketOf parts)
           (handlers.keyOf parts) (nth 2 parts "").
Proof.
  intros Hc parts. unfold handlers.Handle in *. fold parts in Hc |- *.
  destruct (length parts <? 4)%nat; [discriminate |].
  destruct (handlers.providers h !! nth 0 parts "") as [provider |];
    [| discriminate].
  destruct (handlers.CheckAccess _ _ _ _ _); simpl in *; [| discriminate].
  exists provider. split; reflexivity.
Qed.

Lemma s3_presigned_fields `{GoLib} (p : s3.S3Provider)
    (req : storage.PresignRequest) (u : storage.PresignedURL) :
  s3.GeneratePresignedURL p req = inl u ->
  storage.ExpiresIn u = Duration_Seconds_int (storage.pr_ExpiresIn req)
  /\ storage.ExpiresAt u
     = time_Format time.RFC3339 (s3.now p + storage.pr_ExpiresIn req)
  /\ storage.Operation u = storage.pr_Operation req
  /\ storage.Bucket u = storage.pr_Bucket req
  /\ storage.Key u = storage.pr_Key req.
Proof.
  unfold s3.GeneratePresignedURL.
  destruct (s3.known_operation _); [| discriminate].
  destruct (s3.presignClient _ _ _ _ _ _); [| discriminate].
  intros Hu. injection Hu as <-. simpl. auto.
Qed.



(** ** Claims about the storage handler *)





(** C9 as stated fails: a request for a key under [private/] that names a
    provider the default policy lists but which is not registered is
    answered 404, not 403. *)
Lemma protected_key_on_unregistered_provider :
  handlers.Handle Samples.handler
    (Samples.GET "/-gcs/prod/get/rag-docs/private/keys.pem" [])
  = (handlers.writeError 404
       ("Storage provider " +:+ fmt_q "gcs" +:+ " not found"), [])
  /\ handlers.status
       (fst (handlers.Handle Samples.handler
               (Samples.GET "/-gcs/prod/get/rag-docs/private/keys.pem" [])))
     <> 403.
Proof. split; [vm_compute; reflexivity | vm_compute; discriminate]. Qed.







(** C6 as stated fails: a request without a key is not always treated
    as the claim says.  A [list] on a path that stops after the operation
    is answered 400, a [list] on a bucket outside the allowlist 403, and a
    [get] without a key on a provider that is not registered 404, not
    400. *)
Lemma keyless_request_before_the_switch :
  handlers.Handle Samples.handler (Samples.GET "/-s3/prod/list" [])
  = (handlers.writeError 400 "Invalid storage path format", [])
  /\ handlers.Handle Samples.restrictedHandler
       (Samples.GET "/-s3/prod/list/rag-docs" [])
     = (handlers.writeError 403 "Access denied", [])
  /\ handlers.Handle Samples.handler (Samples.GET "/-gcs/prod/get/rag-docs" [])
     = (handlers.writeError 404
          ("Storage provider " +:+ fmt_q "gcs" +:+ " not found"), []).
Proof. repeat split; vm_compute; reflexivity. Qed.

(** C1, as the code has it.  When a storage request ends in a successful
    [GeneratePresignedURL] call, the response is 200 and its JSON body is
    the object with the members [url], [expires_in], [expires_at],
    [operation], [bucket] and [key], in this order, holding the fields of
    the provider's result: the number of seconds is named [expires_in] and
    there is no member [ttl].  The S3 provider fills [expires_in] with the
    seconds of the requested expiry, [expires_at] with the RFC 3339
    rendering of the current time plus that expiry, and [operation],
    [bucket] and [key] with those of the request. *)
Theorem presign_response_format `{GoLib} :
  (forall (h : handlers.StorageHandler) (r : handlers.Request)
          (provider : storage.StorageProvider)
          (req : storage.PresignRequest) (u : storage.PresignedURL),
      handlers.providers h
        !! nth 0 (handlers.pathParts (handlers.URL_Path r)) "" = Some provider ->
      snd (handlers.Handle h r) = [storage.CallGeneratePresignedURL req] ->
      storage.GeneratePresignedURL provider req = inl u ->
      handlers.status (fst (handlers.Handle h r)) = 200
      /\ handlers.body (fst (handlers.Handle h r))
         = handlers.JSONBody
             (JObj [("url", JStr (storage.URL u));
                    ("expires_in", JInt (storage.ExpiresIn u));
                    ("expires_at", JStr (storage.ExpiresAt u));
                    ("operation", JStr (storage.Operation u));
                    ("bucket", JStr (storage.Bucket u));
                    ("key", JStr (storage.Key u))])
      /\ json.get "ttl" (handlers.encodePresignedURL u) = None)
  /\ (forall (p : s3.S3Provider) (req : storage.PresignRequest)
             (u : storage.PresignedURL),
         s3.GeneratePresignedURL p req = inl u ->
         storage.ExpiresIn u = Duration_Seconds_int (storage.pr_ExpiresIn req)
         /\ storage.ExpiresAt u
            = time_Format time.RFC3339 (s3.now p + storage.pr_ExpiresIn req)
         /\ storage.Operation u = storage.pr_Operation req
         /\ storage.Bucket u = storage.pr_Bucket req
         /\ storage.Key u = storage.pr_Key req).
Proof.
  split.
  - intros h r provider req u Hprov Hcall Hu.
    destruct (Handle_calls_dispatch h r _ Hcall) as (provider' & Hprov' & HH).
    rewrite Hprov in Hprov'. injection Hprov' as <-.
    rewrite HH in Hcall |- *.
    destruct (dispatch_presign_call provider r _ _ _ req Hcall) as (_ & _ & Hfst).
    rewrite Hfst, Hu. repeat split.
  - intros p req u. apply s3_presigned_fields.
Qed.

Lemma presign_response_format_witness :
  handlers.body
    (fst (handlers.Handle Samples.handler
            (Samples.GET "/-s3/prod/presign/rag-docs/policies/p.pdf"
               [("ttl", "3600")])))
  = handlers.JSONBody
      (JObj [("url", JStr "https://rag-docs.s3.amazonaws.com/policies/p.pdf");
             ("expires_in", JInt 3600);
             ("expires_at",
              JStr (time_Format time.RFC3339 (1700000000000000000 + 3600000000000)));
             ("operation", JStr "GetObject");
             ("bucket", JStr "rag-docs");
             ("key", JStr "policies/p.pdf")]).
Proof.
  destruct (presign_response_format (H := Samples.lib)) as [Hfmt _].
  destruct (Hfmt Samples.handler
              (Samples.GET "/-s3/prod/presign/rag-docs/policies/p.pdf"
                 [("ttl", "3600")])
              Samples.s3provider
              {| storage.pr_Bucket := "rag-docs";
                 storage.pr_Key := "policies/p.pdf";
                 storage.pr_Operation := "GetObject";
                 storage.pr_ExpiresIn := 3600000000000;
                 storage.pr_ContentType := "" |}
              {| storage.URL := "https://rag-docs.s3.amazonaws.com/policies/p.pdf";
                 storage.ExpiresIn := 3600;
                 storage.ExpiresAt := time_Format time.RFC3339 (1700000000000000000 + 3600000000000);
                 storage.Operation := "GetObject";
                 storage.Bucket := "rag-docs";
                 storage.Key := "policies/p.pdf" |})
    as (_ & Hbody & _);
    [reflexivity | vm_compute; reflexivity | vm_compute; reflexivity |].
  exact Hbody.
Defined.

(** C1 as stated fails: the body of a successful presign response has no
    member [ttl]; the seconds are under [expires_in]. *)
Lemma presign_body_has_no_ttl :
  let resp :=
    fst (handlers.Handle Samples.handler
           (Samples.GET "/-s3/prod/presign/rag-docs/policies/p.pdf"
              [("ttl", "3600")])) in
  handlers.status resp = 200
  /\ exists doc,
       handlers.body resp = handlers.JSONBody doc
       /\ json.keys doc
          = ["url"; "expires_in"; "expires_at"; "operation"; "bucket"; "key"]
       /\ json.get "ttl" doc = None
       /\ json.get "expires_in" doc = Some (JInt 3600).
Proof.
  vm_compute. split; [reflexivity |].
  eexists. repeat split.
Qed.




(** ** Claims about model routing and model identifiers *)

(** C5.  A model name with no exact mapping entry is routed by pattern:
    [claude-3-sonnet] to [bedrock], [claude-3-sonnet-20240229-anthropic]
    to [anthropic], [cohere.command-r-plus] to [oracle],
    [cohere.command-text] to [bedrock] and [gpt-4-azure-deployment] to
    [azure]. *)
Theorem pattern_routing_of_unmapped_models {Provider : Type}
    (r : router.ModelRouter Provider) (model provider : string) :
  In (model, provider)
     [("claude-3-sonnet", "bedrock");
      ("claude-3-sonnet-20240229-anthropic", "anthropic");
      ("cohere.command-r-plus", "oracle");
      ("cohere.command-text", "bedrock");
      ("gpt-4-azure-deployment", "azure")] ->
  router.modelMap r !! model = None ->
  router.GetProviderForModel r model = provider.
Proof.
  intros Hin Hmap. unfold router.GetProviderForModel. rewrite Hmap.
  simpl in Hin.
  destruct Hin as [H | [H | [H | [H | [H | []]]]]];
    injection H as <- <-; vm_compute; reflexivity.
Qed.

Lemma pattern_routing_of_unmapped_models_witness :
  map (router.GetProviderForModel (@router.NewModelRouter unit))
      ["claude-3-sonnet"; "claude-3-sonnet-20240229-anthropic";
       "cohere.command-r-plus"; "cohere.command-text";
       "gpt-4-azure-deployment"]
  = ["bedrock"; "anthropic"; "oracle"; "bedrock"; "azure"].
Proof.
  pose proof (fun model provider Hin =>
                pattern_routing_of_unmapped_models (@router.NewModelRouter unit)
                  model provider Hin (lookup_empty model)) as Hroute.
  cbn [map].
  rewrite (Hroute "claude-3-sonnet" "bedrock") by (simpl; auto 10).
  rewrite (Hroute "claude-3-sonnet-20240229-anthropic" "anthropic")
    by (simpl; auto 10).
  rewrite (Hroute "cohere.command-r-plus" "oracle") by (simpl; auto 10).
  rewrite (Hroute "cohere.command-text" "bedrock") by (simpl; auto 10).
  rewrite (Hroute "gpt-4-azure-deployment" "azure") by (simpl; auto 10).
  reflexivity.
Defined.

Lemma nativePrefix_never (friendlyName : string) :
  bedrock.nativePrefix friendlyName = false.
Proof.
  unfold bedrock.nativePrefix.
  pose proof (slice_0_1_length friendlyName) as Hlen.
  rewrite !eqb_length_neq; [reflexivity | | | |]; simpl; lia.
Qed.

Lemma GetBedrockModelID_lookup (friendlyName : string) :
  bedrock.GetBedrockModelID friendlyName
  = match bedrock.BedrockModelIDMap !! friendlyName with
    | Some modelID => (modelID, true)
    | None => ("", false)
    end.
Proof.
  unfold bedrock.GetBedrockModelID.
  rewrite nativePrefix_never, andb_false_r. reflexivity.
Qed.

(** C10.  [GetBedrockModelID] succeeds exactly on the keys of
    [BedrockModelIDMap]: the pass-through test compares the one-byte slice
    [friendlyName[0:1]] with longer strings and never holds, so for a
    model name outside the map both Bedrock translators return an error,
    the native identifier [anthropic.claude-3-sonnet-20240229-v1:0]
    included. *)
Theorem GetBedrockModelID_only_map_keys `{GoLib} :
  (forall friendlyName, bedrock.nativePrefix friendlyName = false)
  /\ (forall friendlyName,
        snd (bedrock.GetBedrockModelID friendlyName) = true
        <-> friendlyName ∈ dom bedrock.BedrockModelIDMap)
  /\ (forall req,
        (translator.Model req ∉ dom bedrock.BedrockModelIDMap) ->
        translator.TranslateOpenAIToConverseAPI req
        = inr ("model " +:+ fmt_q (translator.Model req)
               +:+ " not supported on Bedrock")
        /\ translator.TranslateOpenAIToBedrock req
           = inr ("model " +:+ fmt_q (translator.Model req)
                  +:+ " not supported on Bedrock"))
  /\ ("anthropic.claude-3-sonnet-20240229-v1:0" ∉ dom bedrock.BedrockModelIDMap)
  /\ bedrock.GetBedrockModelID "anthropic.claude-3-sonnet-20240229-v1:0"
     = ("", false).
Proof.
  split; [exact nativePrefix_never | split; [| split; [| split]]].
  - intros friendlyName. rewrite GetBedrockModelID_lookup, elem_of_dom.
    destruct (bedrock.BedrockModelIDMap !! friendlyName) as [modelID |] eqn:Hm;
      simpl; split; intros Hx; try reflexivity; try discriminate.
    + eauto.
    + destruct Hx as [x Hx]. discriminate.
  - intros req Hnot. rewrite elem_of_dom in Hnot.
    unfold translator.TranslateOpenAIToConverseAPI,
      translator.TranslateOpenAIToBedrock.
    rewrite GetBedrockModelID_lookup.
    destruct (bedrock.BedrockModelIDMap !! translator.Model req) eqn:Hm.
    + exfalso. apply Hnot. eauto.
    + simpl. split; reflexivity.
  - rewrite elem_of_dom. intros [x Hx]. vm_compute in Hx. discriminate.
  - vm_compute. reflexivity.
Qed.

(** The translators fail on a native Bedrock identifier. *)
Lemma GetBedrockModelID_only_map_keys_witness :
  translator.TranslateOpenAIToConverseAPI
    (Samples.chat "anthropic.claude-3-sonnet-20240229-v1:0"
       [Samples.message "user" (JStr "hi")] 50)
  = inr ("model " +:+ fmt_q "anthropic.claude-3-sonnet-20240229-v1:0"
         +:+ " not supported on Bedrock").
Proof.
  destruct (GetBedrockModelID_only_map_keys (H := Samples.lib))
    as (_ & _ & Htr & _).
  apply (Htr (Samples.chat "anthropic.claude-3-sonnet-20240229-v1:0"
                [Samples.message "user" (JStr "hi")] 50)).
  rewrite elem_of_dom. intros [modelID Hm]. vm_compute in Hm. discriminate Hm.
Defined.

(** ** Claims about the Bedrock translators *)

Lemma get_inferenceConfig (r : translator.ConverseRequest) :
  json.get "inferenceConfig" (translator.encodeConverseRequest r)
  = option_map translator.encodeInferenceConfig (translator.cr_InferenceConfig r).
Proof.
  unfold translator.encodeConverseRequest.
  destruct (translator.cr_System r), (translator.cr_InferenceConfig r),
    (translator.cr_ToolConfig r); reflexivity.
Qed.

Lemma get_maxTokens (c : translator.InferenceConfig) :
  json.get "maxTokens" (translator.encodeInferenceConfig c)
  = option_map JInt (translator.ic_MaxTokens c).
Proof.
  unfold translator.encodeInferenceConfig.
  destruct (translator.ic_MaxTokens c), (translator.ic_Temperature c),
    (translator.ic_TopP c), (translator.ic_StopSequences c); reflexivity.
Qed.

Lemma converse_body `{GoLib} (req : translator.ChatCompletionRequest)
    (providerReq : providers.ProviderRequest) (id : string) :
  translator.TranslateOpenAIToConverseAPI req = inl (providerReq, id) ->
  providers.Body providerReq
  = translator.encodeConverseRequest (translator.buildConverseRequest req).
Proof.
  unfold translator.TranslateOpenAIToConverseAPI, json.Marshal.
  destruct (bedrock.GetBedrockModelID _) as [modelID [|]]; cbn [negb];
    [| discriminate].
  destruct (json.encodable _); [| discriminate].
  intros Heq. injection Heq as <- _. reflexivity.
Qed.

Lemma converse_maxTokens `{GoLib} (req : translator.ChatCompletionRequest) :
  json.path ["inferenceConfig"; "maxTokens"]
    (translator.encodeConverseRequest (translator.buildConverseRequest req))
  = if 0 <? translator.MaxTokens req
    then Some (JInt (translator.MaxTokens req)) else None.
Proof.
  cbn [json.path]. rewrite get_inferenceConfig.
  unfold translator.buildConverseRequest.
  destruct (translator.convertMessages _) as [converseMessages systemBlocks].
  cbn [translator.cr_InferenceConfig option_map].
  rewrite get_maxTokens. unfold translator.buildInferenceConfig.
  cbn [translator.ic_MaxTokens].
  destruct (0 <? translator.MaxTokens req); reflexivity.
Qed.

(** On its own [TranslateOpenAIToConverseAPI] writes no [maxTokens] for a
    request whose [max_tokens] is absent; the default is the handler's. *)
Lemma converse_translator_sets_no_default `{GoLib}
    (req : translator.ChatCompletionRequest) :
  translator.MaxTokens req <= 0 ->
  json.path ["inferenceConfig"; "maxTokens"]
    (translator.encodeConverseRequest (translator.buildConverseRequest req))
  = None.
Proof.
  intros Hle. rewrite converse_maxTokens.
  destruct (Z.ltb_spec 0 (translator.MaxTokens req)); [lia | reflexivity].
Qed.









Lemma convertMessages_system `{GoLib} (msgs : list translator.ChatMessage) :
  map translator.sys_Text (snd (translator.convertMessages msgs))
  = map (fun m => translator.extractTextContent (translator.Content m))
      (List.filter isSystem msgs).
Proof.
  induction msgs as [| msg rest IH]; [reflexivity |].
  simpl. unfold isSystem at 1.
  destruct (translator.convertMessages rest) as [converseMessages systemBlocks].
  simpl in IH.
  destruct (String.eqb (translator.Role msg) "system"); simpl;
    [now rewrite IH |].
  destruct (String.eqb (translator.Role msg) "function"
            || String.eqb (translator.Role msg) "tool"); simpl; [exact IH |].
  destruct (translator.convertToContentBlocks (translator.Content msg));
    exact IH.
Qed.






(** ** Claims about the fallback of the configured router *)

Section TryInOrder.
Context {A : Type} (try : string -> option A).



End TryInOrder.









(* ===================================================================== *)
(** * Part III: further properties of the code *)
(* ===================================================================== *)

(** Properties read off the code itself: error and edge behaviour,
    invariants, round trips, and how the functions compose. *)

(** ** The storage handler *)

Lemma dispatch_calls `{GoLib} (provider : storage.StorageProvider)
    (r : handlers.Request) (bucket key operation : string) :
  (length (snd (handlers.dispatch provider r bucket key operation)) <= 1)%nat
  /\ (snd (handlers.dispatch provider r bucket key operation) = [] ->
      exists message,
        fst (handlers.dispatch provider r bucket key operation)
        = handlers.writeError 400 message).
Proof.
  unfold handlers.dispatch, handlers.keyRequired.
  repeat match goal with
         | |- context [String.eqb ?a ?b] => destruct (String.eqb a b)
         end;
    try destruct (strconv.Atoi _);
    cbn [fst snd length]; split; try lia; try discriminate; eauto.
Qed.

(** X1.  [Handle] calls the storage provider at most once per request, and
    a request answered without any provider call is answered with an error
    document whose status is 400, 403 or 404. *)
Theorem Handle_at_most_one_call `{GoLib} (h : handlers.StorageHandler)
    (r : handlers.Request) :
  (length (snd (handlers.Handle h r)) <= 1)%nat
  /\ (snd (handlers.Handle h r) = [] ->
      exists code message,
        In code [400; 403; 404]
        /\ fst (handlers.Handle h r) = handlers.writeError code message).
Proof.
  unfold handlers.Handle.
  destruct (length (handlers.pathParts (handlers.URL_Path r)) <? 4)%nat.
  { cbn [fst snd length]. split; [lia |]. intros _.
    exists 400, "Invalid storage path format". simpl; auto. }
  destruct (handlers.providers h !! _) as [provider |].
  2:{ cbn [fst snd length]. split; [lia |]. intros _.
      eexists 404, _. split; [simpl; auto | reflexivity]. }
  destruct (negb _).
  { cbn [fst snd length]. split; [lia |]. intros _.
    exists 403, "Access denied". simpl; auto. }
  split.
  - exact (proj1 (dispatch_calls _ _ _ _ _)).
  - intros Hnil. destruct (proj2 (dispatch_calls _ _ _ _ _) Hnil) as [message Hm].
    exists 400, message. split; [simpl; auto | exact Hm].
Qed.

Lemma Join_single (s : string) : strings.Join [s] "/" = s.
Proof. reflexivity. Qed.

Lemma not_denied_CheckAccess ac r bucket key operation :
  ~ denied_by_policy ac bucket key ->
  handlers.CheckAccess ac r bucket key operation = true.
Proof.
  intros Hnot.
  destruct (handlers.CheckAccess ac r bucket key operation) eqn:E; [reflexivity |].
  apply CheckAccess_false_iff in E. contradiction.
Qed.

(** The request line [/-provider/env/operation/bucket/key]. *)
Lemma Handle_path_with_key `{GoLib} (h : handlers.StorageHandler)
    (provider env operation bucket key : string) (r : handlers.Request) :
  noSlash provider -> noSlash env -> noSlash operation -> noSlash bucket ->
  handlers.URL_Path r
  = "/-" +:+ provider +:+ "/" +:+ env +:+ "/" +:+ operation +:+ "/"
    +:+ bucket +:+ "/" +:+ key ->
  handlers.Handle h r
  = match handlers.providers h !! provider with
    | None =>
        (handlers.writeError 404
           ("Storage provider " +:+ fmt_q provider +:+ " not found"), [])
    | Some p =>
        if negb (handlers.CheckAccess (handlers.accessControl h) r bucket key
                   operation)
        then (handlers.writeError 403 "Access denied", [])
        else handlers.dispatch p r bucket key operation
    end.
Proof.
  intros Hp He Ho Hb Hpath. unfold handlers.Handle.
  rewrite Hpath, (pathParts_with_key provider env operation bucket key) by assumption.
  reflexivity.
Qed.

(** X2.  The provider lookup precedes the access check: a request
    [/-provider/env/operation/bucket/key] naming a provider that is not
    registered is answered 404 with the provider's name, without any provider
    call, whatever the access policy says about the bucket and the key. *)
Theorem unknown_provider_before_access_check `{GoLib}
    (h : handlers.StorageHandler) (provider env operation bucket key : string)
    (r : handlers.Request) :
  noSlash provider -> noSlash env -> noSlash operation -> noSlash bucket ->
  handlers.URL_Path r
  = "/-" +:+ provider +:+ "/" +:+ env +:+ "/" +:+ operation +:+ "/"
    +:+ bucket +:+ "/" +:+ key ->
  handlers.providers h !! provider = None ->
  handlers.Handle h r
  = (handlers.writeError 404
       ("Storage provider " +:+ fmt_q provider +:+ " not found"), []).
Proof.
  intros Hp He Ho Hb Hpath Hnone.
  rewrite (Handle_path_with_key h provider env operation bucket key r) by assumption.
  rewrite Hnone. reflexivity.
Qed.

Lemma unknown_provider_before_access_check_witness :
  handlers.Handle Samples.handler
    (Samples.GET "/-azure/prod/get/rag-docs/secret/creds.json" [])
  = (handlers.writeError 404
       ("Storage provider " +:+ fmt_q "azure" +:+ " not found"), []).
Proof.
  apply (unknown_provider_before_access_check Samples.handler
           "azure" "prod" "get" "rag-docs" "secret/creds.json");
    reflexivity.
Defined.

(** X3.  Everything after the bucket segment, slashes included, is the
    object key: for a permitted request [/-provider/env/operation/bucket/key]
    with a non-empty key, get, delete, head and put call the provider exactly
    once with that bucket and that key; put sends the request body with the
    request's Content-Type, or [application/octet-stream] when it has none. *)
Theorem object_key_keeps_slashes `{GoLib} (h : handlers.StorageHandler)
    (p : storage.StorageProvider) (provider env bucket key : string)
    (query : list (string * string)) (contentType body : string) :
  let request operation :=
    {| handlers.URL_Path :=
         "/-" +:+ provider +:+ "/" +:+ env +:+ "/" +:+ operation +:+ "/"
         +:+ bucket +:+ "/" +:+ key;
       handlers.URL_Query := query;
       handlers.Header_ContentType := contentType;
       handlers.Body := body |} in
  noSlash provider -> noSlash env -> noSlash bucket -> key <> "" ->
  handlers.providers h !! provider = Some p ->
  ~ denied_by_policy (handlers.accessControl h) bucket key ->
  snd (handlers.Handle h (request "get"))
  = [storage.CallGetObject
       {| storage.gor_Bucket := bucket; storage.gor_Key := key |}]
  /\ snd (handlers.Handle h (request "delete"))
     = [storage.CallDeleteObject
          {| storage.dor_Bucket := bucket; storage.dor_Key := key |}]
  /\ snd (handlers.Handle h (request "head"))
     = [storage.CallHeadObject
          {| storage.hor_Bucket := bucket; storage.hor_Key := key |}]
  /\ snd (handlers.Handle h (request "put"))
     = [storage.CallPutObject
          {| storage.por_Bucket := bucket; storage.por_Key := key;
             storage.por_Body := body;
             storage.por_ContentType :=
               if String.eqb contentType "" then "application/octet-stream"
               else contentType |}].
Proof.
  intros request Hp He Hb Hkey Hsome Hok.
  assert (Hk : String.eqb key "" = false) by (apply String.eqb_neq; exact Hkey).
  assert (Hall : forall operation, noSlash operation ->
            handlers.Handle h (request operation)
            = handlers.dispatch p (request operation) bucket key operation).
  { intros operation Ho.
    rewrite (Handle_path_with_key h provider env operation bucket key)
      by (assumption || reflexivity).
    rewrite Hsome, not_denied_CheckAccess by assumption. reflexivity. }
  repeat split.
  - rewrite Hall by reflexivity. unfold handlers.dispatch.
    cbn [String.eqb Ascii.eqb Bool.eqb]. rewrite Hk. reflexivity.
  - rewrite Hall by reflexivity. unfold handlers.dispatch.
    cbn [String.eqb Ascii.eqb Bool.eqb]. rewrite Hk. reflexivity.
  - rewrite Hall by reflexivity. unfold handlers.dispatch.
    cbn [String.eqb Ascii.eqb Bool.eqb]. rewrite Hk. reflexivity.
  - rewrite Hall by reflexivity. unfold handlers.dispatch.
    cbn [String.eqb Ascii.eqb Bool.eqb]. rewrite Hk. reflexivity.
Qed.

Lemma object_key_keeps_slashes_witness :
  snd (handlers.Handle Samples.handler
         (Samples.GET "/-s3/prod/get/rag-docs/reports/2024/q1/summary.pdf" []))
  = [storage.CallGetObject
       {| storage.gor_Bucket := "rag-docs";
          storage.gor_Key := "reports/2024/q1/summary.pdf" |}].
Proof.
  refine (proj1 (object_key_keeps_slashes Samples.handler Samples.s3provider
                   "s3" "prod" "rag-docs" "reports/2024/q1/summary.pdf" [] "" ""
                   _ _ _ _ _ _)).
  - reflexivity.
  - reflexivity.
  - reflexivity.
  - discriminate.
  - reflexivity.
  - intros Hd.
    apply (proj2 (CheckAccess_false_iff _ (Samples.GET "" []) _ _ "")) in Hd.
    vm_compute in Hd. discriminate Hd.
Defined.

Lemma dispatch_failure `{GoLib} (provider : storage.StorageProvider)
    (r : handlers.Request) (bucket key operation : string)
    (c : storage.Call) (err : storage.error) :
  snd (handlers.dispatch provider r bucket key operation) = [c] ->
  failure provider c = Some err ->
  fst (handlers.dispatch provider r bucket key operation)
  = handlers.handleStorageError err.
Proof.
  unfold handlers.dispatch, handlers.keyRequired.
  repeat match goal with
         | |- context [String.eqb ?a ?b] => destruct (String.eqb a b)
         end;
    try destruct (strconv.Atoi _);
    cbn [fst snd]; intros Hc; try discriminate Hc;
    injection Hc as <-; cbn [failure];
    match goal with
    | |- context [match ?x with inl _ => _ | inr _ => _ end] => destruct x
    end; intros Herr; try discriminate Herr; injection Herr as <-; reflexivity.
Qed.

(** X4.  When the provider call a request makes fails, the response is
    built from the error alone: a [*StorageError] gives its own status code
    and message (whatever the code is), any other error gives 500
    [Storage operation failed]. *)
Theorem provider_error_passed_through `{GoLib} (h : handlers.StorageHandler)
    (r : handlers.Request) (provider : storage.StorageProvider)
    (c : storage.Call) (err : storage.error) :
  handlers.providers h
    !! nth 0 (handlers.pathParts (handlers.URL_Path r)) "" = Some provider ->
  snd (handlers.Handle h r) = [c] ->
  failure provider c = Some err ->
  fst (handlers.Handle h r)
  = match err with
    | storage.StorageError _ _ statusCode message _ =>
        handlers.writeError statusCode message
    | storage.OtherError _ =>
        handlers.writeError 500 "Storage operation failed"
    end.
Proof.
  intros Hprovider Hcall Herr.
  destruct (Handle_calls_dispatch h r c Hcall) as (provider' & Hp' & Hrun).
  rewrite Hprovider in Hp'. injection Hp' as <-.
  rewrite Hrun in Hcall |- *.
  rewrite (dispatch_failure _ _ _ _ _ c err Hcall Herr).
  destruct err; reflexivity.
Qed.

Lemma provider_error_passed_through_witness :
  fst (handlers.Handle Samples.handler
         (Samples.GET "/-s3/prod/get/rag-docs/report.pdf" []))
  = handlers.writeError 500 "Storage operation failed".
Proof.
  apply (provider_error_passed_through Samples.handler
           (Samples.GET "/-s3/prod/get/rag-docs/report.pdf" [])
           Samples.s3provider
           (storage.CallGetObject
              {| storage.gor_Bucket := "rag-docs";
                 storage.gor_Key := "report.pdf" |})
           (storage.OtherError "unavailable"));
    reflexivity.
Defined.

Lemma Atoi_empty_default (s : string) :
  (if String.eqb s "" then 1000
   else match strconv.Atoi s with Some parsed => parsed | None => 1000 end)
  = match strconv.Atoi s with Some parsed => parsed | None => 1000 end.
Proof. destruct (String.eqb_spec s "") as [-> |]; reflexivity. Qed.

(** X5.  A list request reads its parameters from the query string only:
    the key part of the path is not used as a prefix, and [max_keys] is the
    parsed integer (of either sign) or 1000 when it is absent or not an
    integer. *)
Theorem list_ignores_path_key `{GoLib} (h : handlers.StorageHandler)
    (p : storage.StorageProvider) (provider env bucket key : string)
    (r : handlers.Request) :
  noSlash provider -> noSlash env -> noSlash bucket ->
  handlers.URL_Path r
  = "/-" +:+ provider +:+ "/" +:+ env +:+ "/" +:+ "list" +:+ "/"
    +:+ bucket +:+ "/" +:+ key ->
  handlers.providers h !! provider = Some p ->
  ~ denied_by_policy (handlers.accessControl h) bucket key ->
  snd (handlers.Handle h r)
  = [storage.CallListObjects
       {| storage.lor_Bucket := bucket;
          storage.lor_Prefix := handlers.Query_Get (handlers.URL_Query r) "prefix";
          storage.lor_Delimiter :=
            handlers.Query_Get (handlers.URL_Query r) "delimiter";
          storage.lor_MaxKeys :=
            match strconv.Atoi
                    (handlers.Query_Get (handlers.URL_Query r) "max_keys") with
            | Some parsed => parsed
            | None => 1000
            end;
          storage.lor_ContinuationToken :=
            handlers.Query_Get (handlers.URL_Query r) "continuation_token" |}].
Proof.
  intros Hp He Hb Hpath Hsome Hok.
  rewrite (Handle_path_with_key h provider env "list" bucket key r)
    by (assumption || reflexivity).
  rewrite Hsome, not_denied_CheckAccess by assumption.
  unfold handlers.dispatch. cbn [String.eqb Ascii.eqb Bool.eqb negb snd].
  rewrite Atoi_empty_default. reflexivity.
Qed.

Lemma list_ignores_path_key_witness :
  snd (handlers.Handle Samples.handler
         (Samples.GET "/-s3/prod/list/rag-docs/reports/2024"
            [("max_keys", "-5"); ("prefix", "drafts/")]))
  = [storage.CallListObjects
       {| storage.lor_Bucket := "rag-docs";
          storage.lor_Prefix := "drafts/";
          storage.lor_Delimiter := "";
          storage.lor_MaxKeys := -5;
          storage.lor_ContinuationToken := "" |}].
Proof.
  apply (list_ignores_path_key Samples.handler Samples.s3provider
           "s3" "prod" "rag-docs" "reports/2024"
           (Samples.GET "/-s3/prod/list/rag-docs/reports/2024"
              [("max_keys", "-5"); ("prefix", "drafts/")])).
  - reflexivity.
  - reflexivity.
  - reflexivity.
  - reflexivity.
  - reflexivity.
  - intros Hd.
    apply (proj2 (CheckAccess_false_iff _ (Samples.GET "" []) _ _ "")) in Hd.
    vm_compute in Hd. discriminate Hd.
Defined.

(** X6.  Under the default access policy a request is denied exactly when
    its key begins with [secret/], [private/] or a dot, with or without a
    leading slash; the bucket and the operation play no part. *)
Theorem default_acl_exact (r : handlers.Request) (bucket key operation : string) :
  handlers.CheckAccess handlers.NewDefaultAccessControl r bucket key operation
  = false
  <-> strings.HasPrefix key "secret/" = true
      \/ strings.HasPrefix key "private/" = true
      \/ strings.HasPrefix key "." = true
      \/ strings.HasPrefix key "/secret/" = true
      \/ strings.HasPrefix key "/private/" = true
      \/ strings.HasPrefix key "/." = true.
Proof.
  unfold handlers.CheckAccess, handlers.NewDefaultAccessControl, handlers.keyDenied,
    strings.HasPrefix.
  cbn [handlers.AllowedBuckets handlers.DeniedPrefixes length Nat.ltb Nat.leb
       andb existsb].
  change ("/" +:+ key) with (String "/" key).
  cbn [String.prefix]. 
  destruct (ascii_dec "/" "/") as [_ | Hne]; [| now destruct Hne].
  rewrite negb_false_iff, !orb_true_iff.
  intuition discriminate.
Qed.

(** ** The S3 provider *)

(** X7.  The S3 provider's own [contains] is substring search: it returns
    true exactly when [substr] occurs in [s] at some position. *)
Theorem contains_is_substring_search (s substr : string) :
  s3.contains s substr = true
  <-> exists i : nat,
        (i + String.length substr <= String.length s)%nat
        /\ substring i (String.length substr) s = substr.
Proof.
  unfold s3.contains, s3.containsMiddle, s3.containsMiddle_at,
    strings.slice, strings.slice_from, strings.len.
  set (n := String.length substr). set (m := String.length s).
  split.
  - rewrite andb_true_iff, orb_true_iff, Nat.leb_le.
    intros [Hle [Heq | Hrest]].
    + apply String.eqb_eq in Heq. exists 0%nat. split; [lia |].
      subst substr. apply substring_all.
    + rewrite andb_true_iff, !orb_true_iff, Nat.ltb_lt in Hrest.
      destruct Hrest as [Hlt [[Hpre | Hsuf] | Hmid]].
      * apply String.eqb_eq in Hpre. exists 0%nat. split; [lia |].
        rewrite Nat.sub_0_r in Hpre. exact Hpre.
      * apply String.eqb_eq in Hsuf. exists (m - n)%nat. split; [lia |].
        replace (m - (m - n))%nat with n in Hsuf by lia. exact Hsuf.
      * apply existsb_exists in Hmid. destruct Hmid as (i & Hin & Hi).
        apply in_seq in Hin. apply String.eqb_eq in Hi.
        exists i. split; [lia |].
        replace (i + n - i)%nat with n in Hi by lia. exact Hi.
  - intros (i & Hle & Hi).
    rewrite andb_true_iff, Nat.leb_le. split; [lia |].
    destruct (String.eqb_spec s substr) as [Heq | Hne]; [reflexivity |].
    cbn [orb].
    assert (Hlt : (n < m)%nat).
    { destruct (Nat.eq_dec n m) as [Hnm |]; [| lia].
      exfalso. apply Hne. assert (i = 0)%nat as -> by lia.
      rewrite <- Hi. fold n. rewrite Hnm. symmetry. apply substring_all. }
    apply Nat.ltb_lt in Hlt. rewrite Hlt. cbn [andb].
    rewrite !orb_true_iff. right.
    apply existsb_exists. exists i. split.
    + apply in_seq. lia.
    + apply String.eqb_eq. replace (i + n - i)%nat with n by lia. exact Hi.
Qed.

(** X8.  Every SDK error the S3 provider converts becomes a [StorageError]
    of provider [s3] for the operation at hand with one of five fixed
    (status, message) pairs; the handler's response to it shows that pair
    only, the SDK's text being kept in [Err]; the not-found markers take
    precedence over all others. *)
Theorem s3_error_never_shows_sdk_text (operation errStr : string) :
  exists (statusCode : Z) (message : string),
    In (statusCode, message)
       [(404, "Object not found"); (404, "Bucket not found");
        (403, "Access denied"); (400, "Invalid request");
        (500, "S3 operation failed")]
    /\ s3.handleError operation errStr
       = storage.StorageError "s3" operation statusCode message (Some errStr)
    /\ handlers.handleStorageError (s3.handleError operation errStr)
       = handlers.writeError statusCode message
    /\ (s3.contains errStr "NoSuchKey" = true
        \/ s3.contains errStr "NotFound" = true
        \/ s3.contains errStr "NoSuchBucket" = true -> statusCode = 404).
Proof.
  unfold s3.handleError.
  destruct (s3.contains errStr "NoSuchKey") eqn:E1;
    destruct (s3.contains errStr "NotFound") eqn:E2;
    destruct (s3.contains errStr "NoSuchBucket") eqn:E3;
    cbn [orb];
    try (eexists _, _; split; [| split; [reflexivity | split; [reflexivity |]]];
         [simpl; tauto | reflexivity]).
  destruct (s3.contains errStr "AccessDenied" || s3.contains errStr "Forbidden");
    [| destruct (s3.contains errStr "InvalidRequest"
                 || s3.contains errStr "BadRequest")];
    (eexists _, _; split; [| split; [reflexivity | split; [reflexivity |]]];
     [simpl; tauto | intros [? | [? | ?]]; discriminate]).
Qed.

(** X9.  The [operation] query parameter of a presign request reaches the
    S3 provider unchanged, and the provider accepts only [GetObject],
    [PutObject], [DeleteObject] and [HeadObject]: any other non-empty value
    (such as [put]) is answered 400 [unsupported presign operation]. *)
Theorem presign_operation_must_be_sdk_name `{GoLib} (h : handlers.StorageHandler)
    (sp : storage.StorageProvider) (p : s3.S3Provider)
    (provider env bucket key : string) (r : handlers.Request)
    (ttlSeconds : Z) :
  let opStr := handlers.Query_Get (handlers.URL_Query r) "operation" in
  let ttlStr := handlers.Query_Get (handlers.URL_Query r) "ttl" in
  noSlash provider -> noSlash env -> noSlash bucket -> key <> "" ->
  handlers.URL_Path r
  = "/-" +:+ provider +:+ "/" +:+ env +:+ "/" +:+ "presign" +:+ "/"
    +:+ bucket +:+ "/" +:+ key ->
  handlers.providers h !! provider = Some sp ->
  storage.GeneratePresignedURL sp = s3.GeneratePresignedURL p ->
  ~ denied_by_policy (handlers.accessControl h) bucket key ->
  strconv.Atoi (if String.eqb ttlStr "" then "3600" else ttlStr)
  = Some ttlSeconds ->
  opStr <> "" ->
  ~ In opStr ["GetObject"; "PutObject"; "DeleteObject"; "HeadObject"] ->
  fst (handlers.Handle h r)
  = handlers.writeError 400 ("unsupported presign operation: " +:+ opStr).
Proof.
  intros opStr ttlStr Hp He Hb Hkey Hpath Hsome Hs3 Hok Httl Hop Hunknown.
  rewrite (Handle_path_with_key h provider env "presign" bucket key r)
    by (assumption || reflexivity).
  rewrite Hsome, not_denied_CheckAccess by assumption.
  unfold handlers.dispatch. cbn [String.eqb Ascii.eqb Bool.eqb negb].
  apply String.eqb_neq in Hkey. rewrite Hkey.
  fold ttlStr. rewrite Httl. fold opStr.
  apply String.eqb_neq in Hop. rewrite Hop.
  cbn [fst]. rewrite Hs3. unfold s3.GeneratePresignedURL.
  cbn [storage.pr_Operation].
  assert (Hk : s3.known_operation opStr = false).
  { unfold s3.known_operation, storage.PresignOperationGet,
      storage.PresignOperationPut, storage.PresignOperationDelete,
      storage.PresignOperationHead.
    repeat match goal with
           | |- context [String.eqb opStr ?o] =>
               destruct (String.eqb_spec opStr o) as [Heq |];
               [exfalso; apply Hunknown; rewrite Heq; simpl; tauto |]
           end.
    reflexivity. }
  rewrite Hk. reflexivity.
Qed.

Lemma presign_operation_must_be_sdk_name_witness :
  fst (handlers.Handle Samples.handler
         (Samples.GET "/-s3/prod/presign/rag-docs/report.pdf"
            [("operation", "put")]))
  = handlers.writeError 400 "unsupported presign operation: put".
Proof.
  apply (presign_operation_must_be_sdk_name Samples.handler Samples.s3provider
           Samples.sdk "s3" "prod" "rag-docs" "report.pdf"
           (Samples.GET "/-s3/prod/presign/rag-docs/report.pdf"
              [("operation", "put")]) 3600).
  - reflexivity.
  - reflexivity.
  - reflexivity.
  - discriminate.
  - reflexivity.
  - reflexivity.
  - reflexivity.
  - intros Hd.
    apply (proj2 (CheckAccess_false_iff _ (Samples.GET "" []) _ _ "")) in Hd.
    vm_compute in Hd. discriminate Hd.
  - reflexivity.
  - discriminate.
  - simpl. intros [Hx | [Hx | [Hx | [Hx | []]]]]; discriminate Hx.
Defined.

(** ** Bedrock model identifiers and pattern routing *)

Lemma BedrockModelIDMap_entries (friendlyName modelID : string) :
  bedrock.BedrockModelIDMap !! friendlyName = Some modelID ->
  In (friendlyName, modelID)
     [("claude-3-opus", "anthropic.claude-3-opus-20240229-v1:0");
      ("claude-3-opus-20240229", "anthropic.claude-3-opus-20240229-v1:0");
      ("claude-3-sonnet", "anthropic.claude-3-sonnet-20240229-v1:0");
      ("claude-3-sonnet-20240229", "anthropic.claude-3-sonnet-20240229-v1:0");
      ("claude-3-haiku", "anthropic.claude-3-haiku-20240307-v1:0");
      ("claude-3-haiku-20240307", "anthropic.claude-3-haiku-20240307-v1:0");
      ("claude-3-5-sonnet", "anthropic.claude-3-5-sonnet-20240620-v1:0");
      ("claude-3-5-sonnet-20240620", "anthropic.claude-3-5-sonnet-20240620-v1:0");
      ("amazon-titan-text-express", "amazon.titan-text-express-v1");
      ("amazon-titan-text-lite", "amazon.titan-text-lite-v1");
      ("amazon-titan-embed-text", "amazon.titan-embed-text-v1");
      ("llama2-13b", "meta.llama2-13b-chat-v1");
      ("llama2-70b", "meta.llama2-70b-chat-v1");
      ("mistral-7b", "mistral.mistral-7b-instruct-v0:2");
      ("mistral-8x7b", "mistral.mixtral-8x7b-instruct-v0:1")].
Proof.
  intros Hm. apply list_elem_of_In.
  exact (elem_of_list_to_map_2 _ _ _ Hm).
Qed.

Ltac each_entry Hin :=
  simpl in Hin;
  repeat (destruct Hin as [Hin | Hin];
          [injection Hin as <- <-; vm_compute; try reflexivity; try discriminate |]);
  try destruct Hin.

(** X10.  [GetBedrockModelID] is not idempotent: a model id it returns is
    never accepted when given back as a name. *)
Theorem bedrock_ids_not_accepted_back (friendlyName modelID : string) :
  bedrock.GetBedrockModelID friendlyName = (modelID, true) ->
  bedrock.GetBedrockModelID modelID = ("", false).
Proof.
  rewrite GetBedrockModelID_lookup.
  destruct (bedrock.BedrockModelIDMap !! friendlyName) as [v |] eqn:Hm;
    [| discriminate].
  intros Heq. injection Heq as <-.
  apply BedrockModelIDMap_entries in Hm. each_entry Hm.
Qed.

Lemma bedrock_ids_not_accepted_back_witness :
  bedrock.GetBedrockModelID "anthropic.claude-3-haiku-20240307-v1:0"
  = ("", false).
Proof.
  apply (bedrock_ids_not_accepted_back "claude-3-haiku"). reflexivity.
Defined.

Lemma prefix_cons_inv (c : ascii) (p s : string) :
  String.prefix (String c p) s = true ->
  exists s', s = String c s' /\ String.prefix p s' = true.
Proof.
  destruct s as [| b s']; cbn; [discriminate |].
  destruct (ascii_dec c b) as [<- |]; [eauto | discriminate].
Qed.

Ltac peel_prefix H :=
  unfold strings.HasPrefix in H;
  repeat (apply prefix_cons_inv in H;
          let s' := fresh "rest" in
          destruct H as (s' & -> & H)).

Lemma anyPrefix_cons (model p : string) (l : list string) :
  router.anyPrefix model (p :: l)
  = strings.HasPrefix model p || router.anyPrefix model l.
Proof. reflexivity. Qed.

(** X11.  For a model whose name begins with one of the Bedrock prefixes the
    pattern router answers [azure] when the name ends in [-azure] or
    [-deployment], [anthropic] when it ends in [-anthropic], and [bedrock]
    otherwise: the suffix rules win, and the IBM and Oracle rules never
    apply. *)
Theorem bedrock_prefix_routing (model : string) :
  router.anyPrefix model router.bedrockPrefixes = true ->
  router.matchModelPattern model
  = if strings.HasSuffix model "-azure" || strings.HasSuffix model "-deployment"
    then "azure"
    else if strings.HasSuffix model "-anthropic" then "anthropic"
    else "bedrock".
Proof.
  intros Hany. unfold router.matchModelPattern.
  destruct (strings.HasSuffix model "-azure" || strings.HasSuffix model "-deployment");
    [reflexivity |].
  destruct (strings.HasSuffix model "-anthropic"); [reflexivity |].
  rewrite Hany.
  assert (Hearlier :
            strings.HasPrefix model "ibm/" = false
            /\ strings.HasPrefix model "cohere."
               && negb (strings.Contains model "command-text") = false).
  { unfold router.bedrockPrefixes in Hany.
    rewrite !anyPrefix_cons in Hany.
    repeat (apply orb_true_iff in Hany; destruct Hany as [Hany | Hany]);
      try discriminate Hany; peel_prefix Hany;
      match goal with s : string |- _ => destruct s end; split; reflexivity. }
  destruct Hearlier as [-> ->]. reflexivity.
Qed.

Lemma bedrock_prefix_routing_witness :
  router.matchModelPattern "claude-3-sonnet-deployment" = "azure"
  /\ router.matchModelPattern "mistral.mixtral-8x7b-instruct-v0:1" = "bedrock".
Proof.
  split.
  - apply (bedrock_prefix_routing "claude-3-sonnet-deployment"). reflexivity.
  - apply (bedrock_prefix_routing "mistral.mixtral-8x7b-instruct-v0:1").
    reflexivity.
Defined.

Lemma native_prefix_not_in_map (model : string) :
  router.anyPrefix model
    ["amazon.titan-"; "ai21.j2-"; "meta.llama"; "mistral."; "cohere.command-text"]
  = true ->
  bedrock.BedrockModelIDMap !! model = None.
Proof.
  intros Hany.
  destruct (bedrock.BedrockModelIDMap !! model) as [v |] eqn:Hm; [| reflexivity].
  apply BedrockModelIDMap_entries in Hm. simpl in Hm.
  repeat (destruct Hm as [Hm | Hm];
          [injection Hm as <- <-; vm_compute in Hany; discriminate Hany |]).
  destruct Hm.
Qed.

(** X12.  A model named by a native Bedrock prefix ([amazon.titan-],
    [ai21.j2-], [meta.llama], [mistral.], [cohere.command-text]) matches the
    pattern router's Bedrock prefixes, yet both translators reject it as not
    supported on Bedrock. *)
Theorem natively_named_models_fail_translation `{GoLib}
    (req : translator.ChatCompletionRequest) :
  router.anyPrefix (translator.Model req)
    ["amazon.titan-"; "ai21.j2-"; "meta.llama"; "mistral."; "cohere.command-text"]
  = true ->
  router.anyPrefix (translator.Model req) router.bedrockPrefixes = true
  /\ translator.TranslateOpenAIToConverseAPI req
     = inr ("model " +:+ fmt_q (translator.Model req)
            +:+ " not supported on Bedrock")
  /\ translator.TranslateOpenAIToBedrock req
     = inr ("model " +:+ fmt_q (translator.Model req)
            +:+ " not supported on Bedrock").
Proof.
  intros Hany. split; [| split].
  - unfold router.bedrockPrefixes. rewrite anyPrefix_cons, Hany.
    apply orb_true_r.
  - unfold translator.TranslateOpenAIToConverseAPI.
    rewrite GetBedrockModelID_lookup, (native_prefix_not_in_map _ Hany).
    reflexivity.
  - unfold translator.TranslateOpenAIToBedrock.
    rewrite GetBedrockModelID_lookup, (native_prefix_not_in_map _ Hany).
    reflexivity.
Qed.

Lemma natively_named_models_fail_translation_witness :
  translator.TranslateOpenAIToConverseAPI
    (Samples.chat "mistral.mixtral-8x7b-instruct-v0:1" [] 0)
  = inr ("model " +:+ fmt_q "mistral.mixtral-8x7b-instruct-v0:1"
         +:+ " not supported on Bedrock").
Proof.
  apply (natively_named_models_fail_translation
           (Samples.chat "mistral.mixtral-8x7b-instruct-v0:1" [] 0)).
  reflexivity.
Defined.

(** ** The translators *)

Lemma index_char_cons (d c : ascii) (s : string) :
  index 0 (String d "") (String c s)
  = if ascii_dec d c then Some 0%nat
    else match index 0 (String d "") s with
         | Some n => Some (S n)
         | None => None
         end.
Proof.
  cbn [index String.prefix]. destruct (ascii_dec d c); [| reflexivity].
  destruct s; reflexivity.
Qed.

Lemma Index_char_segment (d : ascii) (s rest : string) :
  strings.Index s (String d "") = None ->
  strings.Index (s +:+ String d rest) (String d "") = Some (String.length s).
Proof.
  unfold strings.Index. induction s as [| c s IH]; intros Hs.
  - change ("" +:+ String d rest) with (String d rest).
    rewrite index_char_cons. destruct (ascii_dec d d); [reflexivity | contradiction].
  - change (String c s +:+ String d rest) with (String c (s +:+ String d rest)).
    rewrite index_char_cons in Hs |- *.
    destruct (ascii_dec d c) as [Heq | Hne]; [discriminate |].
    destruct (index 0 (String d "") s) eqn:Hi; [discriminate |].
    rewrite IH by reflexivity. reflexivity.
Qed.

Lemma slice_char_segment (d : ascii) (s rest : string) :
  strings.slice (s +:+ String d rest) 0 (String.length s) = s.
Proof.
  unfold strings.slice. rewrite Nat.sub_0_r.
  induction s as [| c s IH]; [reflexivity |].
  change (String c s +:+ String d rest) with (String c (s +:+ String d rest)).
  cbn [String.length substring]. now rewrite IH.
Qed.

Lemma append_char (d : ascii) (s rest : string) :
  (s +:+ String d "") +:+ rest = s +:+ String d rest.
Proof.
  induction s as [| c s IH]; [reflexivity |].
  change (String c s +:+ String d "") with (String c (s +:+ String d "")).
  change (String c (s +:+ String d "") +:+ rest)
    with (String c ((s +:+ String d "") +:+ rest)).
  change (String c s +:+ String d rest) with (String c (s +:+ String d rest)).
  now rewrite IH.
Qed.

Lemma slice_from_char_segment (d : ascii) (s rest : string) :
  strings.slice_from (s +:+ String d rest)
    (String.length s + strings.len (String d "")) = rest.
Proof.
  unfold strings.slice_from, strings.len.
  change (String.length (String d "")) with 1%nat.
  rewrite <- append_char.
  replace (String.length s + 1)%nat with (String.length (s +:+ String d ""))
    by (rewrite length_append; reflexivity).
  rewrite substring_skip, !length_append.
  replace (String.length s + String.length (String d "") + String.length rest
           - (String.length s + String.length (String d "")))%nat
    with (String.length rest) by lia.
  apply substring_all.
Qed.

Lemma SplitN_2_char (d : ascii) (s rest : string) :
  strings.Index s (String d "") = None ->
  strings.SplitN (s +:+ String d rest) (String d "") 2 = [s; rest].
Proof.
  intros Hs. cbn [strings.SplitN].
  rewrite (Index_char_segment d s rest Hs), slice_char_segment,
    slice_from_char_segment.
  reflexivity.
Qed.

Lemma HasPrefix_append (s t p : string) :
  strings.HasPrefix s p = true -> strings.HasPrefix (s +:+ t) p = true.
Proof.
  unfold strings.HasPrefix. revert s.
  induction p as [| c p IH]; intros s Hs.
  - destruct (s +:+ t); reflexivity.
  - destruct s as [| b s]; [discriminate Hs |].
    change (String b s +:+ t) with (String b (s +:+ t)).
    cbn [String.prefix] in Hs |- *.
    destruct (ascii_dec c b); [| discriminate Hs]. now apply IH.
Qed.

(** X13.  An [image_url] part whose URL is a [data:image/] URL with a comma
    becomes an image block whose format is read off the text before the first
    comma and whose bytes are everything after it, later commas included. *)
Theorem image_data_url_conversion (header data : string)
    (part imageURL : list (string * JSON)) :
  json.assoc "type" part = Some (JStr "image_url") ->
  json.assoc "image_url" part = Some (JObj imageURL) ->
  json.assoc "url" imageURL = Some (JStr (header +:+ "," +:+ data)) ->
  strings.HasPrefix header "data:image/" = true ->
  strings.Index header "," = None ->
  translator.convertContentPartToBlock part
  = Some (translator.imageBlock
            {| translator.Format := translator.extractImageFormat header;
               translator.Source_Bytes := data |}).
Proof.
  intros Htype Himage Hurl Hprefix Hcomma.
  unfold translator.convertContentPartToBlock.
  rewrite Htype. cbn [json.as_string String.eqb Ascii.eqb Bool.eqb].
  rewrite Himage. cbn [json.as_map]. rewrite Hurl. cbn [json.as_string].
  rewrite (HasPrefix_append header ("," +:+ data) _ Hprefix).
  change ("," +:+ data) with (String "," data).
  rewrite (SplitN_2_char "," header data Hcomma). reflexivity.
Qed.

Lemma image_data_url_conversion_witness :
  translator.convertContentPartToBlock
    [("type", JStr "image_url");
     ("image_url", JObj [("url", JStr "data:image/png;base64,iVBORw0KGgo,=")])]
  = Some (translator.imageBlock
            {| translator.Format := "png";
               translator.Source_Bytes := "iVBORw0KGgo,=" |}).
Proof.
  apply (image_data_url_conversion "data:image/png;base64" "iVBORw0KGgo,="
           [("type", JStr "image_url");
            ("image_url",
             JObj [("url", JStr "data:image/png;base64,iVBORw0KGgo,=")])]
           [("url", JStr "data:image/png;base64,iVBORw0KGgo,=")]);
    reflexivity.
Defined.

(** X14.  An [image_url] part whose URL is not a [data:image/] URL is
    dropped without an error by both translators: the content converts as if
    the part were absent. *)
Theorem remote_image_urls_are_dropped `{GoLib} (url : string)
    (part imageURL : list (string * JSON)) (others : list JSON) :
  json.assoc "type" part = Some (JStr "image_url") ->
  json.assoc "image_url" part = Some (JObj imageURL) ->
  json.assoc "url" imageURL = Some (JStr url) ->
  strings.HasPrefix url "data:image/" = false ->
  translator.convertToContentBlocks (JArr (JObj part :: others))
  = translator.convertToContentBlocks (JArr others)
  /\ translator.bedrockContentOf (JArr (JObj part :: others))
     = translator.bedrockContentOf (JArr others).
Proof.
  intros Htype Himage Hurl Hprefix.
  unfold translator.convertToContentBlocks, translator.bedrockContentOf.
  cbn [translator.convertParts translator.convertBedrockParts].
  unfold translator.convertContentPartToBlock, translator.convertContentPart.
  rewrite Htype. cbn [json.as_string String.eqb Ascii.eqb Bool.eqb].
  rewrite Himage. cbn [json.as_map]. rewrite Hurl. cbn [json.as_string].
  rewrite Hprefix. split; reflexivity.
Qed.

Lemma remote_image_urls_are_dropped_witness :
  translator.convertToContentBlocks
    (JArr [JObj [("type", JStr "image_url");
                 ("image_url", JObj [("url", JStr "https://example.com/cat.png")])];
           JObj [("type", JStr "text"); ("text", JStr "what is this?")]])
  = [translator.textBlock "what is this?"].
Proof.
  refine (eq_trans
            (proj1 (remote_image_urls_are_dropped "https://example.com/cat.png"
                      [("type", JStr "image_url");
                       ("image_url",
                        JObj [("url", JStr "https://example.com/cat.png")])]
                      [("url", JStr "https://example.com/cat.png")]
                      [JObj [("type", JStr "text");
                             ("text", JStr "what is this?")]] _ _ _ _)) _);
    reflexivity.
Defined.

Lemma last_cons {A : Type} (a d : A) (l : list A) :
  List.last (a :: l) d = List.last l a.
Proof.
  revert a d. induction l as [| b l IH]; intros a d; [reflexivity |].
  change (List.last (a :: b :: l) d) with (List.last (b :: l) d).
  rewrite (IH b d), (IH b a). reflexivity.
Qed.

Lemma convertBedrockMessages_system `{GoLib} (msgs : list translator.ChatMessage)
    (systemPrompt : string) :
  snd (translator.convertBedrockMessages msgs systemPrompt)
  = List.last (map (fun m => translator.extractTextContent (translator.Content m))
            (List.filter isSystem msgs))
      systemPrompt.
Proof.
  revert systemPrompt. induction msgs as [| msg rest IH]; intros systemPrompt;
    [reflexivity |].
  cbn [translator.convertBedrockMessages List.filter]. unfold isSystem at 1.
  destruct (String.eqb (translator.Role msg) "system").
  - cbn [map]. rewrite last_cons. apply IH.
  - destruct (String.eqb (translator.Role msg) "assistant"
              && (0 <? length (translator.ToolCalls msg))%nat).
    + apply IH.
    + specialize (IH systemPrompt).
      destruct (translator.convertBedrockMessages rest systemPrompt). exact IH.
Qed.

(** X15.  Of several system messages the InvokeModel translator keeps the
    text of the last one only as [system], while the Converse translator keeps
    all of them, in order, as system blocks. *)
Theorem system_prompts_last_wins_or_all_kept `{GoLib}
    (req : translator.ChatCompletionRequest) :
  let prompts :=
    map (fun m => translator.extractTextContent (translator.Content m))
      (List.filter isSystem (translator.Messages req)) in
  translator.System (translator.buildBedrockRequest req) = List.last prompts ""
  /\ map translator.sys_Text
       (translator.cr_System (translator.buildConverseRequest req))
     = prompts.
Proof.
  intros prompts. split.
  - unfold translator.buildBedrockRequest.
    pose proof (convertBedrockMessages_system (translator.Messages req) "") as Hs.
    destruct (translator.convertBedrockMessages (translator.Messages req) "").
    exact Hs.
  - unfold translator.buildConverseRequest.
    pose proof (convertMessages_system (translator.Messages req)) as Hs.
    destruct (translator.convertMessages (translator.Messages req)).
    exact Hs.
Qed.

Lemma convertMessages_withoutToolCalls `{GoLib}
    (msgs : list translator.ChatMessage) :
  translator.convertMessages (map withoutToolCalls msgs)
  = translator.convertMessages msgs.
Proof.
  induction msgs as [| msg rest IH]; [reflexivity |].
  cbn [map translator.convertMessages]. rewrite IH. reflexivity.
Qed.

(** X16.  The Converse translator never reads the [tool_calls] of the
    request's messages: removing them from every message changes neither the
    outcome nor the request built. *)
Theorem converse_request_ignores_tool_calls `{GoLib}
    (model : string) (messages : list translator.ChatMessage) (maxTokens : Z)
    (temperature topP : float) (stop : list string) (stream : bool)
    (tools : list translator.Tool) (functions : list translator.Function)
    (toolChoice : JSON) :
  let request msgs :=
    {| translator.Model := model; translator.Messages := msgs;
       translator.MaxTokens := maxTokens;
       translator.Temperature := temperature; translator.TopP := topP;
       translator.Stop := stop; translator.Stream := stream;
       translator.Tools := tools; translator.Functions := functions;
       translator.ToolChoice := toolChoice |} in
  translator.TranslateOpenAIToConverseAPI (request (map withoutToolCalls messages))
  = translator.TranslateOpenAIToConverseAPI (request messages).
Proof.
  intros request.
  unfold translator.TranslateOpenAIToConverseAPI, translator.buildConverseRequest.
  cbn [translator.Messages translator.Model request].
  rewrite convertMessages_withoutToolCalls. reflexivity.
Qed.

(** ** The chat-completions handler and the configured router *)

Lemma get_temperature (c : translator.InferenceConfig) :
  json.get "temperature" (translator.encodeInferenceConfig c)
  = option_map JFloat (translator.ic_Temperature c).
Proof.
  unfold translator.encodeInferenceConfig.
  destruct (translator.ic_MaxTokens c), (translator.ic_Temperature c),
    (translator.ic_TopP c), (translator.ic_StopSequences c); reflexivity.
Qed.

(** X17.  The request the handler builds for Bedrock never carries
    temperature 0: a temperature of 0 (or absent) is sent as 1.0, a positive
    one as it is, and any other is left out. *)
Theorem handler_never_sends_temperature_zero `{GoLib} `{openai_handler.Codec}
    (provider : providers.Provider) (req : translator.ChatCompletionRequest)
    (providerReq : providers.ProviderRequest) :
  providers.Name provider = "bedrock" ->
  openai_handler.buildProviderRequest provider (openai_handler.withDefaults req)
  = inl providerReq ->
  json.path ["inferenceConfig"; "temperature"] (providers.Body providerReq)
  = if PrimFloat.eqb (translator.Temperature req) PrimFloat.zero
    then Some (JFloat PrimFloat.one)
    else if PrimFloat.ltb PrimFloat.zero (translator.Temperature req)
         then Some (JFloat (translator.Temperature req))
         else None.
Proof.
  intros Hname Hbuild. unfold openai_handler.buildProviderRequest in Hbuild.
  rewrite Hname in Hbuild. cbn [String.eqb Ascii.eqb Bool.eqb] in Hbuild.
  destruct (translator.TranslateOpenAIToConverseAPI (openai_handler.withDefaults req))
    as [[pr id] | err] eqn:Htr; [| discriminate Hbuild].
  injection Hbuild as <-.
  rewrite (converse_body _ _ _ Htr).
  cbn [json.path]. rewrite get_inferenceConfig.
  assert (Hcfg : translator.cr_InferenceConfig
                   (translator.buildConverseRequest (openai_handler.withDefaults req))
                 = Some (translator.buildInferenceConfig
                           (openai_handler.withDefaults req))).
  { unfold translator.buildConverseRequest.
    destruct (translator.convertMessages _). reflexivity. }
  rewrite Hcfg. cbn [option_map]. rewrite get_temperature.
  unfold translator.buildInferenceConfig, openai_handler.withDefaults.
  cbn [translator.ic_Temperature translator.Temperature].
  destruct (PrimFloat.eqb (translator.Temperature req) PrimFloat.zero).
  - reflexivity.
  - destruct (PrimFloat.ltb PrimFloat.zero (translator.Temperature req));
      reflexivity.
Qed.

Lemma handler_never_sends_temperature_zero_witness :
  exists providerReq,
    openai_handler.buildProviderRequest (Samples.provider "bedrock")
      (openai_handler.withDefaults
         (Samples.chat "claude-3-haiku" [Samples.message "user" (JStr "hi")] 0))
    = inl providerReq
    /\ json.path ["inferenceConfig"; "temperature"] (providers.Body providerReq)
       = Some (JFloat PrimFloat.one).
Proof.
  eexists. split; [reflexivity |].
  apply (handler_never_sends_temperature_zero (Samples.provider "bedrock")
           (Samples.chat "claude-3-haiku" [Samples.message "user" (JStr "hi")] 0));
    reflexivity.
Defined.

(** X18.  Whenever [ChatCompletions] replies with a completion, the status
    is 200, the id is [chatcmpl-] followed by the first eight characters of
    the UUID and [created] is the handler's start time, whatever the provider
    or the translator put there. *)
Theorem completion_metadata_set_by_handler `{GoLib} `{openai_handler.Codec}
    `{providers.ErrCodes} (r : router.Router)
    (bound : option translator.ChatCompletionRequest) (uuid : string)
    (startTime statusCode : Z) (resp : translator.ChatCompletionResponse) :
  openai_handler.ChatCompletions r bound uuid startTime
  = openai_handler.Replied statusCode (openai_handler.Completion resp) ->
  statusCode = 200
  /\ translator.ID resp = "chatcmpl-" +:+ strings.slice uuid 0 8
  /\ translator.Created resp = startTime.
Proof.
  unfold openai_handler.ChatCompletions.
  destruct bound as [req |]; [| discriminate].
  destruct (String.eqb (translator.Model req) ""); [discriminate |].
  destruct (fst (router.RouteRequest r _ "")) as [[provider info] | err];
    [| discriminate].
  destruct (translator.Stream (openai_handler.withDefaults req)); [discriminate |].
  unfold openai_handler.handleNonStreamingRequest.
  destruct (openai_handler.buildProviderRequest provider _) as [pr | reply] eqn:Hb.
  - destruct (providers.Invoke provider pr) as [presp | err].
    + destruct (String.eqb (providers.Name provider) "bedrock").
      * destruct (openai_handler.unmarshalConverse _); [| discriminate].
        intros Heq. injection Heq as <- <-. repeat split.
      * destruct (openai_handler.unmarshalCompletion _); try discriminate.
        intros Heq. injection Heq as <- <-. repeat split.
    + destruct err as [st msg prov code | msg]; cbn; discriminate.
  - unfold openai_handler.buildProviderRequest in Hb.
    destruct (String.eqb (providers.Name provider) "bedrock").
    + destruct (translator.TranslateOpenAIToConverseAPI _) as [[? ?] | ?];
        [discriminate Hb |]. injection Hb as <-. discriminate.
    + destruct (openai_handler.marshalRequest _); [discriminate Hb |].
      injection Hb as <-. discriminate.
Qed.

Lemma completion_metadata_set_by_handler_witness :
  exists resp,
    openai_handler.ChatCompletions Samples.bedrockRouter
      (Some (Samples.chat "claude-3-haiku" [Samples.message "user" (JStr "hi")] 0))
      "123e4567-e89b-12d3-a456-426614174000" 1700000000
    = openai_handler.Replied 200 (openai_handler.Completion resp)
    /\ translator.ID resp = "chatcmpl-123e4567"
    /\ translator.Created resp = 1700000000.
Proof.
  eexists. split; [reflexivity |].
  refine (proj2 (completion_metadata_set_by_handler Samples.bedrockRouter
                   (Some (Samples.chat "claude-3-haiku"
                            [Samples.message "user" (JStr "hi")] 0))
                   "123e4567-e89b-12d3-a456-426614174000" 1700000000 200 _ _)).
  reflexivity.
Defined.

(** X19.  A non-streaming request routed to the Bedrock provider for a
    model that is not a key of [BedrockModelIDMap] is answered 400
    [translation_failed], whatever the provider's [Invoke] would do. *)
Theorem unmapped_model_on_bedrock_rejected `{GoLib} `{openai_handler.Codec}
    `{providers.ErrCodes} (r : router.Router)
    (req : translator.ChatCompletionRequest) (uuid : string) (startTime : Z)
    (provider : providers.Provider) (info : router.ProviderModelInfo) :
  translator.Model req <> "" ->
  translator.Stream req = false ->
  fst (router.RouteRequest r (translator.Model req) "") = inl (provider, info) ->
  providers.Name provider = "bedrock" ->
  bedrock.BedrockModelIDMap !! translator.Model req = None ->
  openai_handler.ChatCompletions r (Some req) uuid startTime
  = openai_handler.Replied 400
      (openai_handler.ErrorResponse
         ("Failed to translate request: "
          +:+ ("model " +:+ fmt_q (translator.Model req)
               +:+ " not supported on Bedrock"))
         "invalid_request_error" "translation_failed").
Proof.
  intros Hmodel Hstream Hroute Hname Hmap.
  unfold openai_handler.ChatCompletions.
  apply String.eqb_neq in Hmodel. rewrite Hmodel.
  change (translator.Model (openai_handler.withDefaults req))
    with (translator.Model req).
  change (translator.Stream (openai_handler.withDefaults req))
    with (translator.Stream req).
  rewrite Hroute, Hstream.
  unfold openai_handler.handleNonStreamingRequest,
    openai_handler.buildProviderRequest.
  rewrite Hname. cbn [String.eqb Ascii.eqb Bool.eqb].
  unfold translator.TranslateOpenAIToConverseAPI.
  change (translator.Model (openai_handler.withDefaults req))
    with (translator.Model req).
  rewrite GetBedrockModelID_lookup, Hmap. reflexivity.
Qed.

Lemma unmapped_model_on_bedrock_rejected_witness :
  openai_handler.ChatCompletions Samples.bedrockRouter
    (Some (Samples.chat "gpt-4" [Samples.message "user" (JStr "hi")] 0))
    "123e4567-e89b-12d3-a456-426614174000" 1700000000
  = openai_handler.Replied 400
      (openai_handler.ErrorResponse
         ("Failed to translate request: "
          +:+ ("model " +:+ fmt_q "gpt-4" +:+ " not supported on Bedrock"))
         "invalid_request_error" "translation_failed").
Proof.
  apply (unmapped_model_on_bedrock_rejected Samples.bedrockRouter
           (Samples.chat "gpt-4" [Samples.message "user" (JStr "hi")] 0)
           "123e4567-e89b-12d3-a456-426614174000" 1700000000
           (Samples.provider "bedrock") {| router.pmi_Model := "gpt-4" |}).
  - discriminate.
  - reflexivity.
  - reflexivity.
  - reflexivity.
  - reflexivity.
Defined.

Lemma getProviderForModel_found `{GoLib} (r : router.Router)
    (modelName providerName : string) (provider : providers.Provider)
    (info : router.ProviderModelInfo) :
  router.getProviderForModel r modelName providerName = inl (provider, info) ->
  router.IsProviderEnabled (router.config r) providerName = true
  /\ router.registry r !! providerName = Some provider
  /\ router.GetProviderModelInfo (router.config r) modelName providerName
     = inl info.
Proof.
  unfold router.getProviderForModel.
  destruct (router.IsProviderEnabled (router.config r) providerName);
    [| discriminate].
  cbn [negb].
  destruct (router.registry r !! providerName) as [p |]; [| discriminate].
  destruct (router.GetProviderModelInfo (router.config r) modelName providerName)
    as [i | e]; [| discriminate].
  intros Heq. injection Heq as <- <-. auto.
Qed.

Lemma fallbackLoop_found `{GoLib} (r : router.Router)
    (modelName excludeProvider : string) (l : list string) (attempts : Z)
    (found : providers.Provider * router.ProviderModelInfo) :
  fst (router.fallbackLoop r modelName excludeProvider l attempts) = Some found ->
  exists providerName,
    In providerName l /\ providerName <> excludeProvider
    /\ router.getProviderForModel r modelName providerName = inl found.
Proof.
  revert attempts. induction l as [| p rest IH]; intros attempts; [discriminate |].
  cbn [router.fallbackLoop].
  destruct (String.eqb_spec p excludeProvider) as [Heq | Hne].
  - intros Hf. destruct (IH _ Hf) as (q & Hin & Hq). exists q. split; [now right | exact Hq].
  - destruct (router.Routing_Fallback_MaxAttempts (router.config r) <=? attempts);
      [discriminate |].
    destruct (router.getProviderForModel r modelName p) as [f | e] eqn:Hg.
    + cbn [fst]. intros Heq. injection Heq as <-.
      exists p. split; [now left | split; [exact Hne | exact Hg]].
    + specialize (IH (attempts + 1)).
      destruct (router.fallbackLoop r modelName excludeProvider rest (attempts + 1)).
      cbn [fst] in IH |- *. intros Hf.
      destruct (IH Hf) as (q & Hin & Hq). exists q. split; [now right | exact Hq].
Qed.

(** X20.  A provider [RouteRequest] returns is registered, under a name that
    is enabled and has model information for the model, and that name is the
    preferred provider, the model's default provider or, with both fallback
    switches on, a declared fallback other than the default. *)
Theorem routed_provider_is_enabled_and_registered `{GoLib} (r : router.Router)
    (modelName preferredProvider : string) (provider : providers.Provider)
    (info : router.ProviderModelInfo) :
  fst (router.RouteRequest r modelName preferredProvider) = inl (provider, info) ->
  exists providerName,
    router.IsProviderEnabled (router.config r) providerName = true
    /\ router.registry r !! providerName = Some provider
    /\ router.GetProviderModelInfo (router.config r) modelName providerName
       = inl info
    /\ ((providerName = preferredProvider /\ preferredProvider <> "")
        \/ providerName = router.GetDefaultProvider (router.config r) modelName
        \/ (In providerName (router.GetFallbackProviders (router.config r))
            /\ providerName
               <> router.GetDefaultProvider (router.config r) modelName
            /\ router.Features_AutoFallback (router.config r) = true
            /\ router.Routing_Fallback_Enabled (router.config r) = true)).
Proof.
  assert (Hdefault :
            fst (router.routeDefault r modelName) = inl (provider, info) ->
            exists providerName,
              router.getProviderForModel r modelName providerName
              = inl (provider, info)
              /\ (providerName
                  = router.GetDefaultProvider (router.config r) modelName
                  \/ (In providerName
                        (router.GetFallbackProviders (router.config r))
                      /\ providerName
                         <> router.GetDefaultProvider (router.config r) modelName
                      /\ router.Features_AutoFallback (router.config r) = true
                      /\ router.Routing_Fallback_Enabled (router.config r)
                         = true))).
  { unfold router.routeDefault.
    destruct (String.eqb (router.GetDefaultProvider (router.config r) modelName) "");
      [discriminate |].
    destruct (router.getProviderForModel r modelName
                (router.GetDefaultProvider (router.config r) modelName))
      as [f | e] eqn:Hg.
    - cbn [fst]. intros Heq. injection Heq as ->. eauto.
    - destruct (router.Features_AutoFallback (router.config r));
        [| discriminate].
      destruct (router.Routing_Fallback_Enabled (router.config r));
        [| discriminate].
      cbn [negb orb]. unfold router.tryFallbackProviders.
      pose proof (fallbackLoop_found r modelName
                    (router.GetDefaultProvider (router.config r) modelName)
                    (router.GetFallbackProviders (router.config r)) 0) as Hloop.
      destruct (router.fallbackLoop r modelName _ _ 0) as [res log].
      cbn [fst] in Hloop |- *. destruct res as [found |]; [| discriminate].
      intros Heq. injection Heq as ->.
      destruct (Hloop _ eq_refl) as (q & Hin & Hne & Hq).
      exists q. split; [exact Hq | right; auto]. }
  intros Hroute.
  assert (Hname : exists providerName,
            router.getProviderForModel r modelName providerName
            = inl (provider, info)
            /\ ((providerName = preferredProvider /\ preferredProvider <> "")
                \/ providerName
                   = router.GetDefaultProvider (router.config r) modelName
                \/ (In providerName
                      (router.GetFallbackProviders (router.config r))
                    /\ providerName
                       <> router.GetDefaultProvider (router.config r) modelName
                    /\ router.Features_AutoFallback (router.config r) = true
                    /\ router.Routing_Fallback_Enabled (router.config r)
                       = true))).
  { unfold router.RouteRequest in Hroute.
    destruct (String.eqb_spec preferredProvider "") as [Hempty | Hpref];
      cbn [negb] in Hroute.
    - destruct (Hdefault Hroute) as (q & Hq & Hwhich). eauto.
    - destruct (router.getProviderForModel r modelName preferredProvider)
        as [f | e] eqn:Hg.
      + cbn [fst] in Hroute. injection Hroute as ->. eauto.
      + destruct (router.routeDefault r modelName) as [res log].
        cbn [fst] in Hroute, Hdefault.
        destruct (Hdefault Hroute) as (q & Hq & Hwhich). eauto. }
  destruct Hname as (q & Hq & Hwhich).
  destruct (getProviderForModel_found r modelName q provider info Hq)
    as (He & Hr & Hi).
  exists q. auto.
Qed.

Lemma routed_provider_is_enabled_and_registered_witness :
  exists providerName,
    router.IsProviderEnabled (router.config (Samples.fallbackRouter 3))
      providerName = true
    /\ router.registry (Samples.fallbackRouter 3) !! providerName
       = Some (Samples.provider "azure").
Proof.
  destruct (routed_provider_is_enabled_and_registered (Samples.fallbackRouter 3)
              "gpt-4" "" (Samples.provider "azure")
              {| router.pmi_Model := "gpt-4" |} eq_refl)
    as (q & He & Hr & _).
  exists q. split; assumption.
Defined.

(** ** The Bedrock provider, the InvokeModel response and the model router *)

(** X21.  The Bedrock provider's [extractModelFromPath] reads the model id
    back from the path of a request the InvokeModel translator built, but
    from a path the Converse translator built it returns the id followed by
    [/converse] or [/converse-stream]. *)
Theorem model_used_read_back_from_path `{GoLib}
    (req : translator.ChatCompletionRequest)
    (providerReq : providers.ProviderRequest) (modelID : string) :
  (translator.TranslateOpenAIToBedrock req = inl (providerReq, modelID) ->
   bedrock_provider.extractModelFromPath (providers.Path providerReq) = modelID)
  /\ (translator.TranslateOpenAIToConverseAPI req = inl (providerReq, modelID) ->
      bedrock_provider.extractModelFromPath (providers.Path providerReq)
      = modelID +:+ (if translator.Stream req then "/converse-stream"
                     else "/converse")).
Proof.
  split.
  - unfold translator.TranslateOpenAIToBedrock.
    rewrite GetBedrockModelID_lookup.
    destruct (bedrock.BedrockModelIDMap !! translator.Model req) as [v |] eqn:Hm;
      [| discriminate].
    cbn [negb].
    destruct (json.Marshal _); [| discriminate].
    intros Heq. injection Heq as <- <-. cbn [providers.Path].
    apply BedrockModelIDMap_entries in Hm.
    generalize dependent (translator.Model req). intros model Hm.
    simpl in Hm.
    repeat (destruct Hm as [Hm | Hm];
            [injection Hm as <- <-; destruct (translator.Stream req);
             vm_compute; reflexivity |]).
    destruct Hm.
  - unfold translator.TranslateOpenAIToConverseAPI.
    rewrite GetBedrockModelID_lookup.
    destruct (bedrock.BedrockModelIDMap !! translator.Model req) as [v |] eqn:Hm;
      [| discriminate].
    cbn [negb].
    destruct (json.Marshal _); [| discriminate].
    intros Heq. injection Heq as <- <-. cbn [providers.Path].
    apply BedrockModelIDMap_entries in Hm.
    generalize dependent (translator.Model req). intros model Hm.
    simpl in Hm.
    repeat (destruct Hm as [Hm | Hm];
            [injection Hm as <- <-; destruct (translator.Stream req);
             vm_compute; reflexivity |]).
    destruct Hm.
Qed.

Lemma model_used_read_back_from_path_witness :
  match translator.TranslateOpenAIToConverseAPI
          (Samples.chat "claude-3-haiku" [] 0) with
  | inl (providerReq, modelID) =>
      modelID = "anthropic.claude-3-haiku-20240307-v1:0"
      /\ bedrock_provider.extractModelFromPath (providers.Path providerReq)
         = modelID +:+ "/converse"
  | inr _ => False
  end.
Proof.
  destruct (translator.TranslateOpenAIToConverseAPI
              (Samples.chat "claude-3-haiku" [] 0))
    as [[providerReq modelID] | err] eqn:Htr.
  - split.
    + vm_compute in Htr. injection Htr as _ Hid. symmetry. exact Hid.
    + exact (proj2 (model_used_read_back_from_path
                      (Samples.chat "claude-3-haiku" [] 0) providerReq modelID)
               Htr).
  - vm_compute in Htr. discriminate Htr.
Defined.

(** X22.  An upstream Bedrock response of status 400 or more reaches the
    client with the same status and a fixed message chosen by the status,
    never the upstream body; the error type is [invalid_request_error] for
    400 and 404, [authentication_error] for 401 and 403, [rate_limit_error]
    for 429 and [api_error] otherwise (the error codes being distinct). *)
Theorem bedrock_error_status_reaches_client `{providers.ErrCodes}
    `{providers.ServiceErrCodes} (statusCode : Z) (body : string) :
  List.NoDup [providers.ErrCodeInvalidRequest; providers.ErrCodeAuthenticationFail;
              providers.ErrCodeRateLimitExceeded; providers.ErrCodeModelNotFound;
              providers.ErrCodeServiceUnavailable; providers.ErrCodeInternalError] ->
  400 <= statusCode ->
  exists message code,
    openai_handler.handleProviderError
      (bedrock_provider.handleErrorResponse statusCode body)
    = openai_handler.Replied statusCode
        (openai_handler.ErrorResponse message
           (if (statusCode =? 400) || (statusCode =? 404)
            then "invalid_request_error"
            else if (statusCode =? 401) || (statusCode =? 403)
            then "authentication_error"
            else if statusCode =? 429 then "rate_limit_error"
            else "api_error")
           code)
    /\ bedrock_provider.handleErrorResponse statusCode body
       = providers.ProviderError statusCode message "bedrock" code
    /\ forall body',
         bedrock_provider.handleErrorResponse statusCode body'
         = bedrock_provider.handleErrorResponse statusCode body.
Proof.
  intros Hnd Hnz.
  repeat match goal with
         | H : List.NoDup (_ :: _) |- _ =>
             apply NoDup_cons_iff in H; destruct H as [? H]
         end.
  cbn [In] in *.
  assert (Hst : (statusCode =? 0) = false) by (apply Z.eqb_neq; lia).
  unfold bedrock_provider.handleErrorResponse, openai_handler.handleProviderError.
  destruct (statusCode =? 400) eqn:E400;
    [| destruct (statusCode =? 401) eqn:E401;
       [| destruct (statusCode =? 403) eqn:E403;
          [| destruct (statusCode =? 429) eqn:E429;
             [| destruct (statusCode =? 404) eqn:E404;
                [| destruct (statusCode =? 503) eqn:E503]]]]];
    cbn [orb]; rewrite Hst;
    try (rewrite Z.eqb_eq in *; subst statusCode; cbn [Z.eqb Pos.eqb orb]);
    eexists _, _;
    (split; [| split; [reflexivity | reflexivity]]);
    repeat match goal with
           | |- context [String.eqb ?a ?b] =>
               destruct (String.eqb_spec a b);
               [try (exfalso; intuition congruence) | try congruence]
           end;
    try reflexivity.
Qed.

Lemma bedrock_error_status_reaches_client_witness :
  exists message code,
    openai_handler.handleProviderError
      (bedrock_provider.handleErrorResponse 429 "{}")
    = openai_handler.Replied 429
        (openai_handler.ErrorResponse message "rate_limit_error" code).
Proof.
  destruct (bedrock_error_status_reaches_client 429 "{}")
    as (message & code & Hreply & _).
  - repeat constructor; simpl; intuition discriminate.
  - lia.
  - exists message, code. exact Hreply.
Defined.

Lemma collectText_spec (blocks : list translator.BedrockContentBlock) :
  translator.collectText blocks
  = strings.concat_all
      (map translator.bcb_Text (List.filter isTextBlock blocks)).
Proof.
  induction blocks as [| block rest IH]; [reflexivity |].
  cbn [translator.collectText List.filter]. unfold isTextBlock at 1.
  destruct (String.eqb (translator.bcb_Type block) "text");
    [cbn [map strings.concat_all]; now rewrite IH | exact IH].
Qed.

(** X23.  The InvokeModel response translator returns one choice whose
    content is always a string, the concatenation of the texts of the blocks
    of type [text] (the empty string when there is none), with no tool calls
    and a finish reason that is [length] for [max_tokens] and [stop] for
    everything else. *)
Theorem invoke_response_content_is_its_text
    (bedrockResp : translator.BedrockResponse) (openaiModel requestID : string) :
  exists choice,
    translator.Choices
      (translator.TranslateBedrockToOpenAI bedrockResp openaiModel requestID)
    = [choice]
    /\ translator.Content (translator.Message choice)
       = JStr (strings.concat_all
                 (map translator.bcb_Text
                    (List.filter isTextBlock
                       (translator.bresp_Content bedrockResp))))
    /\ translator.ToolCalls (translator.Message choice) = []
    /\ (translator.FinishReason choice
        = if String.eqb (translator.bresp_StopReason bedrockResp) "max_tokens"
          then "length" else "stop").
Proof.
  eexists. split; [reflexivity |]. cbn.
  rewrite collectText_spec. split; [reflexivity |]. split; [reflexivity |].
  unfold translator.mapStopReason.
  destruct (String.eqb_spec (translator.bresp_StopReason bedrockResp) "end_turn")
    as [-> |]; [reflexivity |].
  destruct (String.eqb (translator.bresp_StopReason bedrockResp) "max_tokens");
    [reflexivity |].
  destruct (String.eqb (translator.bresp_StopReason bedrockResp) "stop_sequence");
    reflexivity.
Qed.

Lemma register_invariant (r : router.ModelRouter providers.Provider)
    (op : Registration) :
  ((forall name p, router.providers r !! name = Some p -> providers.Name p = name)
   /\ (forall model name, router.modelMap r !! model = Some name ->
         is_Some (router.providers r !! name))) ->
  (forall name p, router.providers (register r op) !! name = Some p ->
     providers.Name p = name)
  /\ (forall model name, router.modelMap (register r op) !! model = Some name ->
        is_Some (router.providers (register r op) !! name)).
Proof.
  intros [Hnames Hmapped]. destruct op as [provider | model providerName].
  - unfold register, router.RegisterProvider.
    destruct (router.providers r !! providers.Name provider) as [q |] eqn:Hq;
      cbn [fst router.providers router.modelMap]; [split; assumption |].
    split.
    + intros name p. rewrite lookup_insert_Some.
      intros [[<- <-] | [_ Hp]]; [reflexivity | now apply Hnames].
    + intros m name Hm. apply Hmapped in Hm.
      destruct (decide (providers.Name provider = name)) as [<- | Hne].
      * rewrite lookup_insert_eq. eauto.
      * rewrite lookup_insert_ne by exact Hne. exact Hm.
  - unfold register, router.RegisterModelMapping.
    destruct (router.providers r !! providerName) as [q |] eqn:Hq;
      cbn [fst router.providers router.modelMap]; [| split; assumption].
    split; [exact Hnames |].
    intros m name. rewrite lookup_insert_Some.
    intros [[_ <-] | [_ Hm]]; [rewrite Hq; eauto | now apply Hmapped in Hm].
Qed.

Lemma configured_invariant (ops : list Registration) :
  (forall name p, router.providers (configured ops) !! name = Some p ->
     providers.Name p = name)
  /\ (forall model name, router.modelMap (configured ops) !! model = Some name ->
        is_Some (router.providers (configured ops) !! name)).
Proof.
  unfold configured.
  assert (Hgen : forall r,
            ((forall name p, router.providers r !! name = Some p ->
                providers.Name p = name)
             /\ (forall model name, router.modelMap r !! model = Some name ->
                   is_Some (router.providers r !! name))) ->
            (forall name p,
               router.providers (fold_left register ops r) !! name = Some p ->
               providers.Name p = name)
            /\ (forall model name,
                  router.modelMap (fold_left register ops r) !! model = Some name ->
                  is_Some (router.providers (fold_left register ops r) !! name))).
  { induction ops as [| op ops IH]; intros r Hr; [exact Hr |].
    cbn [fold_left]. apply IH. now apply register_invariant. }
  apply Hgen. split.
  - intros name p Hp. unfold router.NewModelRouter in Hp.
    cbn [router.providers] in Hp. rewrite lookup_empty in Hp. discriminate.
  - intros m name Hm. unfold router.NewModelRouter in Hm.
    cbn [router.modelMap] in Hm. rewrite lookup_empty in Hm. discriminate.
Qed.

(** X24.  On a [ModelRouter] set up by registrations alone, [RouteModel]
    never returns a nil provider without an error: the provider returned is
    the one registered under the name [GetProviderForModel] gives, and that
    name is the provider's own. *)
Theorem RouteModel_returns_registered_provider (ops : list Registration)
    (model : string) (res : option providers.Provider) :
  router.RouteModel (configured ops) model = inl res ->
  exists provider,
    res = Some provider
    /\ router.providers (configured ops)
         !! router.GetProviderForModel (configured ops) model = Some provider
    /\ providers.Name provider
       = router.GetProviderForModel (configured ops) model.
Proof.
  destruct (configured_invariant ops) as [Hnames Hmapped].
  unfold router.RouteModel, router.GetProviderForModel.
  destruct (router.modelMap (configured ops) !! model) as [name |] eqn:Hm.
  - intros Heq. injection Heq as <-.
    destruct (Hmapped _ _ Hm) as [p Hp]. exists p. rewrite Hp.
    split; [reflexivity | split; [reflexivity | now apply Hnames]].
  - destruct (String.eqb (router.matchModelPattern model) ""); cbn [negb];
      [discriminate |].
    destruct (router.providers (configured ops) !! router.matchModelPattern model)
      as [p |] eqn:Hp; [| discriminate].
    intros Heq. injection Heq as <-. exists p.
    split; [reflexivity | split; [reflexivity | now apply Hnames]].
Qed.

Lemma RouteModel_returns_registered_provider_witness :
  exists provider,
    router.providers
      (configured [RegProvider (Samples.provider "bedrock");
                   RegProvider (Samples.provider "openai");
                   RegMapping "gpt-4" "bedrock"])
      !! "bedrock" = Some provider
    /\ providers.Name provider = "bedrock".
Proof.
  destruct (RouteModel_returns_registered_provider
              [RegProvider (Samples.provider "bedrock");
               RegProvider (Samples.provider "openai");
               RegMapping "gpt-4" "bedrock"]
              "gpt-4" (Some (Samples.provider "bedrock")) eq_refl)
    as (provider & _ & Hp & Hn).
  exists provider. split; [exact Hp | exact Hn].
Defined.

(** ** Key authentication *)

(** X25.  [EnhancedAPIKeyAuth] calls [c.Next()] only for a request that
    presents a non-empty key the database accepts and, when two-factor
    authentication is required or enabled for the key, a non-empty TOTP code
    the manager accepts without error; it then writes no reply of its own and
    hands on the key's id.  Every other request is answered 401 and
    aborted. *)
Theorem chain_continues_only_when_authenticated (db : middleware.Auth)
    (require2FA : bool) (c : middleware.Context)
    (next : list (string * middleware.Value) -> Z) :
  let out := middleware.EnhancedAPIKeyAuth db require2FA c next in
  let totpCode := middleware.GetHeader c "X-TOTP-Code" in
  match middleware.passed out with
  | Some keys =>
      exists keyInfo,
        middleware.presentedKey c <> ""
        /\ middleware.ValidateAPIKey db (middleware.presentedKey c) = Some keyInfo
        /\ (require2FA = true
            \/ middleware.IsTOTPEnabled db (middleware.ID keyInfo) = true ->
            totpCode <> ""
            /\ middleware.ValidateTOTP db (middleware.ID keyInfo) totpCode
               = (true, false))
        /\ middleware.reply out = None
        /\ middleware.aborted out = false
        /\ In ("api_key_id", middleware.VInt64 (middleware.ID keyInfo)) keys
  | None =>
      exists body,
        middleware.reply out = Some (401, body)
        /\ middleware.aborted out = true
  end.
Proof.
  intros out totpCode. subst out. unfold middleware.EnhancedAPIKeyAuth.
  destruct (String.eqb_spec (middleware.presentedKey c) "") as [Hempty | Hkey].
  { cbn. eauto. }
  destruct (middleware.ValidateAPIKey db (middleware.presentedKey c))
    as [keyInfo |] eqn:Hvalid.
  2:{ cbn. eauto. }
  destruct (middleware.IsTOTPEnabled db (middleware.ID keyInfo)) eqn:H2fa;
    destruct require2FA; cbn [orb].
  4:{ cbn [middleware.passed middleware.reply middleware.aborted].
      exists keyInfo.
      split; [assumption | split; [reflexivity | split]].
      - intros [Hr | He]; congruence.
      - repeat split. simpl; auto. }
  all: fold totpCode;
    destruct (String.eqb_spec totpCode "") as [Hnone | Hcode];
    [cbn; eauto |];
    destruct (middleware.ValidateTOTP db (middleware.ID keyInfo) totpCode)
      as [valid failed] eqn:Htotp;
    destruct failed, valid; cbn [orb negb];
    try (cbn; eauto; fail);
    cbn [middleware.passed middleware.reply middleware.aborted];
    exists keyInfo;
    (split; [assumption | split; [reflexivity | split]]);
    [intros _; split; assumption | repeat split; simpl; auto ..].
Qed.

(** X26.  The [status] the middleware writes into the details of its
    [request_completed] record is [string(rune(statusCode))]: for every HTTP
    status from 100 to 599 it is one or two bytes that do not read back as an
    integer. *)
Theorem logged_status_is_not_a_number (statusCode : Z) :
  100 <= statusCode <= 599 ->
  strconv.Atoi (middleware.intToString statusCode) = None
  /\ (String.length (middleware.intToString statusCode) <= 2)%nat.
Proof.
  intros Hrange.
  assert (Hall : forallb
                   (fun n =>
                      match strconv.Atoi (middleware.intToString (Z.of_nat n)) with
                      | None =>
                          (String.length (middleware.intToString (Z.of_nat n))
                           <=? 2)%nat
                      | Some _ => false
                      end)
                   (seq 100 500) = true) by (vm_compute; reflexivity).
  rewrite forallb_forall in Hall.
  specialize (Hall (Z.to_nat statusCode)).
  rewrite Z2Nat.id in Hall by lia.
  assert (Hin : In (Z.to_nat statusCode) (seq 100 500)) by (apply in_seq; lia).
  specialize (Hall Hin).
  destruct (strconv.Atoi (middleware.intToString statusCode)); [discriminate |].
  split; [reflexivity | now apply Nat.leb_le].
Qed.

Lemma logged_status_is_not_a_number_witness :
  strconv.Atoi (middleware.intToString 200) = None.
Proof.
  apply (logged_status_is_not_a_number 200). lia.
Defined.

(** ** The document cache *)

Lemma Get_Set (c : documents.DocumentCache) (tSet tGet : Z) (url url' : string)
    (doc : option documents.Document) :
  documents.Get (documents.Set_ c tSet url doc) tGet url'
  = if String.eqb url' url
    then (if tSet + documents.ttl c <? tGet then None else doc)
    else documents.Get c tGet url'.
Proof.
  unfold documents.Get, documents.Set_. cbn [documents.entries].
  destruct (String.eqb_spec url' url) as [-> | Hne].
  - rewrite lookup_insert_eq. reflexivity.
  - rewrite lookup_insert_ne by congruence. reflexivity.
Qed.

(** X27.  After [FetchDocument] has fetched a document over HTTP, the
    document carries the URL and the length of its content, and a second
    fetch of the same URL no later than the cache's time-to-live after it was
    stored returns the same document without any HTTP request and leaves the
    cache as it is. *)
Theorem second_fetch_is_served_from_cache `{GoLib} (sha256hex : string -> string)
    (f : documents.DocumentFetcher) (url : string) (tGet tFetched tSet : Z)
    (doc : documents.Document) (c' : documents.DocumentCache)
    (tGet' tFetched' tSet' : Z) :
  documents.FetchDocument sha256hex f url tGet tFetched tSet
  = (inl doc, c', [url]) ->
  tGet' <= tSet + documents.ttl (documents.cache f) ->
  documents.URL doc = url
  /\ documents.Size doc = Z.of_nat (String.length (documents.Content doc))
  /\ documents.FetchDocument sha256hex (fetcherWith f c') url
       tGet' tFetched' tSet'
     = (inl doc, c', []).
Proof.
  unfold documents.FetchDocument.
  destruct (documents.Get (documents.cache f) tGet url) as [hit |];
    [discriminate |].
  destruct (documents.httpClient f url) as [err | err | status contentType body];
    try discriminate.
  destruct (negb (status =? 200)); [discriminate |].
  destruct body as [content | err]; [| discriminate].
  intros Heq Hfresh. injection Heq as <- <-.
  split; [reflexivity |]. split; [reflexivity |].
  cbn [fetcherWith documents.cache]. rewrite Get_Set.
  rewrite String.eqb_refl.
  destruct (tSet + documents.ttl (documents.cache f) <? tGet') eqn:Hlt;
    [apply Z.ltb_lt in Hlt; lia | reflexivity].
Qed.

Lemma second_fetch_is_served_from_cache_witness :
  let sha256hex := fun _ : string => "2cf24dba" in
  let f := {| documents.httpClient :=
                fun _ => documents.Response 200 "text/plain" (inl "hello");
              documents.cache := documents.NewDocumentCache 300000000000 |} in
  exists doc c',
    documents.FetchDocument sha256hex f "https://example.com/a.txt" 10 11 12
    = (inl doc, c', ["https://example.com/a.txt"])
    /\ documents.FetchDocument sha256hex (fetcherWith f c')
         "https://example.com/a.txt" 300000000012 0 0
       = (inl doc, c', []).
Proof.
  intros sha256hex f. eexists _, _. split; [reflexivity |].
  refine (proj2 (proj2 (second_fetch_is_served_from_cache sha256hex f
                          "https://example.com/a.txt" 10 11 12 _ _
                          300000000012 0 0 _ _))).
  - reflexivity.
  - cbn. lia.
Defined.

(** X28.  [cleanup] cannot be observed through [Get]: at any time not before
    the cleanup, every URL gives the same answer with and without it; the
    cache does not grow, and every entry left has not expired. *)
Theorem cleanup_only_drops_expired (c : documents.DocumentCache)
    (now now' : Z) (url : string) :
  now <= now' ->
  documents.Get (documents.cleanup c now) now' url = documents.Get c now' url
  /\ documents.Size_ (documents.cleanup c now) <= documents.Size_ c
  /\ (forall entry,
        documents.entries (documents.cleanup c now) !! url = Some entry ->
        now <= documents.expiresAt entry).
Proof.
  intros Hle. unfold documents.Get, documents.cleanup, documents.Size_.
  cbn [documents.entries].
  split; [| split].
  - destruct (documents.entries c !! url) as [entry |] eqn:He.
    + destruct (decide (documents.expiresAt entry < now)) as [Hexp | Hlive].
      * assert (Hnone : filter
                          (fun kv : string * documents.cacheEntry =>
                             ~ documents.expiresAt (snd kv) < now)
                          (documents.entries c) !! url = None).
        { apply map_lookup_filter_None. right. intros x Hx.
          rewrite He in Hx. injection Hx as <-. cbn. tauto. }
        rewrite Hnone.
        destruct (documents.expiresAt entry <? now') eqn:Hlt; [reflexivity |].
        apply Z.ltb_ge in Hlt. lia.
      * assert (Hsome : filter
                          (fun kv : string * documents.cacheEntry =>
                             ~ documents.expiresAt (snd kv) < now)
                          (documents.entries c) !! url = Some entry).
        { apply map_lookup_filter_Some. split; [exact He | exact Hlive]. }
        rewrite Hsome. reflexivity.
    + assert (Hnone : filter
                        (fun kv : string * documents.cacheEntry =>
                           ~ documents.expiresAt (snd kv) < now)
                        (documents.entries c) !! url = None).
      { apply map_lookup_filter_None. left. exact He. }
      rewrite Hnone. reflexivity.
  - apply Nat2Z.inj_le. apply map_size_filter.
  - intros entry Hentry. apply map_lookup_filter_Some in Hentry.
    destruct Hentry as [_ Hlive]. cbn in Hlive. lia.
Qed.

Lemma cleanup_only_drops_expired_witness :
  documents.Get
    (documents.cleanup
       (documents.Set_ (documents.NewDocumentCache 5) 100 "u" None) 200)
    300 "u"
  = documents.Get (documents.Set_ (documents.NewDocumentCache 5) 100 "u" None)
      300 "u".
Proof.
  apply (cleanup_only_drops_expired
           (documents.Set_ (documents.NewDocumentCache 5) 100 "u" None)
           200 300 "u").
  lia.
Defined.

(** ** The Vertex translators *)

Lemma append_assoc (s t u : string) : (s +:+ t) +:+ u = s +:+ (t +:+ u).
Proof.
  induction s as [| c s IH]; [reflexivity |].
  change (String c s +:+ t) with (String c (s +:+ t)).
  change (String c (s +:+ t) +:+ u) with (String c ((s +:+ t) +:+ u)).
  change (String c s +:+ (t +:+ u)) with (String c (s +:+ (t +:+ u))).
  now rewrite IH.
Qed.

Lemma append_empty_r (s : string) : s +:+ "" = s.
Proof.
  induction s as [| c s IH]; [reflexivity |].
  change (String c s +:+ "") with (String c (s +:+ "")). now rewrite IH.
Qed.

Lemma collectParts_spec `{GoLib} (parts : list vertex.VertexPart)
    (content : string) (toolCalls : list translator.ToolCall) :
  let calls := omap vertex.FunctionCall parts in
  let result := vertex.collectParts parts content toolCalls in
  fst result = content +:+ strings.concat_all (map vertex.Text parts)
  /\ map translator.tc_ID (snd result)
     = map translator.tc_ID toolCalls
       ++ map (fun i => "call_" +:+ fmt_d (Z.of_nat i))
            (seq (length toolCalls) (length calls))
  /\ map (fun c => translator.fc_Name (translator.tc_Function c)) (snd result)
     = map (fun c => translator.fc_Name (translator.tc_Function c)) toolCalls
       ++ map vertex.fc_Name calls
  /\ length (snd result) = (length toolCalls + length calls)%nat.
Proof.
  revert content toolCalls.
  induction parts as [| part rest IH]; intros content toolCalls.
  - cbn. rewrite append_empty_r, !app_nil_r. auto.
  - cbn [vertex.collectParts map strings.concat_all omap list_omap].
    assert (Hcontent :
              (if negb (String.eqb (vertex.Text part) "")
               then content +:+ vertex.Text part else content)
              = content +:+ vertex.Text part).
    { destruct (String.eqb_spec (vertex.Text part) "") as [-> |];
        [now rewrite append_empty_r | reflexivity]. }
    rewrite Hcontent.
    destruct (vertex.FunctionCall part) as [call |].
    + specialize (IH (content +:+ vertex.Text part)
                    (toolCalls
                     ++ [{| translator.tc_ID :=
                              "call_" +:+ fmt_d (Z.of_nat (length toolCalls));
                            translator.tc_Type := "function";
                            translator.tc_Function :=
                              {| translator.fc_Name := vertex.fc_Name call;
                                 translator.fc_Arguments :=
                                   if json.encodable (vertex.fc_Args call)
                                   then json_text (vertex.fc_Args call)
                                   else "" |} |}])).
      cbv zeta in IH. destruct IH as (Hc & Hid & Hname & Hlen).
      cbv zeta. rewrite Hc, Hid, Hname, Hlen.
      rewrite !map_app, !length_app. cbn [map length seq].
      rewrite append_assoc, <- !app_assoc. cbn [app].
      replace (length toolCalls + 1)%nat with (S (length toolCalls)) by lia.
      repeat split; lia.
    + specialize (IH (content +:+ vertex.Text part) toolCalls).
      cbv zeta in IH. destruct IH as (Hc & Hid & Hname & Hlen).
      cbv zeta. rewrite Hc, Hid, Hname, Hlen, append_assoc. auto.
Qed.

(** X29.  The Vertex response translator returns one choice whose content
    is the concatenation of the texts of the first candidate's parts and
    whose tool calls are its function calls, in order, with the ids [call_0],
    [call_1], ...; when there is any function call the finish reason is
    [tool_calls], whatever the candidate's own finish reason. *)
Theorem vertex_tool_calls_are_numbered `{GoLib} (resp : vertex.VertexResponse)
    (model : string) (tID tCreated : Z) (candidate : vertex.VertexCandidate)
    (others : list vertex.VertexCandidate) :
  vertex.Candidates resp = candidate :: others ->
  let parts := vertex.Parts (vertex.Content candidate) in
  let calls := omap vertex.FunctionCall parts in
  exists choice,
    translator.Choices (vertex.translateVertexToOpenAI resp model tID tCreated)
    = [choice]
    /\ translator.Content (translator.Message choice)
       = JStr (strings.concat_all (map vertex.Text parts))
    /\ map translator.tc_ID (translator.ToolCalls (translator.Message choice))
       = map (fun i => "call_" +:+ fmt_d (Z.of_nat i)) (seq 0 (length calls))
    /\ map (fun c => translator.fc_Name (translator.tc_Function c))
         (translator.ToolCalls (translator.Message choice))
       = map vertex.fc_Name calls
    /\ (calls <> [] -> translator.FinishReason choice = "tool_calls").
Proof.
  intros Hcand parts calls. unfold vertex.translateVertexToOpenAI.
  rewrite Hcand.
  pose proof (collectParts_spec parts "" []) as Hspec. cbv zeta in Hspec.
  fold parts.
  destruct (vertex.collectParts parts "" []) as [content toolCalls].
  cbn [fst snd map length app] in Hspec.
  destruct Hspec as (Hc & Hid & Hname & Hlen).
  eexists. split; [reflexivity |].
  cbn [translator.Message translator.Content translator.ToolCalls
       translator.FinishReason].
  split; [now rewrite Hc |]. split; [exact Hid |]. split; [exact Hname |].
  intros Hcalls. fold calls in Hlen.
  destruct calls as [| call calls']; [contradiction |].
  destruct toolCalls; [discriminate Hlen | reflexivity].
Qed.

Lemma vertex_tool_calls_are_numbered_witness :
  let call name :=
    {| vertex.Text := "";
       vertex.FunctionCall :=
         Some {| vertex.fc_Name := name; vertex.fc_Args := JObj [] |};
       vertex.FunctionResponse := None |} in
  let resp :=
    {| vertex.Candidates :=
         [{| vertex.Content :=
               {| vertex.Role := "model";
                  vertex.Parts := [call "lookup"; vertex.textPart "ok";
                                   call "search"] |};
             vertex.FinishReason := "MAX_TOKENS";
             vertex.Index := 0 |}];
       vertex.UsageMetadata := None |} in
  exists choice,
    translator.Choices (vertex.translateVertexToOpenAI resp "gemini-pro" 7 7)
    = [choice]
    /\ map translator.tc_ID (translator.ToolCalls (translator.Message choice))
       = ["call_" +:+ fmt_d 0; "call_" +:+ fmt_d 1]
    /\ translator.FinishReason choice = "tool_calls".
Proof.
  intros call resp.
  destruct (vertex_tool_calls_are_numbered resp "gemini-pro" 7 7 _ _ eq_refl)
    as (choice & Hchoice & _ & Hid & _ & Hfinish).
  exists choice. split; [exact Hchoice |]. split; [exact Hid |].
  apply Hfinish. discriminate.
Defined.

(** X30.  A Vertex response translated to the OpenAI form and sent back as
    the only message of a request becomes one [model] content with a single
    part whose text is the concatenation of the texts of the response's
    parts. *)
Theorem vertex_text_round_trip `{GoLib} (resp : vertex.VertexResponse)
    (model : string) (tID tCreated : Z) (candidate : vertex.VertexCandidate)
    (others : list vertex.VertexCandidate)
    (req : translator.ChatCompletionRequest) :
  vertex.Candidates resp = candidate :: others ->
  translator.Messages req
  = map translator.Message
      (translator.Choices
         (vertex.translateVertexToOpenAI resp model tID tCreated)) ->
  vertex.Contents (vertex.translateOpenAIToVertex req)
  = [{| vertex.Role := "model";
        vertex.Parts :=
          [vertex.textPart
             (strings.concat_all
                (map vertex.Text (vertex.Parts (vertex.Content candidate))))] |}].
Proof.
  intros Hcand Hmsgs. unfold vertex.translateVertexToOpenAI in Hmsgs.
  rewrite Hcand in Hmsgs.
  pose proof (collectParts_spec (vertex.Parts (vertex.Content candidate)) "" [])
    as Hspec.
  cbv zeta in Hspec. destruct Hspec as (Hc & _).
  destruct (vertex.collectParts (vertex.Parts (vertex.Content candidate)) "" [])
    as [content toolCalls].
  cbn [fst] in Hc. cbn [translator.Choices map translator.Message] in Hmsgs.
  unfold vertex.translateOpenAIToVertex. rewrite Hmsgs.
  cbn [vertex.convertMessages translator.Role translator.Content
       String.eqb Ascii.eqb Bool.eqb vertex.extractTextContent vertex.Contents].
  rewrite Hc. reflexivity.
Qed.

Lemma vertex_text_round_trip_witness :
  let resp :=
    {| vertex.Candidates :=
         [{| vertex.Content :=
               {| vertex.Role := "model";
                  vertex.Parts := [vertex.textPart "Hello, ";
                                   vertex.textPart "world"] |};
             vertex.FinishReason := "STOP";
             vertex.Index := 0 |}];
       vertex.UsageMetadata := None |} in
  let req :=
    {| translator.Model := "gemini-pro";
       translator.Messages :=
         map translator.Message
           (translator.Choices
              (vertex.translateVertexToOpenAI resp "gemini-pro" 7 7));
       translator.MaxTokens := 0;
       translator.Temperature := PrimFloat.zero;
       translator.TopP := PrimFloat.zero;
       translator.Stop := [];
       translator.Stream := false;
       translator.Tools := [];
       translator.Functions := [];
       translator.ToolChoice := JNull |} in
  vertex.Contents (vertex.translateOpenAIToVertex req)
  = [{| vertex.Role := "model";
        vertex.Parts := [vertex.textPart "Hello, world"] |}].
Proof.
  intros resp req.
  apply (vertex_text_round_trip resp "gemini-pro" 7 7 _ _ req eq_refl eq_refl).
Defined.
